(** * analytical_agent: the step-by-step analysis pipeline and the
      time-series preparation, embedded in Rocq.

    Sources embedded here:
    - [src/step_by_step_analytics.py], class [StepByStepAnalytics]
      ([analyze_data_step_by_step] and its six [_step_k_...] methods);
    - [src/visualizations.py], [ChartGenerator.prepare_time_series_data].

    Conventions of the embedding.
    - A pandas [DataFrame] is the ordered list of its columns; a column
      ([Series]) carries its label, its dtype and its cells.  [len(data)]
      is the common length of the columns.
      Labels are strings and, in the frames the properties speak of,
      unique, so [data[col]] for a label of [data.columns] is that
      column.
    - A cell is [VNull] (None / NaN / NaT, everything [isnull] answers
      True for), a finite number, an infinity, a string, a timestamp or
      a monthly period.
    - Python exceptions are explicit: a method returns [Ok v] or
      [Raise e]; [try: ... except: pass] is a match on that result.
    - float64 arithmetic is modelled exactly: finite floats are
      rationals, NaN and the infinities are separate constructors with
      the IEEE rules for division by zero, and a square root is kept
      symbolic (see [sfloat]).  Rounding is not modelled;
      [RealReading] relates the comparisons of the model to the real
      numbers, and [table_85_in_binary64] re-checks one boundary in
      binary64.
    - The pandas reductions the methods call (sum, mean, std, quantile,
      nunique, duplicated, groupby, corr, sort_values, idxmax) are
      written out on this model from their documented behaviour.
    - The pandas entry points whose behaviour depends on pandas' parsers
      ([pd.to_datetime], [pd.to_numeric], [str]) are parameters of the
      development (Section variables); [RefPandas] gives one concrete
      instance used for evaluation.
    - f-strings that format numbers are kept as constructors holding
      the formatted values ([insight]); f-strings that only splice
      labels or counts are strings. *)

From Stdlib Require Import String Ascii Bool Arith ZArith QArith List.
From Stdlib Require Import Qabs Qround Lia Lqa DecimalString Permutation Sorted.
From Stdlib Require Reals Qreals Lra PrimFloat Uint63.
Import ListNotations.
Local Open Scope string_scope.
Local Open Scope Z_scope.
Local Open Scope list_scope.

(* ================================================================= *)
(** * Exceptions *)

Inductive exn : Type :=
| IndexError
| ZeroDivisionError
| ValueError
| TypeError
| KeyError.

Inductive result (A : Type) : Type :=
| Ok (a : A)
| Raise (e : exn).

Arguments Ok {A} a.
Arguments Raise {A} e.

Definition bind {A B : Type} (m : result A) (k : A -> result B) : result B :=
  match m with
  | Ok a => k a
  | Raise e => Raise e
  end.

Notation "x <- m ;; k" := (bind m (fun x => k))
  (at level 61, m at next level, right associativity).

(** [try: m  except: pass]: only whether [m] raised matters. *)
Definition succeeds {A : Type} (m : result A) : bool :=
  match m with
  | Ok _ => true
  | Raise _ => false
  end.

(* ================================================================= *)
(** * Exact model of float64 values *)

Inductive npfloat : Type :=
| NaN
| PInf
| NInf
| Fin (q : Q).

Definition of_Z (z : Z) : npfloat := Fin (inject_Z z).
Definition of_nat (n : nat) : npfloat := of_Z (Z.of_nat n).

Definition Qsgn (q : Q) : Z := Z.sgn (Qnum q).

Definition fneg (x : npfloat) : npfloat :=
  match x with
  | NaN => NaN
  | PInf => NInf
  | NInf => PInf
  | Fin q => Fin (- q)
  end.

Definition fadd (x y : npfloat) : npfloat :=
  match x, y with
  | NaN, _ | _, NaN => NaN
  | PInf, NInf | NInf, PInf => NaN
  | PInf, _ | _, PInf => PInf
  | NInf, _ | _, NInf => NInf
  | Fin a, Fin b => Fin (a + b)
  end.

Definition fsub (x y : npfloat) : npfloat := fadd x (fneg y).

Definition inf_of_sign (s : Z) : npfloat :=
  match s with
  | Z0 => NaN
  | Zpos _ => PInf
  | Zneg _ => NInf
  end.

Definition fsign (x : npfloat) : option Z :=
  match x with
  | NaN => None
  | PInf => Some 1
  | NInf => Some (-1)
  | Fin q => Some (Qsgn q)
  end.

Definition fmul (x y : npfloat) : npfloat :=
  match x, y with
  | Fin a, Fin b => Fin (a * b)
  | _, _ =>
      match fsign x, fsign y with
      | Some s, Some t => inf_of_sign (s * t)
      | _, _ => NaN
      end
  end.

(** numpy true division: a zero divisor gives NaN or an infinity (with a
    RuntimeWarning), never an exception. *)
Definition fdiv (x y : npfloat) : npfloat :=
  match x, y with
  | NaN, _ | _, NaN => NaN
  | Fin a, Fin b =>
      if Qeq_bool b 0 then inf_of_sign (Qsgn a) else Fin (a / b)
  | Fin _, _ => Fin 0
  | _, Fin b => if Qeq_bool b 0 then x else fmul x (Fin b)
  | _, _ => NaN
  end.

(** [x > y], [x < y], [x >= y], [x == y]: every comparison with NaN is False. *)
Definition fgtb (x y : npfloat) : bool :=
  match x, y with
  | NaN, _ | _, NaN => false
  | PInf, PInf => false
  | PInf, _ => true
  | _, PInf => false
  | NInf, _ => false
  | Fin _, NInf => true
  | Fin a, Fin b => negb (Qle_bool a b)
  end.

Definition fltb (x y : npfloat) : bool := fgtb y x.

Definition feqb (x y : npfloat) : bool :=
  match x, y with
  | PInf, PInf | NInf, NInf => true
  | Fin a, Fin b => Qeq_bool a b
  | _, _ => false
  end.

Definition fgeb (x y : npfloat) : bool := fgtb x y || feqb x y.
Definition fleb (x y : npfloat) : bool := fgeb y x.

Definition fisnan (x : npfloat) : bool :=
  match x with NaN => true | _ => false end.

(** A float obtained through one square root: [SFin c r] is the real
    number [c * sqrt r] (with [0 <= r]). *)
Inductive sfloat : Type :=
| SNaN
| SPInf
| SNInf
| SFin (c : Q) (r : Q).

Definition sfloat_of (x : npfloat) : sfloat :=
  match x with
  | NaN => SNaN
  | PInf => SPInf
  | NInf => SNInf
  | Fin q => SFin q 1
  end.

(** [np.sqrt x] *)
Definition fsqrt (x : npfloat) : sfloat :=
  match x with
  | NaN | NInf => SNaN
  | PInf => SPInf
  | Fin q => if Qle_bool 0 q then SFin 1 q else SNaN
  end.

Definition ssign (x : sfloat) : option Z :=
  match x with
  | SNaN => None
  | SPInf => Some 1
  | SNInf => Some (-1)
  | SFin c r => Some (Qsgn c * Qsgn r)
  end.

Definition sinf_of_sign (s : Z) : sfloat :=
  match s with
  | Z0 => SNaN
  | Zpos _ => SPInf
  | Zneg _ => SNInf
  end.

(** [x / y] for a square root [x] and a rational float [y]. *)
Definition sdiv (x : sfloat) (y : npfloat) : sfloat :=
  match x, y with
  | SNaN, _ | _, NaN => SNaN
  | SFin c r, Fin b =>
      if Qeq_bool b 0 then sinf_of_sign (Qsgn c * Qsgn r) else SFin (c / b) r
  | SFin _ _, _ => SFin 0 1
  | _, Fin b =>
      match ssign x with
      | Some s => if Qeq_bool b 0 then x else sinf_of_sign (s * Qsgn b)
      | None => SNaN
      end
  | _, _ => SNaN
  end.

(** [x / y] for a rational float [x] and a square root [y]:
    [a / (c * sqrt r) = (a / (c * r)) * sqrt r]. *)
Definition fdivs (x : npfloat) (y : sfloat) : sfloat :=
  match x, y with
  | NaN, _ | _, SNaN => SNaN
  | Fin a, SFin c r =>
      if Qeq_bool (c * r) 0 then sinf_of_sign (Qsgn a) else SFin (a / (c * r)) r
  | Fin _, _ => SFin 0 1
  | _, SFin c r =>
      match fsign x with
      | Some s =>
          if Qeq_bool (c * r) 0 then sfloat_of x
          else sinf_of_sign (s * (Qsgn c * Qsgn r))
      | None => SNaN
      end
  | _, _ => SNaN
  end.

Definition smulq (x : sfloat) (k : Q) : sfloat :=
  match x with
  | SFin c r => SFin (c * k) r
  | _ => match ssign x with
         | Some s => sinf_of_sign (s * Qsgn k)
         | None => SNaN
         end
  end.

(** [abs(x)] *)
Definition sabs (x : sfloat) : sfloat :=
  match x with
  | SNaN => SNaN
  | SPInf | SNInf => SPInf
  | SFin c r => SFin (Qabs c) r
  end.

(** [x > t] for a rational threshold [t]; decided exactly by comparing
    squares.  A comparison with NaN is False. *)
Definition sgtb (x : sfloat) (t : Q) : bool :=
  match x with
  | SNaN => false
  | SPInf => true
  | SNInf => false
  | SFin c r =>
      if Qle_bool 0 t
      then negb (Qle_bool c 0) && negb (Qle_bool (c * c * r) (t * t))
      else Qle_bool 0 c || negb (Qle_bool (t * t) (c * c * r))
  end.

(* ================================================================= *)
(** * Data model: cells, columns, frames *)

(** A timestamp is a number of nanoseconds since the epoch, as in
    [datetime64[ns]]. *)
Definition Timestamp : Type := Z.

Inductive value : Type :=
| VNull                      (* None, NaN, NaT *)
| VNum (q : Q)               (* a finite int or float *)
| VInf (negative : bool)     (* float('inf'), float('-inf') *)
| VStr (s : string)
| VDate (t : Timestamp)
| VPeriod (ordinal : Z).     (* a monthly Period: months since 1970-01 *)

Inductive dtype : Type :=
| Int64
| Float64
| Boolean
| Datetime64
| Period
| Object.

Record Series : Type := mkSeries {
  name : string;
  col_dtype : dtype;
  values : list value
}.

Definition DataFrame : Type := list Series.

Definition isnull (v : value) : bool :=
  match v with VNull => true | _ => false end.

Definition notnull (v : value) : bool := negb (isnull v).

Definition value_eqb (a b : value) : bool :=
  match a, b with
  | VNull, VNull => true
  | VNum p, VNum q => Qeq_bool p q
  | VInf s, VInf t => Bool.eqb s t
  | VStr s, VStr t => String.eqb s t
  | VDate s, VDate t => Z.eqb s t
  | VPeriod s, VPeriod t => Z.eqb s t
  | _, _ => false
  end.

Definition dtype_eqb (a b : dtype) : bool :=
  match a, b with
  | Int64, Int64 | Float64, Float64 | Boolean, Boolean
  | Datetime64, Datetime64 | Period, Period | Object, Object => true
  | _, _ => false
  end.

(** The float a numeric cell holds. *)
Definition to_float (v : value) : npfloat :=
  match v with
  | VNum q => Fin q
  | VInf false => PInf
  | VInf true => NInf
  | VDate t => of_Z t
  | VPeriod o => of_Z o
  | VNull | VStr _ => NaN
  end.

(** [len(data)]: the length of the index, i.e. of every column. *)
Definition len (data : DataFrame) : nat :=
  match data with
  | [] => 0%nat
  | c :: _ => length (values c)
  end.

(** [data.columns] *)
Definition columns (data : DataFrame) : list string := map name data.

(** [data.empty]: some axis has length zero. *)
Definition empty (data : DataFrame) : bool :=
  (length data =? 0)%nat || (len data =? 0)%nat.

(** [name in data.columns] *)
Definition has_column (data : DataFrame) (n : string) : bool :=
  existsb (String.eqb n) (columns data).

(** [data[n]] for a label present once. *)
Definition getcol (data : DataFrame) (n : string) : option Series :=
  find (fun c => String.eqb n (name c)) data.

(** [data[n] = vs]: replaces the column of that label in place, or
    appends a new last column. *)
Fixpoint setcol (data : DataFrame) (c : Series) : DataFrame :=
  match data with
  | [] => [c]
  | d :: rest =>
      if String.eqb (name c) (name d) then c :: rest else d :: setcol rest c
  end.

(** Every column has the length of the index and labels are unique. *)
Definition wf (data : DataFrame) : Prop :=
  Forall (fun c => length (values c) = len data) data /\ NoDup (columns data).

(** [s.head(n)] *)
Definition head (n : nat) (s : Series) : Series :=
  mkSeries (name s) (col_dtype s) (firstn n (values s)).

(** [s.dropna()] *)
Definition dropna_series (s : Series) : Series :=
  mkSeries (name s) (col_dtype s) (filter notnull (values s)).

(** [s.isnull().sum()] and [s.count()] *)
Definition null_count (s : Series) : nat :=
  length (filter isnull (values s)).

Definition count (s : Series) : nat :=
  length (filter notnull (values s)).

(** [data.isnull().sum().sum()] *)
Definition isnull_sum_sum (data : DataFrame) : nat :=
  list_sum (map null_count data).

(** Row [i] of the frame, and all its rows in index order. *)
Definition row_at (data : DataFrame) (i : nat) : list value :=
  map (fun c => nth i (values c) VNull) data.

Definition rows (data : DataFrame) : list (list value) :=
  map (row_at data) (seq 0 (len data)).

Fixpoint row_eqb (r s : list value) : bool :=
  match r, s with
  | [], [] => true
  | a :: r', b :: s' => value_eqb a b && row_eqb r' s'
  | _, _ => false
  end.

(** [data.duplicated()] with the default [keep='first']: a row is marked
    when an earlier row has the same value in every column (nulls
    compare equal to nulls). *)
Fixpoint duplicated_from (seen : list (list value)) (rs : list (list value))
  : list bool :=
  match rs with
  | [] => []
  | r :: rest => existsb (row_eqb r) seen :: duplicated_from (r :: seen) rest
  end.

Definition duplicated (data : DataFrame) : list bool :=
  duplicated_from [] (rows data).

Definition count_true (bs : list bool) : nat :=
  length (filter (fun b => b) bs).

(** [len(data.dropna())] *)
Definition complete_rows (data : DataFrame) : nat :=
  length (filter (forallb notnull) (rows data)).

(** [data.select_dtypes(include=[np.number]).columns]: integer and float
    columns; booleans, datetimes and objects are not numbers. *)
Definition is_number_dtype (d : dtype) : bool :=
  match d with
  | Int64 | Float64 => true
  | _ => false
  end.

(** [pd.api.types.is_numeric_dtype]: numbers and booleans. *)
Definition is_numeric_dtype (s : Series) : bool :=
  match col_dtype s with
  | Int64 | Float64 | Boolean => true
  | _ => false
  end.

Definition select_dtypes_number (data : DataFrame) : list Series :=
  filter (fun c => is_number_dtype (col_dtype c)) data.

(* ================================================================= *)
(** * Strings *)

Definition lower_ascii (c : ascii) : ascii :=
  let n := nat_of_ascii c in
  if ((65 <=? n) && (n <=? 90))%nat then ascii_of_nat (n + 32) else c.

(** [s.lower()] (ASCII letters) *)
Fixpoint lower (s : string) : string :=
  match s with
  | EmptyString => EmptyString
  | String c rest => String (lower_ascii c) (lower rest)
  end.

(** [w in s] *)
Fixpoint contains (w s : string) : bool :=
  String.prefix w s ||
  match s with
  | EmptyString => false
  | String _ rest => contains w rest
  end.

(** [s.replace(a, b)] for single characters. *)
Fixpoint replace_char (a b : ascii) (s : string) : string :=
  match s with
  | EmptyString => EmptyString
  | String c rest =>
      String (if Ascii.eqb c a then b else c) (replace_char a b rest)
  end.

Definition str_of_nat (n : nat) : string :=
  NilEmpty.string_of_uint (Nat.to_uint n).

(* ================================================================= *)
(** * pandas reductions (all with the default [skipna=True]) *)

Definition floats (s : Series) : list npfloat :=
  map to_float (filter notnull (values s)).

Definition fsum (xs : list npfloat) : npfloat :=
  fold_left fadd xs (Fin 0).

(** [s.sum()]: 0 for an empty or all-null column. *)
Definition sum (s : Series) : npfloat := fsum (floats s).

Definition fmean (xs : list npfloat) : npfloat :=
  match xs with
  | [] => NaN
  | _ => fdiv (fsum xs) (of_nat (length xs))
  end.

(** [s.mean()]: NaN for an empty or all-null column. *)
Definition mean (s : Series) : npfloat := fmean (floats s).

(** Sample variance, [ddof=1]: NaN for fewer than two observations. *)
Definition fvar (xs : list npfloat) : npfloat :=
  match xs with
  | [] => NaN
  | _ =>
      let m := fmean xs in
      fdiv (fsum (map (fun x => fmul (fsub x m) (fsub x m)) xs))
           (of_Z (Z.of_nat (length xs) - 1))
  end.

Definition fstd (xs : list npfloat) : sfloat := fsqrt (fvar xs).

(** [s.std()] *)
Definition std (s : Series) : sfloat := fstd (floats s).

Fixpoint insert_by {A : Type} (le : A -> A -> bool) (x : A) (l : list A)
  : list A :=
  match l with
  | [] => [x]
  | y :: rest => if le x y then x :: l else y :: insert_by le x rest
  end.

(** A stable sort: equal keys keep their order. *)
Definition sort_by {A : Type} (le : A -> A -> bool) (l : list A) : list A :=
  fold_right (insert_by le) [] l.

Definition fmin (xs : list npfloat) : npfloat :=
  match sort_by fleb xs with
  | [] => NaN
  | x :: _ => x
  end.

Definition fmax (xs : list npfloat) : npfloat :=
  last (sort_by fleb xs) NaN.

(** [s.quantile(q)], linear interpolation between the two nearest order
    statistics; NaN for an empty column. *)
Definition fquantile (q : Q) (xs : list npfloat) : npfloat :=
  match sort_by fleb xs with
  | [] => NaN
  | (x0 :: _) as sorted =>
      let pos := (q * inject_Z (Z.of_nat (length xs) - 1))%Q in
      let lo := Qfloor pos in
      let frac := (pos - inject_Z lo)%Q in
      let a := nth (Z.to_nat lo) sorted x0 in
      if Qeq_bool frac 0 then a
      else
        let b := nth (S (Z.to_nat lo)) sorted a in
        fadd a (fmul (fsub b a) (Fin frac))
  end.

Definition quantile (s : Series) (q : Q) : npfloat := fquantile q (floats s).
Definition median (s : Series) : npfloat := quantile s (1 # 2).
(** [s.min()], [s.max()] *)
Definition series_min (s : Series) : npfloat := fmin (floats s).
Definition series_max (s : Series) : npfloat := fmax (floats s).

(** First occurrences only. *)
Fixpoint unique_from (seen : list value) (vs : list value) : list value :=
  match vs with
  | [] => []
  | v :: rest =>
      if existsb (value_eqb v) seen then unique_from seen rest
      else v :: unique_from (v :: seen) rest
  end.

Definition unique (vs : list value) : list value := unique_from [] vs.

(** [s.nunique()]: distinct non-null values; a Python [int]. *)
Definition nunique (s : Series) : nat :=
  length (unique (filter notnull (values s))).

(** Order used to sort group keys: numbers, then timestamps, then
    strings, then periods; nulls never are keys. *)
Definition value_rank (v : value) : Z :=
  match v with
  | VNull => 4
  | VInf true => 0
  | VNum _ => 1
  | VInf false => 2
  | VDate _ => 3
  | VPeriod _ => 6
  | VStr _ => 5
  end.

Definition value_leb (a b : value) : bool :=
  match a, b with
  | VNum p, VNum q => Qle_bool p q
  | VDate s, VDate t => s <=? t
  | VPeriod s, VPeriod t => s <=? t
  | VStr s, VStr t => String.leb s t
  | _, _ => value_rank a <=? value_rank b
  end.

(** [data.groupby(key)[val]]: one group per distinct non-null key, in
    ascending key order; a group holds the [val] cells of its rows in row
    order.  Rows with a null key belong to no group. *)
Definition group_keys (keys : list value) : list value :=
  sort_by value_leb (unique (filter notnull keys)).

Definition group_of (keys vals : list value) (k : value) : list value :=
  map snd (filter (fun kv => value_eqb (fst kv) k) (combine keys vals)).

Definition groupby (keys vals : list value) : list (value * list value) :=
  map (fun k => (k, group_of keys vals k)) (group_keys keys).

(** An aggregated groupby: a Series indexed by the group keys. *)
Definition KeyedSeries : Type := list (value * npfloat).

Definition group_floats (g : list value) : list npfloat :=
  map to_float (filter notnull g).

Definition groupby_sum (keys vals : list value) : KeyedSeries :=
  map (fun g => (fst g, fsum (group_floats (snd g)))) (groupby keys vals).

Definition groupby_mean (keys vals : list value) : KeyedSeries :=
  map (fun g => (fst g, fmean (group_floats (snd g)))) (groupby keys vals).

Definition groupby_count (keys vals : list value) : KeyedSeries :=
  map (fun g => (fst g, of_nat (length (filter notnull (snd g)))))
      (groupby keys vals).

(** [data.groupby(key).size()] *)
Definition groupby_size (keys : list value) : KeyedSeries :=
  map (fun g => (fst g, of_nat (length (snd g)))) (groupby keys keys).

Definition kvalues (s : KeyedSeries) : list npfloat :=
  filter (fun x => negb (fisnan x)) (map snd s).

(** [s.idxmax()] / [s.idxmin()]: the label of the first occurrence of the
    extreme value, NaN entries skipped; ValueError when nothing is left. *)
Fixpoint arg_best (better : npfloat -> npfloat -> bool)
  (best : value * npfloat) (s : KeyedSeries) : value :=
  match s with
  | [] => fst best
  | kv :: rest =>
      if fisnan (snd kv) then arg_best better best rest
      else if better (snd kv) (snd best) then arg_best better kv rest
      else arg_best better best rest
  end.

Definition idx_best (better : npfloat -> npfloat -> bool) (s : KeyedSeries)
  : result value :=
  match filter (fun kv => negb (fisnan (snd kv))) s with
  | [] => Raise ValueError
  | kv :: rest => Ok (arg_best better kv rest)
  end.

Definition idxmax (s : KeyedSeries) : result value := idx_best fgtb s.
Definition idxmin (s : KeyedSeries) : result value := idx_best fltb s.

(** [s.sort_values(ascending=False)]: NaN entries last. *)
Definition sort_values_desc (s : KeyedSeries) : KeyedSeries :=
  sort_by (fun a b => fgeb (snd a) (snd b))
          (filter (fun kv => negb (fisnan (snd kv))) s)
  ++ filter (fun kv => fisnan (snd kv)) s.

(** [s.index[0]] *)
Definition index0 (s : KeyedSeries) : result value :=
  match s with
  | [] => Raise IndexError
  | kv :: _ => Ok (fst kv)
  end.

(** [s.pct_change().dropna()]: relative change between consecutive
    entries; the first entry has no predecessor, and undefined (NaN)
    changes are dropped. *)
Fixpoint pct_change_from (prev : npfloat) (xs : list npfloat) : list npfloat :=
  match xs with
  | [] => []
  | x :: rest => fsub (fdiv x prev) (Fin 1) :: pct_change_from x rest
  end.

Definition pct_change_dropna (xs : list npfloat) : list npfloat :=
  match xs with
  | [] => []
  | x :: rest => filter (fun g => negb (fisnan g)) (pct_change_from x rest)
  end.

(* ================================================================= *)
(** * Calendar fields of a timestamp *)

Definition ns_per_day : Z := 86400 * 1000000000.

(** Proleptic Gregorian (year, month, day) of a day count since
    1970-01-01. *)
Definition civil_from_days (days : Z) : Z * Z * Z :=
  let z := days + 719468 in
  let era := z / 146097 in
  let doe := z - era * 146097 in
  let yoe := (doe - doe / 1460 + doe / 36524 - doe / 146096) / 365 in
  let y := yoe + era * 400 in
  let doy := doe - (365 * yoe + yoe / 4 - yoe / 100) in
  let mp := (5 * doy + 2) / 153 in
  let d := doy - (153 * mp + 2) / 5 + 1 in
  let m := if mp <? 10 then mp + 3 else mp - 9 in
  (if m <=? 2 then y + 1 else y, m, d).

Definition days_from_civil (y m d : Z) : Z :=
  let y' := if m <=? 2 then y - 1 else y in
  let era := y' / 400 in
  let yoe := y' - era * 400 in
  let doy := (153 * (if 2 <? m then m - 3 else m + 9) + 2) / 5 + d - 1 in
  let doe := yoe * 365 + yoe / 4 - yoe / 100 + doy in
  era * 146097 + doe - 719468.

(** [pd.Timestamp(year=y, month=m, day=d)] *)
Definition timestamp_of_date (y m d : Z) : Timestamp :=
  days_from_civil y m d * ns_per_day.

Definition year_of (t : Timestamp) : Z :=
  fst (fst (civil_from_days (t / ns_per_day))).

Definition month_of (t : Timestamp) : Z :=
  snd (fst (civil_from_days (t / ns_per_day))).

(** [s.dt.to_period('M')], cell by cell. *)
Definition to_period_M (v : value) : value :=
  match v with
  | VDate t => VPeriod ((year_of t - 1970) * 12 + (month_of t - 1))
  | VPeriod o => VPeriod o
  | _ => VNull
  end.

(** [s.dt.month], cell by cell, for a datetime or a period column. *)
Definition dt_month (v : value) : value :=
  match v with
  | VDate t => VNum (inject_Z (month_of t))
  | VPeriod o => VNum (inject_Z (o mod 12 + 1))
  | _ => VNull
  end.

(** [data.sort_values(key)]: rows in ascending order of the key column,
    rows with a null key last. *)
Definition sort_order (keys : list value) : list nat :=
  let indexed := combine keys (seq 0 (length keys)) in
  map snd (sort_by (fun a b => value_leb (fst a) (fst b))
                   (filter (fun kv => notnull (fst kv)) indexed))
  ++ map snd (filter (fun kv => isnull (fst kv)) indexed).

Definition take (idx : list nat) (s : Series) : Series :=
  mkSeries (name s) (col_dtype s) (map (fun i => nth i (values s) VNull) idx).

Definition sort_values (data : DataFrame) (key : string) : DataFrame :=
  match getcol data key with
  | None => data
  | Some k => map (take (sort_order (values k))) data
  end.

(* ================================================================= *)
(** * The report *)

(** ** Step 1: overview.  The entries [data_types] (a histogram of the
    dtypes) and [memory_usage] of the source dictionary are storage
    facts of pandas and are not part of the embedding. *)

Inductive unique_info : Type :=
| UniqueCount (n : nat)
| FiftyPlus.                       (* the string '50+' *)

Record numeric_info : Type := mkNumericInfo {
  ni_mean : npfloat;
  ni_median : npfloat;
  ni_std : sfloat;
  ni_min : npfloat;
  ni_max : npfloat
}.

Record col_info : Type := mkColInfo {
  ci_name : string;
  ci_type : dtype;
  ci_non_null_count : nat;
  ci_null_count : nat;
  ci_null_percentage : npfloat;
  ci_unique_values : unique_info;
  ci_numeric : option numeric_info
}.

Record overview_details : Type := mkOverview {
  total_rows : nat;
  total_columns : nat;
  column_info : list col_info
}.

(** ** Step 2: quality *)

Record completeness_info : Type := mkCompleteness {
  completeness_score_of : npfloat;
  missing_values : nat;
  complete_rows_of : nat;
  completion_rate : npfloat
}.

Record consistency_info : Type := mkConsistency {
  consistency_score_of : npfloat;
  duplicate_rows_of : nat;
  unique_rows : Z
}.

Record validity_info : Type := mkValidity {
  validity_score_of : Z;
  validity_issues_of : list string
}.

Record quality_details : Type := mkQuality {
  overall_score : npfloat;
  issues : list string;
  strengths : list string;
  completeness : completeness_info;
  consistency : consistency_info;
  validity : validity_info
}.

(** ** Step 3: statistics *)

Record describe_info : Type := mkDescribe {
  d_count : nat;
  d_mean : npfloat;
  d_std : sfloat;
  d_min : npfloat;
  d_q25 : npfloat;
  d_q50 : npfloat;
  d_q75 : npfloat;
  d_max : npfloat
}.

Record strong_corr : Type := mkStrongCorr {
  var1 : string;
  var2 : string;
  correlation : sfloat
}.

Record outlier_info : Type := mkOutlier {
  outlier_count : nat;
  outlier_percentage : npfloat;
  lower_bound : npfloat;
  upper_bound : npfloat
}.

(** [strong_correlations] is a key the source sets only when there are
    at least two numeric columns: [None] is the absent key. *)
Record stats_details : Type := mkStats {
  summary_statistics : list (string * describe_info);
  correlations : list (string * list (string * sfloat));
  strong_correlations : option (list strong_corr);
  outliers : list (string * outlier_info)
}.

(** ** Step 4: patterns *)

Record growth_trend : Type := mkGrowth {
  growth_metric : string;
  average_monthly_growth : npfloat;
  trend_direction : string;
  volatility : sfloat
}.

Record seasonal_pattern : Type := mkSeasonal {
  seasonal_metric : string;
  strength : sfloat;
  peak_month : value;
  low_month : value
}.

Record pattern_details : Type := mkPatterns {
  temporal_patterns : list string;
  seasonal_patterns : list seasonal_pattern;
  growth_trends : list growth_trend;
  anomalies : list string
}.

(** ** Step 5: insights.  Each constructor is one f-string of the
    source; its arguments are the values the f-string formats. *)

Inductive insight : Type :=
| TotalOf (label : string) (total : npfloat)
    (* f"Total {revenue_col.replace('_', ' ')}: ${total_revenue:,.0f}" *)
| AverageTransactionValue (avg : npfloat)
    (* f"Average transaction value: ${avg_transaction:,.0f}" *)
| HighValueTransactions (n : nat)
    (* f"High-value transactions (top 20%): {n} transactions" *)
| TotalUniqueCustomers (n : nat)
    (* f"Total unique customers: {unique_customers:,}" *)
| AverageTransactionsPerCustomer (r : Q)
    (* f"Average transactions per customer: {r:.1f}" *)
| TopMarketByVolume (country : value)
    (* f"Top market by volume: {top_country}" *)
| TopMarketByRevenue (country : value)
    (* f"Top market by revenue: {country_revenue.index[0]}" *)
| MostPopularProduct (product : value).
    (* f"Most popular product: {top_product}" *)

(** ** Step 6: recommendations *)

Record recommendation : Type := mkRecommendation {
  category : string;
  recommendation_text : string;
  priority : string;
  impact : string
}.

(** ** A step of the report: the common keys and the step's own.  Keys
    the source initialises and never fills ([kpis], [segments],
    [action_items], [risk_alerts], [visualizations]) are left out. *)

Inductive step_body : Type :=
| Overview (d : overview_details)
| Quality (d : quality_details)
| Statistics (d : stats_details)
| Patterns (d : pattern_details)
| BusinessIntelligence (insights : list insight)
| Recommendations (recs : list recommendation).

Record Step : Type := mkStep {
  step_number : Z;
  title : string;
  status : string;
  body : step_body
}.

(** The entry [visualizations] of the source dictionary is never
    filled and is left out. *)
Record AnalysisResults : Type := mkResults {
  steps : list Step;
  insights : list insight;
  recommendations : list recommendation;
  data_quality : option quality_details
}.

(** [step['insights']], [step['recommendations']], [step['details']] *)
Definition step_insights (s : Step) : list insight :=
  match body s with
  | BusinessIntelligence found => found
  | _ => []
  end.

Definition step_recommendations (s : Step) : list recommendation :=
  match body s with
  | Recommendations recs => recs
  | _ => []
  end.

Definition step_details (s : Step) : option quality_details :=
  match body s with
  | Quality d => Some d
  | _ => None
  end.

(* ================================================================= *)
(** * StepByStepAnalytics: the steps without date parsing *)

(** ** [_step_1_data_overview] *)

Definition column_overview (data : DataFrame) (col : Series) : col_info :=
  mkColInfo
    (name col)
    (col_dtype col)
    (count col)
    (null_count col)
    (fmul (fdiv (of_nat (null_count col)) (of_nat (len data))) (of_Z 100))
    (if negb (dtype_eqb (col_dtype col) Object) || (nunique col <? 50)%nat
     then UniqueCount (nunique col) else FiftyPlus)
    (match col_dtype col with
     | Int64 | Float64 =>
         Some (mkNumericInfo (mean col) (median col) (std col)
                             (series_min col) (series_max col))
     | _ => None
     end).

Definition _step_1_data_overview (data : DataFrame) : Step :=
  mkStep 1 "📋 Data Overview & Structure" "completed"
    (Overview (mkOverview (len data) (length data)
                          (map (column_overview data) data))).

(** ** [_step_2_data_quality] *)

Definition total_cells (data : DataFrame) : Z :=
  Z.of_nat (len data) * Z.of_nat (length data).

Definition null_cells (data : DataFrame) : Z :=
  Z.of_nat (isnull_sum_sum data).

Definition completeness_score (data : DataFrame) : npfloat :=
  fmul (fdiv (of_Z (total_cells data - null_cells data))
             (of_Z (total_cells data)))
       (of_Z 100).

Definition duplicate_rows (data : DataFrame) : nat :=
  count_true (duplicated data).

Definition consistency_score (data : DataFrame) : npfloat :=
  fmul (fdiv (of_Z (Z.of_nat (len data) - Z.of_nat (duplicate_rows data)))
             (of_nat (len data)))
       (of_Z 100).

(** [data[col].isin([np.inf, -np.inf]).any()] *)
Definition has_infinite (col : Series) : bool :=
  existsb (fun v => match v with VInf _ => true | _ => false end) (values col).

(** [(data[col] < 0).any()] *)
Definition has_negative (col : Series) : bool :=
  existsb (fun v => fltb (to_float v) (Fin 0)) (values col).

Definition column_validity_issues (col : Series) : list string :=
  (if has_infinite col
   then [("Infinite values in " ++ name col)%string] else [])
  ++
  (if has_negative col && contains "amount" (lower (name col))
   then [("Negative values in amount field: " ++ name col)%string] else []).

Definition validity_issues (data : DataFrame) : list string :=
  flat_map column_validity_issues (select_dtypes_number data).

Definition validity_score (data : DataFrame) : Z :=
  Z.max 0 (100 - Z.of_nat (length (validity_issues data)) * 10).

(** The [if / elif / else] on the completeness score: the strengths and
    the issues it appends. *)
Definition completeness_remarks (score : npfloat) : list string * list string :=
  if fgtb score (of_Z 95) then (["Excellent data completeness"], [])
  else if fgtb score (of_Z 85) then (["Good data completeness"], [])
  else ([], ["Data has significant missing values"]).

Definition duplicate_issues (dups : nat) : list string :=
  if (0 <? dups)%nat
  then [("Found " ++ str_of_nat dups ++ " duplicate rows")%string]
  else [].

Definition quality_of (data : DataFrame) : quality_details :=
  let cs := completeness_score data in
  let ks := consistency_score data in
  let vs := validity_score data in
  mkQuality
    (fdiv (fadd (fadd cs ks) (of_Z vs)) (of_Z 3))
    (snd (completeness_remarks cs) ++ duplicate_issues (duplicate_rows data))
    (fst (completeness_remarks cs))
    (mkCompleteness cs (isnull_sum_sum data) (complete_rows data) cs)
    (mkConsistency ks (duplicate_rows data)
                   (Z.of_nat (len data) - Z.of_nat (duplicate_rows data)))
    (mkValidity vs (validity_issues data)).

Definition _step_2_data_quality (data : DataFrame) : Step :=
  mkStep 2 "🔍 Data Quality Assessment" "completed" (Quality (quality_of data)).

(** ** [_step_3_statistical_analysis] *)

(** [data[numeric_cols].describe()], column by column. *)
Definition describe (col : Series) : describe_info :=
  mkDescribe (count col) (mean col) (std col) (series_min col)
             (quantile col (1 # 4)) (quantile col (1 # 2))
             (quantile col (3 # 4)) (series_max col).

(** The observations two columns share: rows where both are non-null. *)
Definition pairwise (xs ys : list value) : list (npfloat * npfloat) :=
  map (fun p => (to_float (fst p), to_float (snd p)))
      (filter (fun p => notnull (fst p) && notnull (snd p)) (combine xs ys)).

Definition sis_zero (x : sfloat) : bool :=
  match x with
  | SFin c r => Qeq_bool (c * r) 0
  | _ => false
  end.

(** One entry of [DataFrame.corr()] (Pearson, [min_periods=1]):
    [covxy / sqrt(ssqdx * ssqdy)] over the shared observations, and NaN
    when there is none or when the divisor is zero. *)
Definition pearson (xs ys : list value) : sfloat :=
  let ps := pairwise xs ys in
  match ps with
  | [] => SNaN
  | _ =>
      let mx := fmean (map fst ps) in
      let my := fmean (map snd ps) in
      let covxy :=
        fsum (map (fun p => fmul (fsub (fst p) mx) (fsub (snd p) my)) ps) in
      let ssqdx :=
        fsum (map (fun p => fmul (fsub (fst p) mx) (fsub (fst p) mx)) ps) in
      let ssqdy :=
        fsum (map (fun p => fmul (fsub (snd p) my) (fsub (snd p) my)) ps) in
      let divisor := fsqrt (fmul ssqdx ssqdy) in
      if sis_zero divisor then SNaN else fdivs covxy divisor
  end.

(** [corr_matrix.iloc[i, j]] *)
Definition corr_iloc (cols : list Series) (i j : nat) : sfloat :=
  match nth_error cols i, nth_error cols j with
  | Some a, Some b => pearson (values a) (values b)
  | _, _ => SNaN
  end.

Definition corr_matrix (cols : list Series)
  : list (string * list (string * sfloat)) :=
  map (fun a =>
         (name a, map (fun b => (name b, pearson (values a) (values b))) cols))
      cols.

Definition column_label (cols : list Series) (i : nat) : string :=
  match nth_error cols i with
  | Some c => name c
  | None => ""
  end.

(** The double loop [for i in range(n): for j in range(i+1, n)]. *)
Definition strong_corrs_row (cols : list Series) (i : nat) : list strong_corr :=
  flat_map
    (fun j =>
       let corr_val := corr_iloc cols i j in
       if sgtb (sabs corr_val) (7 # 10)
       then [mkStrongCorr (column_label cols i) (column_label cols j) corr_val]
       else [])
    (seq (S i) (length cols - S i)).

Definition strong_corrs (cols : list Series) : list strong_corr :=
  flat_map (strong_corrs_row cols) (seq 0 (length cols)).

Definition outliers_of (data : DataFrame) (col : Series) : outlier_info :=
  let q1 := quantile col (1 # 4) in
  let q3 := quantile col (3 # 4) in
  let iqr := fsub q3 q1 in
  let lower := fsub q1 (fmul (Fin (3 # 2)) iqr) in
  let upper := fadd q3 (fmul (Fin (3 # 2)) iqr) in
  let outlier_count :=
    length (filter (fun v => fltb (to_float v) lower || fgtb (to_float v) upper)
                   (values col)) in
  mkOutlier outlier_count
            (fmul (fdiv (of_nat outlier_count) (of_nat (len data))) (of_Z 100))
            lower upper.

Definition stats_of (data : DataFrame) : stats_details :=
  let numeric_cols := select_dtypes_number data in
  if (0 <? length numeric_cols)%nat then
    mkStats
      (map (fun c => (name c, describe c)) numeric_cols)
      (if (1 <? length numeric_cols)%nat then corr_matrix numeric_cols else [])
      (if (1 <? length numeric_cols)%nat
       then Some (strong_corrs numeric_cols) else None)
      (map (fun c => (name c, outliers_of data c)) numeric_cols)
  else mkStats [] [] None [].

Definition _step_3_statistical_analysis (data : DataFrame) : Step :=
  mkStep 3 "📊 Statistical Analysis" "completed" (Statistics (stats_of data)).

(** ** [_step_5_business_intelligence] *)

(** [data[label]] for a literal label: KeyError when it is absent. *)
Definition loc (data : DataFrame) (label : string) : result Series :=
  match getcol data label with
  | Some c => Ok c
  | None => Raise KeyError
  end.

Definition revenue_words : list string :=
  ["revenue"; "total"; "amount"; "price"].

Definition revenue_cols (data : DataFrame) : list Series :=
  filter (fun col => existsb (fun word => contains word (lower (name col)))
                             revenue_words)
         (select_dtypes_number data).

(** [revenue_cols[0]] *)
Definition first_col (cols : list Series) : result Series :=
  match cols with
  | [] => Raise IndexError
  | c :: _ => Ok c
  end.

Definition revenue_insights (data : DataFrame) : list insight :=
  match revenue_cols data with
  | [] => []
  | revenue_col :: _ =>
      let total_revenue := sum revenue_col in
      let avg_transaction := mean revenue_col in
      let high_value_threshold := quantile revenue_col (8 # 10) in
      let high_value_transactions :=
        length (filter (fun v => fgeb (to_float v) high_value_threshold)
                       (values revenue_col)) in
      [ TotalOf (replace_char "_" " " (name revenue_col)) total_revenue;
        AverageTransactionValue avg_transaction;
        HighValueTransactions high_value_transactions ]
  end.

(** [len(data) / unique_customers] divides two Python ints. *)
Definition customer_insights (data : DataFrame) : result (list insight) :=
  if has_column data "customer_name" || has_column data "customer_id" then
    let customer_col :=
      if has_column data "customer_name" then "customer_name"
      else "customer_id" in
    col <- loc data customer_col ;;
    let unique_customers := nunique col in
    if (unique_customers =? 0)%nat then Raise ZeroDivisionError
    else
      let transactions_per_customer :=
        (inject_Z (Z.of_nat (len data))
         / inject_Z (Z.of_nat unique_customers))%Q in
      Ok [ TotalUniqueCustomers unique_customers;
           AverageTransactionsPerCustomer transactions_per_customer ]
  else Ok [].

Definition geographic_insights (data : DataFrame) : result (list insight) :=
  if has_column data "customer_country" then
    country <- loc data "customer_country" ;;
    top_country <- idxmax (groupby_size (values country)) ;;
    revenue_col <- first_col (revenue_cols data) ;;
    let country_revenue :=
      sort_values_desc (groupby_sum (values country) (values revenue_col)) in
    top_revenue <- index0 country_revenue ;;
    Ok [ TopMarketByVolume top_country; TopMarketByRevenue top_revenue ]
  else Ok [].

Definition product_insights (data : DataFrame) : result (list insight) :=
  if has_column data "product_name" then
    product <- loc data "product_name" ;;
    top_product <- idxmax (groupby_size (values product)) ;;
    Ok [ MostPopularProduct top_product ]
  else Ok [].

Definition business_insights (data : DataFrame) : result (list insight) :=
  let from_revenue := revenue_insights data in
  from_customers <- customer_insights data ;;
  from_geography <- geographic_insights data ;;
  from_products <- product_insights data ;;
  Ok (from_revenue ++ from_customers ++ from_geography ++ from_products).

Definition _step_5_business_intelligence (data : DataFrame) (prompt : string)
  : result Step :=
  found <- business_insights data ;;
  Ok (mkStep 5 "💼 Business Intelligence & Insights" "completed"
             (BusinessIntelligence found)).

(* ================================================================= *)
(** * The steps that parse dates, and the pipeline *)

Definition date_value (o : option Timestamp) : value :=
  match o with
  | Some t => VDate t
  | None => VNull
  end.

Definition no_patterns : pattern_details := mkPatterns [] [] [] [].

Definition performance_monitoring : recommendation :=
  mkRecommendation "Performance Monitoring"
    "Implement real-time dashboards for trend monitoring"
    "Medium"
    "Enable proactive decision-making and early issue detection".

Definition data_quality_recommendation : recommendation :=
  mkRecommendation "Data Quality"
    "Implement data validation processes to reduce missing values"
    "High"
    "Improve analysis accuracy and decision-making reliability".

Definition market_expansion : recommendation :=
  mkRecommendation "Market Expansion"
    "Analyze underperforming geographic markets for growth opportunities"
    "Medium"
    "Potential revenue growth through market development".

Definition process_automation : recommendation :=
  mkRecommendation "Process Automation"
    "Automate recurring analytics workflows to reduce manual effort"
    "Low"
    "Increase efficiency and reduce human error in reporting".

Section Pipeline.

(** [pd.to_datetime(series)]: the parsed cells ([None] is NaT), or the
    exception the parser raises. *)
Variable to_datetime : Series -> result (list (option Timestamp)).

(** [for col in data.columns: try: pd.to_datetime(data[col].head());
    date_cols.append(col)  except: pass] *)
Definition date_cols (data : DataFrame) : list Series :=
  filter (fun col => succeeds (to_datetime (head 5 col))) data.

(** ** [_step_4_pattern_detection] *)

Definition growth_trend_of (value_col : string) (monthly_data : KeyedSeries)
  : list growth_trend :=
  if (1 <? length monthly_data)%nat then
    let growth_rates := pct_change_dropna (map snd monthly_data) in
    let avg_growth := fmul (fmean growth_rates) (of_Z 100) in
    [ mkGrowth value_col avg_growth
               (if fgtb avg_growth (Fin 0) then "increasing" else "decreasing")
               (smulq (fstd growth_rates) 100) ]
  else [].

(** [seasonal_pattern.std() / seasonal_pattern.mean()] *)
Definition seasonal_strength_of (seasonal : KeyedSeries) : sfloat :=
  sdiv (fstd (kvalues seasonal)) (fmean (kvalues seasonal)).

Definition seasonal_record (value_col : string) (seasonal : KeyedSeries)
  : result (list seasonal_pattern) :=
  let seasonal_strength := seasonal_strength_of seasonal in
  if sgtb seasonal_strength (1 # 10) then
    peak <- idxmax seasonal ;;
    low <- idxmin seasonal ;;
    Ok [ mkSeasonal value_col seasonal_strength peak low ]
  else Ok [].

(** [temp_data] once the date column is converted and the rows are
    sorted by it. *)
Definition dated (data : DataFrame) (date_col : Series)
  (parsed : list (option Timestamp)) : DataFrame :=
  sort_values
    (setcol data (mkSeries (name date_col) Datetime64 (map date_value parsed)))
    (name date_col).

(** [temp_data['month'] = temp_data[date_col].dt.to_period('M')] *)
Definition with_month (temp_data : DataFrame) (date_col : string)
  : result DataFrame :=
  dates <- loc temp_data date_col ;;
  Ok (setcol temp_data
             (mkSeries "month" Period (map to_period_M (values dates)))).

Definition monthly_aggregation (temp_data : DataFrame) (value_col : string)
  : result KeyedSeries :=
  month <- loc temp_data "month" ;;
  observed <- loc temp_data value_col ;;
  if is_numeric_dtype observed
  then Ok (groupby_sum (values month) (values observed))
  else Ok (groupby_count (values month) (values observed)).

(** [temp_data['month_num'] = temp_data[date_col].dt.month] and
    [temp_data.groupby('month_num')[value_col].mean()].  The mean of a
    datetime or period column is not a number, and dividing its spread
    by it raises TypeError. *)
Definition seasonal_means (temp_data : DataFrame) (date_col value_col : string)
  : result KeyedSeries :=
  dates <- loc temp_data date_col ;;
  let temp_data :=
    setcol temp_data (mkSeries "month_num" Int64 (map dt_month (values dates))) in
  month_num <- loc temp_data "month_num" ;;
  observed <- loc temp_data value_col ;;
  if is_numeric_dtype observed
  then Ok (groupby_mean (values month_num) (values observed))
  else Raise TypeError.

(** The block under [if len(monthly_data) >= 12]. *)
Definition seasonality (temp_data : DataFrame) (date_col value_col : string)
  : result (list seasonal_pattern) :=
  seasonal <- seasonal_means temp_data date_col value_col ;;
  seasonal_record value_col seasonal.

Definition temporal_analysis (data : DataFrame) (date_col value_col : Series)
  : result pattern_details :=
  parsed <- to_datetime date_col ;;
  temp_data <- with_month (dated data date_col parsed) (name date_col) ;;
  monthly_data <- monthly_aggregation temp_data (name value_col) ;;
  let growth := growth_trend_of (name value_col) monthly_data in
  seasonal <-
    (if (12 <=? length monthly_data)%nat
     then seasonality temp_data (name date_col) (name value_col)
     else Ok []) ;;
  Ok (mkPatterns [] seasonal growth []).

Definition patterns_of (data : DataFrame) : result pattern_details :=
  match date_cols data with
  | [] => Ok no_patterns
  | date_col :: _ =>
      match select_dtypes_number data with
      | [] => Ok no_patterns
      | value_col :: _ => temporal_analysis data date_col value_col
      end
  end.

Definition _step_4_pattern_detection (data : DataFrame) (prompt : string)
  : result Step :=
  details <- patterns_of data ;;
  Ok (mkStep 4 "🔍 Pattern Detection & Trends" "completed" (Patterns details)).

(** ** [_step_6_recommendations] *)

Definition null_percentage (data : DataFrame) : npfloat :=
  fmul (fdiv (of_nat (isnull_sum_sum data))
             (of_Z (Z.of_nat (len data) * Z.of_nat (length data))))
       (of_Z 100).

Definition recommendations_of (data : DataFrame) : list recommendation :=
  (if fgtb (null_percentage data) (of_Z 10)
   then [data_quality_recommendation] else [])
  ++
  (if (0 <? length (select_dtypes_number data))%nat
   then match date_cols data with
        | [] => []
        | _ :: _ => [performance_monitoring]
        end
   else [])
  ++
  (if has_column data "customer_country" then [market_expansion] else [])
  ++
  [process_automation].

Definition _step_6_recommendations (data : DataFrame) (prompt : string)
  : Step :=
  mkStep 6 "🎯 Strategic Recommendations" "completed"
         (Recommendations (recommendations_of data)).

(** ** [analyze_data_step_by_step] *)

Definition analyze_data_step_by_step (data : DataFrame) (prompt : string)
  : result AnalysisResults :=
  let overview := _step_1_data_overview data in
  let quality := _step_2_data_quality data in
  let stats := _step_3_statistical_analysis data in
  patterns <- _step_4_pattern_detection data prompt ;;
  business_intel <- _step_5_business_intelligence data prompt ;;
  let recommendations := _step_6_recommendations data prompt in
  Ok (mkResults
        [overview; quality; stats; patterns; business_intel; recommendations]
        (step_insights business_intel)
        (step_recommendations recommendations)
        (step_details quality)).

End Pipeline.

(* ================================================================= *)
(** * ChartGenerator.prepare_time_series_data *)

Definition date_words : list string :=
  ["date"; "time"; "month"; "year"; "day"; "period"].

Section ChartGenerator.

Variable to_datetime : Series -> result (list (option Timestamp)).
(** [pd.to_datetime(text, errors='raise')] on one string *)
Variable to_datetime_scalar : string -> result Timestamp.
(** [pd.to_numeric(series, errors='raise')] *)
Variable to_numeric : Series -> result Series.
(** [pd.to_numeric(series, errors='coerce')]: never raises, cells that
    are not numbers become NaN. *)
Variable to_numeric_coerce : Series -> Series.
(** Python's [str(x)] *)
Variable str : value -> string.

(** [test_data = data[col].dropna().head(10)] *)
Definition test_data (col : Series) : Series := head 10 (dropna_series col).

Definition looks_like_date (col : Series) : bool :=
  existsb (fun word => contains word (lower (name col))) date_words
  && (0 <? length (values (test_data col)))%nat
  && succeeds (to_datetime (test_data col)).

Definition looks_numeric (col : Series) : bool :=
  (0 <? length (values (test_data col)))%nat
  && succeeds (to_numeric (test_data col)).

(** The two lists the [for col in data.columns] loop builds. *)
Definition named_date_columns (data : DataFrame) : list Series :=
  filter looks_like_date data.

Definition numeric_columns (data : DataFrame) : list Series :=
  filter looks_numeric data.

(** The second chance of the first column, taken when the loop found
    no date column and the frame has at least two columns. *)
Definition month_string_fallback (first_col : Series) : list Series :=
  match values first_col with
  | [] => []                                  (* iloc[0]: IndexError, caught *)
  | v :: _ =>
      let test_val := str v in
      if (7 <=? String.length test_val)%nat && contains "-" test_val then
        if succeeds (to_datetime_scalar (test_val ++ "-01")%string)
        then [first_col] else []
      else []
  end.

Definition first_column_fallback (data : DataFrame) : list Series :=
  match data with
  | first_col :: _ :: _ =>
      if (0 <? length (values (test_data first_col)))%nat then
        match to_datetime (test_data first_col) with
        | Ok _ => [first_col]
        | Raise _ => month_string_fallback first_col
        end
      else []
  | _ => []
  end.

Definition date_columns (data : DataFrame) : list Series :=
  match named_date_columns data with
  | [] => first_column_fallback data
  | found => found
  end.

(** [ts_data[date_col].astype(str) + '-01'] *)
Definition with_day_suffix (col : Series) : Series :=
  mkSeries (name col) Object
           (map (fun v => VStr (str v ++ "-01")%string) (values col)).

(** The two attempts at converting the date column; [None] is the
    [return None] of the inner handler. *)
Definition convert_dates (date_col : Series) : option (list (option Timestamp)) :=
  match to_datetime date_col with
  | Ok parsed => Some parsed
  | Raise _ =>
      match to_datetime (with_day_suffix date_col) with
      | Ok parsed => Some parsed
      | Raise _ => None
      end
  end.

(** [ts_data.dropna()] on the two working columns, row by row. *)
Definition dropna_pairs (dates : list (option Timestamp)) (vals : list value)
  : list (Timestamp * value) :=
  flat_map (fun dv => match fst dv with
                      | Some t => if notnull (snd dv) then [(t, snd dv)] else []
                      | None => []
                      end)
           (combine dates vals).

(** [ts_data.sort_values(date_col)] *)
Definition sort_by_date (rows : list (Timestamp * value))
  : list (Timestamp * value) :=
  sort_by (fun a b => fst a <=? fst b) rows.

(** When the date column and the value column are one and the same
    label, [data[[date_col, value_col]]] has that label twice,
    [ts_data[date_col]] is a frame, and [pd.to_datetime] refuses a
    frame with duplicate keys in both attempts: the method returns
    None. *)
Definition prepare_time_series_data (data : DataFrame) : option DataFrame :=
  if empty data then None
  else
    match date_columns data, numeric_columns data with
    | [], _ | _, [] => None
    | date_col :: _, value_col :: _ =>
        if String.eqb (name date_col) (name value_col) then None
        else
          match convert_dates date_col with
          | None => None
          | Some dates =>
              let numbers := to_numeric_coerce value_col in
              let ts_data := dropna_pairs dates (values numbers) in
              if (length ts_data =? 0)%nat then None
              else
                let ts_data := sort_by_date ts_data in
                Some [ mkSeries "date" Datetime64
                                (map (fun r => VDate (fst r)) ts_data);
                       mkSeries "value" (col_dtype numbers)
                                (map snd ts_data) ]
          end
    end.

End ChartGenerator.

(* ================================================================= *)
(** * A reference instance of the pandas parsers

    It reads ISO dates ([YYYY-MM-DD], and [YYYY-MM] as the first day of
    the month), integers as nanoseconds since the epoch, and decimal
    integers as numbers; on those inputs it agrees with pandas.  Every
    other string is refused. *)

Module RefPandas.

Definition digit_of (c : ascii) : option Z :=
  let n := nat_of_ascii c in
  if ((48 <=? n) && (n <=? 57))%nat then Some (Z.of_nat (n - 48)) else None.

Fixpoint digits_from (acc : Z) (s : string) : option Z :=
  match s with
  | EmptyString => Some acc
  | String c rest =>
      match digit_of c with
      | Some d => digits_from (acc * 10 + d) rest
      | None => None
      end
  end.

Definition parse_digits (s : string) : option Z :=
  match s with
  | EmptyString => None
  | _ => digits_from 0 s
  end.

Definition parse_integer (s : string) : option Z :=
  match s with
  | String "-"%char rest => option_map Z.opp (parse_digits rest)
  | _ => parse_digits s
  end.

Definition valid_date (y m d : Z) : option Timestamp :=
  let days := days_from_civil y m d in
  match civil_from_days days with
  | (y', m', d') =>
      if (y' =? y) && (m' =? m) && (d' =? d) && (1 <=? m) && (m <=? 12)
      then Some (days * ns_per_day) else None
  end.

Definition parse_iso_date (s : string) : option Timestamp :=
  let dash i := String.eqb (substring i 1 s) "-" in
  match parse_digits (substring 0 4 s), parse_digits (substring 5 2 s) with
  | Some y, Some m =>
      if (String.length s =? 7)%nat && dash 4%nat then valid_date y m 1
      else if (String.length s =? 10)%nat && dash 4%nat && dash 7%nat then
        match parse_digits (substring 8 2 s) with
        | Some d => valid_date y m d
        | None => None
        end
      else None
  | _, _ => None
  end.

Definition parse_date_cell (v : value) : result (option Timestamp) :=
  match v with
  | VNull => Ok None
  | VDate t => Ok (Some t)
  | VNum q => if (Qden q =? 1)%positive then Ok (Some (Qnum q))
              else Raise ValueError
  | VStr s => match parse_iso_date s with
              | Some t => Ok (Some t)
              | None => Raise ValueError
              end
  | VInf _ | VPeriod _ => Raise ValueError
  end.

Fixpoint traverse {A B : Type} (f : A -> result B) (l : list A)
  : result (list B) :=
  match l with
  | [] => Ok []
  | a :: rest => b <- f a ;; bs <- traverse f rest ;; Ok (b :: bs)
  end.

Definition to_datetime (s : Series) : result (list (option Timestamp)) :=
  traverse parse_date_cell (values s).

Definition to_datetime_scalar (s : string) : result Timestamp :=
  match parse_iso_date s with
  | Some t => Ok t
  | None => Raise ValueError
  end.

Definition parse_number_cell (v : value) : result value :=
  match v with
  | VStr s => match parse_integer s with
              | Some z => Ok (VNum (inject_Z z))
              | None => Raise ValueError
              end
  | VDate t => Ok (VNum (inject_Z t))
  | VPeriod _ => Raise TypeError
  | _ => Ok v
  end.

Definition to_numeric (s : Series) : result Series :=
  cells <- traverse parse_number_cell (values s) ;;
  Ok (mkSeries (name s)
               (if is_number_dtype (col_dtype s) then col_dtype s else Float64)
               cells).

Definition to_numeric_coerce (s : Series) : Series :=
  mkSeries (name s)
           (if is_number_dtype (col_dtype s) then col_dtype s else Float64)
           (map (fun v => match parse_number_cell v with
                          | Ok n => n
                          | Raise _ => VNull
                          end) (values s)).

Fixpoint digits_of_pos (fuel : nat) (z : Z) (acc : string) : string :=
  match fuel with
  | O => acc
  | S fuel' =>
      let acc' := String (ascii_of_nat (48 + Z.to_nat (z mod 10))) acc in
      if z <? 10 then acc' else digits_of_pos fuel' (z / 10) acc'
  end.

(** [str(x)] on strings and on Python ints. *)
Definition str (v : value) : string :=
  match v with
  | VStr s => s
  | VNum q =>
      let z := Qnum q in
      let digits := digits_of_pos (S (Z.to_nat (Z.log2 (Z.abs z)))) (Z.abs z) "" in
      if z <? 0 then String "-"%char digits else digits
  | VNull => "nan"
  | VInf false => "inf"
  | VInf true => "-inf"
  | VDate _ | VPeriod _ => "NaT"
  end.

End RefPandas.

(* ================================================================= *)
(** * Vocabulary of the properties *)

(** All the cells of a frame, column after column. *)
Definition cells (data : DataFrame) : list value := concat (map values data).

Fixpoint set_nth {A : Type} (i : nat) (x : A) (l : list A) : list A :=
  match l, i with
  | [], _ => []
  | _ :: rest, O => x :: rest
  | a :: rest, S i' => a :: set_nth i' x rest
  end.

(** The frame with the cell of column [j], row [i] replaced by [v]. *)
Definition set_cell (data : DataFrame) (j i : nat) (v : value) : DataFrame :=
  match nth_error data j with
  | Some c =>
      set_nth j (mkSeries (name c) (col_dtype c) (set_nth i v (values c))) data
  | None => data
  end.

(** The cell of column [j], row [i]. *)
Definition cell_at (data : DataFrame) (j i : nat) : option value :=
  match nth_error data j with
  | Some c => nth_error (values c) i
  | None => None
  end.

(** Two rows of the frame agree in every column. *)
Definition has_duplicate_rows (data : DataFrame) : Prop :=
  exists i j, (i < j < len data)%nat
              /\ row_eqb (row_at data i) (row_at data j) = true.

(** The score as a percentage of the cells that are not null. *)
Definition completeness_formula (data : DataFrame) : Q :=
  let total := inject_Z (Z.of_nat (length (cells data))) in
  let nulls := inject_Z (Z.of_nat (length (filter isnull (cells data)))) in
  (total - nulls) / total * 100.

(** The share of null cells among all cells. *)
Definition null_ratio (data : DataFrame) : Q :=
  inject_Z (Z.of_nat (length (filter isnull (cells data))))
  / inject_Z (Z.of_nat (length (cells data))).

(** ** Sample frames *)

Definition numbers (zs : list Z) : list value :=
  map (fun z => VNum (inject_Z z)) zs.

Definition texts (ss : list string) : list value := map VStr ss.

(** Ten rows, two columns, three nulls among the twenty cells. *)
Definition table_85 : DataFrame :=
  [ mkSeries "id" Int64 (numbers [1; 2; 3; 4; 5; 6; 7; 8; 9; 10]);
    mkSeries "score" Float64
             (numbers [1; 2; 3; 4; 5; 6; 7] ++ [VNull; VNull; VNull]) ].

(** One column of ISO dates and nothing else. *)
Definition dates_only : DataFrame :=
  [ mkSeries "order_date" Object (texts ["2024-01-15"; "2024-02-20"]) ].

(** A country column and no revenue-like numeric column. *)
Definition country_only : DataFrame :=
  [ mkSeries "customer_country" Object (texts ["US"]) ].

(** Every insight category is eligible. *)
Definition all_categories : DataFrame :=
  [ mkSeries "revenue" Float64 (numbers [100; 250]);
    mkSeries "customer_id" Int64 (numbers [1; 2]);
    mkSeries "customer_country" Object (texts ["US"; "DE"]);
    mkSeries "product_name" Object (texts ["widget"; "gadget"]) ].

Definition missing_values_issue : string :=
  "Data has significant missing values".

(** A recommendation of the given category and priority is in the list. *)
Definition recommends (recs : list recommendation) (cat prio : string) : Prop :=
  exists r, In r recs /\ category r = cat /\ priority r = prio.

(** What [prepare_time_series_data] returns when it returns a frame:
    the two columns 'date' and 'value', of equal positive length, no
    null cell, dates in non-decreasing order. *)
Definition time_series_shape (ts : DataFrame) : Prop :=
  columns ts = ["date"; "value"]
  /\ wf ts
  /\ (1 <= len ts)%nat
  /\ Forall (fun v => isnull v = false) (cells ts)
  /\ exists dates numbers dt,
       ts = [ mkSeries "date" Datetime64 (map VDate dates);
              mkSeries "value" dt numbers ]
       /\ StronglySorted Z.le dates.

(** Two floats with the same value (finite floats are compared as
    rationals). *)
Definition feq (x y : npfloat) : Prop :=
  match x, y with
  | NaN, NaN | PInf, PInf | NInf, NInf => True
  | Fin a, Fin b => (a == b)%Q
  | _, _ => False
  end.

(** A column without variance: its non-null cells all hold one value
    (in particular a column with no non-null cell). *)
Definition constant_cells (vs : list value) : Prop :=
  exists v, forall x, In x vs -> isnull x = false -> value_eqb x v = true.

(** A float that is zero or undefined. *)
Definition zero_or_nan (x : npfloat) : Prop :=
  x = NaN \/ exists z, x = Fin z /\ (z == 0)%Q.


(** ** Vocabulary of the pattern step *)

(** The parsed dates and the cells of the value column, row by row in
    date order (rows without a date last). *)
Definition dates_in_order (parsed : list (option Timestamp)) : list value :=
  let dates := map date_value parsed in
  map (fun i => nth i dates VNull) (sort_order dates).

Definition values_in_order (parsed : list (option Timestamp))
  (value_col : Series) : list value :=
  map (fun i => nth i (values value_col) VNull)
      (sort_order (map date_value parsed)).

(** The monthly aggregation: one bucket per calendar month, holding the
    sum of the value column over the rows of that month. *)
Definition monthly_buckets (parsed : list (option Timestamp))
  (value_col : Series) : KeyedSeries :=
  groupby_sum (map to_period_M (dates_in_order parsed))
              (values_in_order parsed value_col).

(** The mean of the value column for each month of the year. *)
Definition month_of_year_means (parsed : list (option Timestamp))
  (value_col : Series) : KeyedSeries :=
  groupby_mean (map dt_month (dates_in_order parsed))
               (values_in_order parsed value_col).

(** Standard deviation divided by mean, NaN entries skipped. *)
Definition coefficient_of_variation (s : KeyedSeries) : sfloat :=
  sdiv (fstd (kvalues s)) (fmean (kvalues s)).

(** [k] labels an entry that no entry exceeds (resp. undercuts). *)
Definition labels_maximum (s : KeyedSeries) (k : value) : Prop :=
  exists x, In (k, x) s /\ fisnan x = false
            /\ forall k' x', In (k', x') s -> fgtb x' x = false.

Definition labels_minimum (s : KeyedSeries) (k : value) : Prop :=
  exists x, In (k, x) s /\ fisnan x = false
            /\ forall k' x', In (k', x') s -> fltb x' x = false.

(** Twelve months of 2024 with a summer peak. *)
Definition seasonal_month : Series :=
  mkSeries "month" Object
    (texts ["2024-01"; "2024-02"; "2024-03"; "2024-04"; "2024-05"; "2024-06";
            "2024-07"; "2024-08"; "2024-09"; "2024-10"; "2024-11"; "2024-12"]).

Definition seasonal_revenue : Series :=
  mkSeries "revenue" Int64
    (numbers [100; 110; 120; 150; 200; 260; 300; 280; 190; 140; 110; 100]).

Definition seasonal_table : DataFrame := [seasonal_month; seasonal_revenue].

(** The first day of each month of 2024. *)
Definition seasonal_parsed : list (option Timestamp) :=
  map (fun m => Some (timestamp_of_date 2024 m 1))
      [1; 2; 3; 4; 5; 6; 7; 8; 9; 10; 11; 12].

(** The ordinal of the calendar month of each parsed date, once per
    month. *)
Definition month_ordinal (t : Timestamp) : Z :=
  (year_of t - 1970) * 12 + (month_of t - 1).

Definition calendar_months (parsed : list (option Timestamp)) : list Z :=
  nodup Z.eq_dec
        (flat_map (fun o => match o with
                            | Some t => [month_ordinal t]
                            | None => []
                            end) parsed).

(** The ordinals of the periods of a list of cells. *)
Definition ordinals (l : list value) : list Z :=
  flat_map (fun v => match v with VPeriod o => [o] | _ => [] end) l.

Definition all_periods (l : list value) : Prop :=
  Forall (fun v => exists o, v = VPeriod o) l.

(** ** Reading the exact model back *)

(** The real number a finite [sfloat] stands for. *)
Definition real_of (c r : Q) : Rdefinitions.R :=
  Rdefinitions.Rmult (Rdefinitions.Q2R c) (R_sqrt.sqrt (Rdefinitions.Q2R r)).

(** [part / whole * 100] in binary64, as numpy computes it from two
    integers. *)
Definition binary64_of_Z (z : Z) : PrimFloat.float :=
  PrimFloat.of_uint63 (Uint63.of_Z z).

Definition binary64_percent (part whole : Z) : PrimFloat.float :=
  PrimFloat.mul (PrimFloat.div (binary64_of_Z part) (binary64_of_Z whole))
                (binary64_of_Z 100).

(** Three dated rows out of order. *)
Definition unsorted_table : DataFrame :=
  [ mkSeries "date" Object (texts ["2024-03-01"; "2024-01-01"; "2024-02-01"]);
    mkSeries "units" Int64 (numbers [3; 1; 2]) ].

(* ================================================================= *)
(** * Vocabulary of the step properties *)

(** The column of that label has a cell that is not null. *)
Definition some_value (data : DataFrame) (label : string) : bool :=
  match getcol data label with
  | Some c => existsb notnull (values c)
  | None => false
  end.

(** The column step 5 counts customers in, when there is one. *)
Definition customer_label (data : DataFrame) : option string :=
  if has_column data "customer_name" then Some "customer_name"
  else if has_column data "customer_id" then Some "customer_id"
  else None.

Definition customers_known (data : DataFrame) : bool :=
  match customer_label data with
  | Some label => some_value data label
  | None => true
  end.

Definition countries_known (data : DataFrame) : bool :=
  negb (has_column data "customer_country")
  || some_value data "customer_country".

Definition revenue_for_countries (data : DataFrame) : bool :=
  negb (has_column data "customer_country")
  || (0 <? length (revenue_cols data))%nat.

Definition products_known (data : DataFrame) : bool :=
  negb (has_column data "product_name") || some_value data "product_name".

Definition flag (b : bool) : nat := if b then 1%nat else 0%nat.

(** Three insights for a revenue column, two for a customer column, two
    for a country column, one for a product column. *)
Definition insight_count (data : DataFrame) : nat :=
  (3 * flag (0 <? length (revenue_cols data))%nat
   + 2 * flag (has_column data "customer_name"
               || has_column data "customer_id")
   + 2 * flag (has_column data "customer_country")
   + flag (has_column data "product_name"))%nat.

(** The exception step 5 raises when it does not return: the first
    failing block decides. *)
Definition insight_exception (data : DataFrame) : exn :=
  if negb (customers_known data) then ZeroDivisionError
  else if negb (countries_known data) then ValueError
  else if negb (revenue_for_countries data) then IndexError
  else ValueError.

(** Five ISO dates and a sixth cell that is no date, beside a numeric
    column: the first five cells of the date column parse, the whole
    column does not. *)
Definition late_failure_dates : Series :=
  mkSeries "order_date" Object
           (texts ["2024-01-05"; "2024-02-05"; "2024-03-05"; "2024-04-05";
                   "2024-05-05"; "unknown"]).

Definition late_failure_revenue : Series :=
  mkSeries "revenue" Float64 (numbers [10; 20; 30; 40; 50; 60]).

Definition late_failure_table : DataFrame :=
  [late_failure_dates; late_failure_revenue].

(* ================================================================= *)
(** * StepByStepAnalytics.create_step_visualization *)

(** What the three figure helpers plot.  The constant layout (titles,
    heights, colour scale, gauge ranges) is left out. *)
Inductive step_figure : Type :=
| Indicator (gauge_value : npfloat)
| Heatmap (variables : list string) (z : list (list sfloat))
| Bar (x : list string) (y : list npfloat) (marker_color : list string).

(** [step_data['details'].get(key, default)]: the dictionaries of steps
    5 and 6 have no key 'details' (KeyError); the details of the other
    steps hold the key only in the step that writes it. *)
Definition details_overall_score (b : step_body) : result npfloat :=
  match b with
  | Quality d => Ok (overall_score d)
  | Overview _ | Statistics _ | Patterns _ => Ok (Fin 0)
  | BusinessIntelligence _ | Recommendations _ => Raise KeyError
  end.

Definition details_correlations (b : step_body)
  : result (list (string * list (string * sfloat))) :=
  match b with
  | Statistics d => Ok (correlations d)
  | Overview _ | Quality _ | Patterns _ => Ok []
  | BusinessIntelligence _ | Recommendations _ => Raise KeyError
  end.

Definition details_growth_trends (b : step_body) : result (list growth_trend) :=
  match b with
  | Patterns d => Ok (growth_trends d)
  | Overview _ | Quality _ | Statistics _ => Ok []
  | BusinessIntelligence _ | Recommendations _ => Raise KeyError
  end.

(** [d.get(key, 0)] on a dictionary of correlations *)
Definition get_correlation (key : string) (d : list (string * sfloat))
  : sfloat :=
  match find (fun kv => String.eqb key (fst kv)) d with
  | Some kv => snd kv
  | None => SFin 0 1
  end.

Definition _create_quality_gauge (b : step_body) : result step_figure :=
  score <- details_overall_score b ;;
  Ok (Indicator score).

(** The keys of a dictionary are distinct, so [correlations[var1]] is
    the entry of [var1]. *)
Definition _create_correlation_heatmap (b : step_body)
  : result (option step_figure) :=
  correlations <- details_correlations b ;;
  match correlations with
  | [] => Ok None
  | _ :: _ =>
      let variables := map fst correlations in
      let matrix :=
        map (fun entry =>
               map (fun var2 => get_correlation var2 (snd entry)) variables)
            correlations in
      Ok (Some (Heatmap variables matrix))
  end.

Definition _create_trend_chart (b : step_body) : result (option step_figure) :=
  growth_trends <- details_growth_trends b ;;
  match growth_trends with
  | [] => Ok None
  | _ :: _ =>
      let metrics := map growth_metric growth_trends in
      let growth_rates := map average_monthly_growth growth_trends in
      Ok (Some (Bar metrics growth_rates
                    (map (fun rate => if fgtb rate (Fin 0)
                                      then "green" else "red")
                         growth_rates)))
  end.

Definition create_step_visualization (step_data : Step)
  : result (option step_figure) :=
  let step_num := step_number step_data in
  if step_num =? 2 then
    fig <- _create_quality_gauge (body step_data) ;; Ok (Some fig)
  else if step_num =? 3 then _create_correlation_heatmap (body step_data)
  else if step_num =? 4 then _create_trend_chart (body step_data)
  else Ok None.


(** The colour the trend chart gives a reported direction. *)
Definition direction_colour (g : growth_trend) : string :=
  if String.eqb (trend_direction g) "increasing" then "green" else "red".

(* ================================================================= *)
(** * ChartGenerator: the figures *)

(** [s.title()] (ASCII letters): a letter that follows a letter is
    lower-cased, every other letter is upper-cased. *)
Definition is_upper (c : ascii) : bool :=
  let n := nat_of_ascii c in ((65 <=? n) && (n <=? 90))%nat.

Definition is_lower (c : ascii) : bool :=
  let n := nat_of_ascii c in ((97 <=? n) && (n <=? 122))%nat.

Definition upper_ascii (c : ascii) : ascii :=
  if is_lower c then ascii_of_nat (nat_of_ascii c - 32) else c.

Fixpoint title_from (previous_is_cased : bool) (s : string) : string :=
  match s with
  | EmptyString => EmptyString
  | String c rest =>
      if is_lower c || is_upper c then
        String (if previous_is_cased then lower_ascii c else upper_ascii c)
               (title_from true rest)
      else String c (title_from false rest)
  end.

Definition str_title (s : string) : string := title_from false s.

(** [col.title().replace('_', ' ')] *)
Definition axis_label (col : string) : string :=
  replace_char "_" " " (str_title col).

Definition color_palette : list string :=
  ["#1f77b4"; "#ff7f0e"; "#2ca02c"; "#d62728"; "#9467bd";
   "#8c564b"; "#e377c2"; "#7f7f7f"; "#bcbd22"; "#17becf"].

(** A trace of a figure: what is plotted, under which name and in
    which colour.  A trace that sets no name has the empty name. *)
Inductive trace : Type :=
| Scatter (x y : list value) (mode trace_name color : string)
| BarTrace (x y : list value) (color : string).

Record Figure : Type := mkFigure {
  fig_data : list trace;
  fig_title : string;
  xaxis_title : string;
  yaxis_title : string
}.

Definition trace_x (t : trace) : list value :=
  match t with
  | Scatter x _ _ _ _ => x
  | BarTrace x _ _ => x
  end.

Definition trace_y (t : trace) : list value :=
  match t with
  | Scatter _ y _ _ _ => y
  | BarTrace _ y _ => y
  end.

Definition trace_color (t : trace) : string :=
  match t with
  | Scatter _ _ _ _ c => c
  | BarTrace _ _ c => c
  end.

(** [data.index] of a frame with the default index *)
Definition range_index (data : DataFrame) : list value :=
  map (fun i => VNum (inject_Z (Z.of_nat i))) (seq 0 (len data)).

(** [palette[i % len(palette)]] *)
Definition palette_at (i : nat) : string :=
  nth (i mod length color_palette) color_palette "".

Section Charts.

Variable to_datetime : Series -> result (list (option Timestamp)).
Variable to_numeric : Series -> result Series.
Variable str : value -> string.

(** ** [create_time_series_chart] *)
Definition create_time_series_chart (data : DataFrame) (title : string)
  : result Figure :=
  dates <- loc data "date" ;;
  observed <- loc data "value" ;;
  Ok (mkFigure
        [Scatter (values dates) (values observed)
                 "lines+markers" "Historical Data" (palette_at 0)]
        title "Date" "Value").



(** ** [create_chart_from_data] *)

(** [data[col1].astype(str)] *)
Definition astype_str (col : Series) : list value :=
  map (fun v => VStr (str v)) (values col).

(** The loop that collects the columns [pd.to_numeric] accepts. *)
Definition chart_numeric_cols (data : DataFrame) : list Series :=
  filter (fun col => succeeds (to_numeric col)) data.

Definition series_traces (data : DataFrame) (cols : list Series)
  : list trace :=
  map (fun ic => Scatter (range_index data) (values (snd ic)) "lines"
                         (axis_label (name (snd ic))) (palette_at (fst ic)))
      (combine (seq 0 (length cols)) cols).

Definition multi_series_chart (data : DataFrame) : option Figure :=
  let numeric_cols := chart_numeric_cols data in
  if (2 <=? length numeric_cols)%nat then
    Some (mkFigure (series_traces data (firstn 5 numeric_cols))
                   "Multi-Series Analysis" "Index" "Values")
  else None.

(** The block under [if len(data.columns) == 2]: [None] when the block
    returns nothing, because the conversion raised or because neither
    branch of the [if / elif] is taken. *)
Definition category_value_chart (data : DataFrame) (prompt_lower : string)
  : option Figure :=
  match data with
  | [col1; col2] =>
      match to_numeric col2 with
      | Raise _ => None
      | Ok numbers =>
          let categories := astype_str col1 in
          if contains "top" prompt_lower || contains "rank" prompt_lower
             || (len data <=? 10)%nat then
            Some (mkFigure [BarTrace categories (values numbers) (palette_at 0)]
                           "Comparison Analysis"
                           (axis_label (name col1)) (axis_label (name col2)))
          else if (20 <? len data)%nat then
            Some (mkFigure [Scatter categories (values numbers)
                                    "lines+markers" "" (palette_at 0)]
                           "Trend Analysis"
                           (axis_label (name col1)) (axis_label (name col2)))
          else None
      end
  | _ => None
  end.

Definition create_chart_from_data (data : DataFrame) (prompt : string)
  : option Figure :=
  if empty data then None
  else
    match category_value_chart data (lower prompt) with
    | Some fig => Some fig
    | None => multi_series_chart data
    end.

End Charts.

(** ** [create_summary_stats_chart]: numeric values as cells *)
Definition float_cell (x : npfloat) : value :=
  match x with
  | Fin q => VNum q
  | PInf => VInf false
  | NInf => VInf true
  | NaN => VNull
  end.

Definition create_summary_stats_chart (data : DataFrame) : option Figure :=
  let numeric_cols := select_dtypes_number data in
  if (length numeric_cols =? 0)%nat then None
  else
    Some (mkFigure
            [BarTrace (map (fun col => VStr (axis_label (name col))) numeric_cols)
                      (map (fun col => float_cell (mean col)) numeric_cols)
                      (palette_at 0)]
            "Average Values by Metric" "Metrics" "Average Value").

(** A ranking or comparison prompt, as [create_chart_from_data] reads
    it. *)
Definition ranking_prompt (prompt : string) : bool :=
  contains "top" (lower prompt) || contains "rank" (lower prompt).

(** Twelve categories with their amounts. *)
Definition twelve_categories : DataFrame :=
  [ mkSeries "product_name" Object
             (texts ["a"; "b"; "c"; "d"; "e"; "f"; "g"; "h"; "i"; "j"; "k"; "l"]);
    mkSeries "total_amount" Int64
             (numbers [12; 11; 10; 9; 8; 7; 6; 5; 4; 3; 2; 1]) ].

(* ================================================================= *)
(** * ForecastingEngine *)

(** A float of the form [a + c * sqrt r]: a forecast shifted by a
    multiple of a standard deviation. *)
Inductive bfloat : Type :=
| BNaN
| BPInf
| BNInf
| BFin (a c r : Q).

(** [x + s] for a rational float [x] and a square root [s] *)
Definition fadds (x : npfloat) (s : sfloat) : bfloat :=
  match x, s with
  | NaN, _ | _, SNaN => BNaN
  | PInf, SNInf | NInf, SPInf => BNaN
  | PInf, _ | _, SPInf => BPInf
  | NInf, _ | _, SNInf => BNInf
  | Fin a, SFin c r => BFin a c r
  end.

Definition sneg (s : sfloat) : sfloat :=
  match s with
  | SNaN => SNaN
  | SPInf => SNInf
  | SNInf => SPInf
  | SFin c r => SFin (- c) r
  end.

Definition fsubs (x : npfloat) (s : sfloat) : bfloat := fadds x (sneg s).

(** [np.std(xs)]: the population standard deviation, [ddof=0]. *)
Definition fstd0 (xs : list npfloat) : sfloat :=
  let m := fmean xs in
  fsqrt (fmean (map (fun x => fmul (fsub x m) (fsub x m)) xs)).

(** [np.arange(start, start + n)] as floats *)
Definition arange (start n : nat) : list npfloat :=
  map of_nat (seq start n).

Definition is_finite (x : npfloat) : bool :=
  match x with Fin _ => true | _ => false end.

(** The least-squares line through the points [(i, ys[i])]: what
    [np.polyfit(np.arange(len(ys)), ys, 1)] solves for, as
    [(slope, intercept)]. *)
Definition least_squares (ys : list npfloat) : npfloat * npfloat :=
  let xs := arange 0 (length ys) in
  let xbar := fmean xs in
  let ybar := fmean ys in
  let sxy :=
    fsum (map (fun p => fmul (fsub (fst p) xbar) (fsub (snd p) ybar))
              (combine xs ys)) in
  let sxx := fsum (map (fun x => fmul (fsub x xbar) (fsub x xbar)) xs) in
  let slope := fdiv sxy sxx in
  (slope, fsub ybar (fmul slope xbar)).

(** [pd.Timestamp.max], in nanoseconds *)
Definition timestamp_max : Z := 9223372036854775807.

Definition zero_pad (width : nat) (s : string) : string :=
  (String.concat "" (repeat "0" (width - String.length s)) ++ s)%string.

(** [t.strftime('%Y-%m')] for a year of the common era *)
Definition strftime_Y_m (t : Timestamp) : string :=
  (zero_pad 4 (str_of_nat (Z.to_nat (year_of t))) ++ "-"
   ++ zero_pad 2 (str_of_nat (Z.to_nat (month_of t))))%string.

(** A row of the frame a forecast returns; its columns are 'date',
    'forecast', 'lower_bound' and 'upper_bound'. *)
Record forecast_row : Type := mkForecastRow {
  f_date : string;
  f_forecast : npfloat;
  f_lower_bound : bfloat;
  f_upper_bound : bfloat
}.

Definition forecast_columns : list string :=
  ["date"; "forecast"; "lower_bound"; "upper_bound"].

(** [data.iloc[:, i]]: IndexError when the frame has no such column. *)
Definition iloc_col (data : DataFrame) (i : nat) : result Series :=
  match nth_error data i with
  | Some c => Ok c
  | None => Raise IndexError
  end.

(** [dates[valid_indices]] and [values[valid_indices]], row by row:
    the rows whose value is not NaN. *)
Definition valid_rows (dates : list (option Timestamp)) (vals : list value)
  : list (option Timestamp * npfloat) :=
  map (fun dv => (fst dv, to_float (snd dv)))
      (filter (fun dv => notnull (snd dv)) (combine dates vals)).

(** A list comprehension whose body may raise: the first exception
    stops it. *)
Fixpoint for_each {A B : Type} (f : A -> result B) (l : list A)
  : result (list B) :=
  match l with
  | [] => Ok []
  | a :: rest => b <- f a ;; bs <- for_each f rest ;; Ok (b :: bs)
  end.

Section Forecasting.

Variable to_datetime : Series -> result (list (option Timestamp)).
Variable to_numeric_coerce : Series -> Series.
(** What [np.polyfit] answers when a value is infinite: coefficients
    that are not numbers, or a LinAlgError, depending on the LAPACK
    build. *)
Variable polyfit_nonfinite : list npfloat -> result (npfloat * npfloat).
(** [self.prophet_available] *)
Variable prophet_available : bool.
(** Fitting Prophet on the clean rows and predicting [periods] months:
    the forecast rows, or the exception the library raises. *)
Variable prophet : list (Timestamp * value) -> nat -> result (list forecast_row).

(** [np.polyfit(np.arange(len(values)), values, 1)] *)
Definition polyfit (ys : list npfloat) : result (npfloat * npfloat) :=
  if forallb is_finite ys then Ok (least_squares ys)
  else polyfit_nonfinite ys.

(** [last_date + timedelta(days=30 * i)] for [i = 1 .. periods]; NaT
    stays NaT, and a date past [Timestamp.max] raises. *)
Definition future_dates (last_date : option Timestamp) (periods : nat)
  : result (list (option Timestamp)) :=
  for_each
    (fun i =>
       match last_date with
       | None => Ok None
       | Some t =>
           let future_date := t + 30 * Z.of_nat i * ns_per_day in
           if timestamp_max <? future_date then Raise ValueError
           else Ok (Some future_date)
       end)
    (seq 1 periods).

(** [d.strftime('%Y-%m')]: NaT does not support it. *)
Definition strftime_cell (d : option Timestamp) : result string :=
  match d with
  | Some t => Ok (strftime_Y_m t)
  | None => Raise ValueError
  end.

(** The body of the [try] block; every exception is caught by the
    caller. *)
Definition simple_trend (data : DataFrame) (periods : nat)
  : result (option (list forecast_row)) :=
  date_col <- iloc_col data 0 ;;
  dates <- to_datetime date_col ;;
  value_col <- iloc_col data 1 ;;
  let numbers := to_numeric_coerce value_col in
  let rows := valid_rows dates (values numbers) in
  let values := map snd rows in
  if (length values <? 3)%nat then Ok None
  else
    coeffs <- polyfit values ;;
    let slope := fst coeffs in
    let intercept := snd coeffs in
    let x := arange 0 (length values) in
    let last_date := last (map fst rows) None in
    future <- future_dates last_date periods ;;
    let future_x := arange (length values) periods in
    let forecasted_values :=
      map (fun fx => fadd (fmul slope fx) intercept) future_x in
    let residuals :=
      map (fun xv => fsub (snd xv) (fadd (fmul slope (fst xv)) intercept))
          (combine x values) in
    let std_error := fstd0 residuals in
    labels <- for_each strftime_cell future ;;
    Ok (Some (map (fun lf =>
                     mkForecastRow (fst lf) (snd lf)
                       (fsubs (snd lf) (smulq std_error (196 # 100)))
                       (fadds (snd lf) (smulq std_error (196 # 100))))
                  (combine labels forecasted_values))).

Definition _simple_trend_forecast (data : DataFrame) (periods : nat)
  : option (list forecast_row) :=
  if (len data <? 3)%nat then None
  else
    match simple_trend data periods with
    | Ok answer => answer
    | Raise _ => None
    end.




Definition validate_forecast_data (data : DataFrame) : bool :=
  if empty data || (len data <? 3)%nat then false
  else
    succeeds (date_col <- iloc_col data 0 ;;
              _ <- to_datetime date_col ;;
              value_col <- iloc_col data 1 ;;
              Ok (to_numeric_coerce value_col)).

End Forecasting.

(** The real number a finite bound stands for. *)
Definition bound_real (a c r : Q) : Rdefinitions.R :=
  Rdefinitions.Rplus (Rdefinitions.Q2R a) (real_of c r).

(** Three months of sales on a line. *)
Definition linear_months : Series :=
  mkSeries "month" Object (texts ["2024-01-01"; "2024-02-01"; "2024-03-01"]).

Definition linear_sales : Series :=
  mkSeries "sales" Int64 (numbers [10; 20; 30]).

Definition linear_parsed : list (option Timestamp) :=
  [ Some (timestamp_of_date 2024 1 1); Some (timestamp_of_date 2024 2 1);
    Some (timestamp_of_date 2024 3 1) ].

(** An instance of the answer of [np.polyfit] on infinite values. *)
Definition polyfit_raises (ys : list npfloat) : result (npfloat * npfloat) :=
  Raise ValueError.

(* ================================================================= *)
(** * AdvancedAnalytics.generate_business_insights *)

(** The f-strings of the method, with the values they format. *)
Inductive business_note : Type :=
| TotalRevenue (total : npfloat)
    (* f"Total revenue: ${total_revenue:,.0f}" *)
| AverageTransaction (avg : npfloat)
    (* f"Average transaction: ${avg_revenue:,.0f}" *)
| RecentPerformanceUp (growth : npfloat)
    (* f"Recent performance up {growth:.1f}% vs earlier periods" *)
| TopPerformingProduct (product : value)
    (* f"Top performing product: {top_product}" *)
| HighestRevenueMarket (country : value)
    (* f"Highest revenue market: {top_country}" *)
| AnalysisComplete.
    (* "Analysis complete - detailed metrics available in charts" *)

Definition dashboard_revenue_cols (data : DataFrame) : list Series :=
  filter (fun col => contains "revenue" (lower (name col))
                     || contains "total" (lower (name col)))
         (select_dtypes_number data).

(** [s.tail(n)] and [s.head(n)] followed by [.mean()] *)
Definition tail_mean (n : nat) (s : Series) : npfloat :=
  fmean (map to_float
             (filter notnull (skipn (length (values s) - n) (values s)))).

Definition head_mean (n : nat) (s : Series) : npfloat :=
  fmean (map to_float (filter notnull (firstn n (values s)))).

Definition growth_note (data : DataFrame) (revenue_col : Series)
  : list business_note :=
  if (1 <? len data)%nat then
    let recent_avg := tail_mean (len data / 4) revenue_col in
    let earlier_avg := head_mean (len data / 4) revenue_col in
    if fgtb recent_avg earlier_avg then
      [RecentPerformanceUp
         (fmul (fdiv (fsub recent_avg earlier_avg) earlier_avg) (of_Z 100))]
    else []
  else [].

Definition revenue_notes (data : DataFrame) : list business_note :=
  match dashboard_revenue_cols data with
  | [] => []
  | revenue_col :: _ =>
      [TotalRevenue (sum revenue_col); AverageTransaction (mean revenue_col)]
      ++ growth_note data revenue_col
  end.

(** [data.groupby(label)[revenue_cols[0]].sum().idxmax()], under the
    guard [label in data.columns and revenue_cols]. *)
Definition top_by_revenue (data : DataFrame) (label : string)
  (wrap : value -> business_note) : result (list business_note) :=
  match dashboard_revenue_cols data with
  | [] => Ok []
  | revenue_col :: _ =>
      if has_column data label then
        keys <- loc data label ;;
        top <- idxmax (groupby_sum (values keys) (values revenue_col)) ;;
        Ok [wrap top]
      else Ok []
  end.

(** The list [insights] when the method reaches its last line: what
    was appended before an exception stays, and the handler appends its
    own line. *)
Definition collected_insights (data : DataFrame) : list business_note :=
  let from_revenue := revenue_notes data in
  match top_by_revenue data "product_name" TopPerformingProduct with
  | Raise _ => from_revenue ++ [AnalysisComplete]
  | Ok from_product =>
      match top_by_revenue data "customer_country" HighestRevenueMarket with
      | Raise _ => from_revenue ++ from_product ++ [AnalysisComplete]
      | Ok from_country => from_revenue ++ from_product ++ from_country
      end
  end.

Definition generate_business_insights (data : DataFrame) (prompt : string)
  : list business_note :=
  firstn 5 (collected_insights data).

(* ================================================================= *)
(** * A flat column, residuals, first columns *)

(** Twelve months of 2024 beside a column that is labelled 'month_num'
    and holds the same number in every row. *)
Definition flat_dates : Series :=
  mkSeries "order_date" Object
    (texts ["2024-01-15"; "2024-02-15"; "2024-03-15"; "2024-04-15";
            "2024-05-15"; "2024-06-15"; "2024-07-15"; "2024-08-15";
            "2024-09-15"; "2024-10-15"; "2024-11-15"; "2024-12-15"]).

Definition flat_month_num : Series :=
  mkSeries "month_num" Int64
    (numbers [7; 7; 7; 7; 7; 7; 7; 7; 7; 7; 7; 7]).

Definition flat_month_num_table : DataFrame := [flat_dates; flat_month_num].

(** The fifteenth of each month of 2024. *)
Definition flat_parsed : list (option Timestamp) :=
  map (fun m => Some (timestamp_of_date 2024 m 15))
      [1; 2; 3; 4; 5; 6; 7; 8; 9; 10; 11; 12].

(** The same frame with the flat column labelled 'units'. *)
Definition flat_units : Series :=
  mkSeries "units" Int64 (values flat_month_num).

Definition flat_units_table : DataFrame := [flat_dates; flat_units].

(** [residuals = values - (slope * x + intercept)] with
    [x = np.arange(len(values))] *)
Definition trend_residuals (coeffs : npfloat * npfloat) (ys : list npfloat)
  : list npfloat :=
  map (fun xv => fsub (snd xv) (fadd (fmul (fst coeffs) (fst xv)) (snd coeffs)))
      (combine (arange 0 (length ys)) ys).

(** [col] is the first column of [data] that passes [test]. *)
Definition first_column_passing (test : Series -> bool) (data : DataFrame)
  (col : Series) : Prop :=
  exists before after,
    data = before ++ col :: after
    /\ test col = true
    /\ Forall (fun c => test c = false) before.

(* ================================================================= *)
(** * Facts about the float model *)

Lemma Qeq_bool_false_neq (a b : Q) : Qeq_bool a b = false -> ~ a == b.
Proof.
  intros H E. apply Qeq_bool_iff in E. congruence.
Qed.

Lemma inject_Z_pos (z : Z) : 0 < z -> (0 < inject_Z z)%Q.
Proof.
  intros H. change 0%Q with (inject_Z 0). now rewrite <- Zlt_Qlt.
Qed.

(** A ratio of a count to a positive count, times 100, is finite. *)
Lemma percent_finite (a b : Z) :
  0 < b ->
  fmul (fdiv (of_Z a) (of_Z b)) (of_Z 100)
  = Fin (inject_Z a / inject_Z b * inject_Z 100).
Proof.
  intros Hb. unfold of_Z, fdiv.
  destruct (Qeq_bool (inject_Z b) 0) eqn:E.
  - apply Qeq_bool_iff in E. pose proof (inject_Z_pos _ Hb). lra.
  - reflexivity.
Qed.

Lemma fgtb_Fin (a b : Q) : fgtb (Fin a) (Fin b) = true <-> (b < a)%Q.
Proof.
  simpl. rewrite negb_true_iff.
  split; intros H.
  - apply Qnot_le_lt. intros L. apply Qle_bool_iff in L. congruence.
  - destruct (Qle_bool a b) eqn:E; [|reflexivity].
    apply Qle_bool_iff in E. lra.
Qed.

Lemma fgtb_Fin_false (a b : Q) : fgtb (Fin a) (Fin b) = false <-> (a <= b)%Q.
Proof.
  simpl. rewrite negb_false_iff. apply Qle_bool_iff.
Qed.

(* ================================================================= *)
(** * Counting cells *)

Lemma isnull_sum_sum_cells (data : DataFrame) :
  isnull_sum_sum data = length (filter isnull (cells data)).
Proof.
  unfold isnull_sum_sum, cells.
  induction data as [|c data IH]; simpl; [reflexivity|].
  rewrite filter_app, length_app, <- IH. reflexivity.
Qed.

Lemma length_cells_uniform (n : nat) (data : DataFrame) :
  Forall (fun c => length (values c) = n) data ->
  length (cells data) = (length data * n)%nat.
Proof.
  unfold cells. induction 1 as [|c data Hc _ IH]; simpl; [reflexivity|].
  rewrite length_app, IH, Hc. reflexivity.
Qed.

Lemma total_cells_cells (data : DataFrame) :
  wf data -> total_cells data = Z.of_nat (length (cells data)).
Proof.
  intros [Hlen _]. unfold total_cells.
  rewrite (length_cells_uniform _ _ Hlen). lia.
Qed.

Lemma null_cells_le_total (data : DataFrame) :
  wf data -> 0 <= null_cells data <= total_cells data.
Proof.
  intros Hwf. rewrite (total_cells_cells _ Hwf). unfold null_cells.
  rewrite isnull_sum_sum_cells.
  pose proof (filter_length_le isnull (cells data)). lia.
Qed.

Lemma percent_monotone (a b t : Z) :
  0 < t -> a <= b ->
  (inject_Z a / inject_Z t * inject_Z 100
   <= inject_Z b / inject_Z t * inject_Z 100)%Q.
Proof.
  intros Ht Hab. pose proof (inject_Z_pos _ Ht) as HtQ.
  assert (inject_Z a <= inject_Z b)%Q as HabQ by now rewrite <- Zle_Qle.
  apply Qmult_le_compat_r; [|discriminate].
  unfold Qdiv. apply Qmult_le_compat_r; [assumption|].
  apply Qlt_le_weak, Qinv_lt_0_compat, HtQ.
Qed.

Lemma percent_of_difference (t n : Z) :
  (inject_Z (t - n) / inject_Z t * inject_Z 100
   == (inject_Z t - inject_Z n) / inject_Z t * 100)%Q.
Proof.
  unfold Z.sub. rewrite inject_Z_plus, inject_Z_opp. reflexivity.
Qed.

Lemma completeness_score_finite (data : DataFrame) :
  0 < total_cells data ->
  completeness_score data
  = Fin (inject_Z (total_cells data - null_cells data)
         / inject_Z (total_cells data) * inject_Z 100).
Proof.
  intros H. unfold completeness_score. now apply percent_finite.
Qed.

Lemma total_cells_pos (data : DataFrame) :
  (1 <= len data)%nat -> (1 <= length data)%nat -> 0 < total_cells data.
Proof.
  unfold total_cells. nia.
Qed.

(** ** Replacing one cell *)

Lemma length_set_nth {A : Type} (i : nat) (x : A) (l : list A) :
  length (set_nth i x l) = length l.
Proof.
  revert i. induction l as [|a l IH]; intros [|i]; simpl; auto.
Qed.

Lemma null_count_set_nth (i : nat) (v : value) (vs : list value) :
  nth_error vs i = Some v -> isnull v = false ->
  length (filter isnull (set_nth i VNull vs))
  = S (length (filter isnull vs)).
Proof.
  revert i. induction vs as [|a vs IH]; intros [|i] Hnth Hv; simpl in *;
    try discriminate.
  - injection Hnth as ->. rewrite Hv. reflexivity.
  - destruct (isnull a); simpl; rewrite (IH i Hnth Hv); reflexivity.
Qed.

Lemma isnull_sum_sum_set_nth (j : nat) (c c' : Series) (data : DataFrame) :
  nth_error data j = Some c ->
  null_count c' = S (null_count c) ->
  isnull_sum_sum (set_nth j c' data) = S (isnull_sum_sum data).
Proof.
  unfold isnull_sum_sum.
  revert j. induction data as [|d data IH]; intros [|j] Hnth Hc; simpl in *;
    try discriminate.
  - injection Hnth as ->. rewrite Hc. reflexivity.
  - rewrite (IH j Hnth Hc). lia.
Qed.

Lemma isnull_sum_sum_set_cell (data : DataFrame) (j i : nat) (v : value) :
  cell_at data j i = Some v -> isnull v = false ->
  isnull_sum_sum (set_cell data j i VNull) = S (isnull_sum_sum data).
Proof.
  unfold cell_at, set_cell. intros Hcell Hv.
  destruct (nth_error data j) as [c|] eqn:Hc; [|discriminate].
  apply isnull_sum_sum_set_nth with (c := c); [assumption|].
  unfold null_count; simpl. now apply null_count_set_nth with (v := v).
Qed.

Lemma len_set_cell (data : DataFrame) (j i : nat) (v : value) :
  len (set_cell data j i v) = len data.
Proof.
  unfold set_cell. destruct (nth_error data j) as [c|] eqn:Hc; [|reflexivity].
  destruct data as [|d data]; [destruct j; discriminate|].
  destruct j as [|j]; simpl in *.
  - injection Hc as ->. apply length_set_nth.
  - reflexivity.
Qed.

Lemma length_set_cell (data : DataFrame) (j i : nat) (v : value) :
  length (set_cell data j i v) = length data.
Proof.
  unfold set_cell. destruct (nth_error data j); [apply length_set_nth|reflexivity].
Qed.

Lemma total_cells_set_cell (data : DataFrame) (j i : nat) (v : value) :
  total_cells (set_cell data j i v) = total_cells data.
Proof.
  unfold total_cells. now rewrite len_set_cell, length_set_cell.
Qed.

(** C6. For a frame with at least one row and one column the
    completeness score is the percentage of non-null cells
    ((total cells - null cells) / total cells * 100); it is exactly 100
    when no cell is null; and replacing one non-null cell by a null,
    everything else fixed, does not increase it. *)
Theorem completeness_score_formula_and_monotone (data : DataFrame) :
  wf data -> (1 <= len data)%nat -> (1 <= length data)%nat ->
  exists q,
    completeness_score data = Fin q
    /\ q == completeness_formula data
    /\ (Forall (fun v => isnull v = false) (cells data) -> q == 100)
    /\ (forall j i v,
          cell_at data j i = Some v -> isnull v = false ->
          exists q',
            completeness_score (set_cell data j i VNull) = Fin q'
            /\ q' <= q)%Q.
Proof.
  intros Hwf Hrows Hcols.
  pose proof (total_cells_pos data Hrows Hcols) as Hpos.
  pose proof (null_cells_le_total _ Hwf) as Hnull.
  pose proof (inject_Z_pos _ Hpos) as HposQ.
  eexists. split; [apply (completeness_score_finite data Hpos)|].
  split; [|split].
  - unfold completeness_formula. cbv zeta.
    rewrite <- (total_cells_cells _ Hwf), <- isnull_sum_sum_cells.
    fold (null_cells data). apply percent_of_difference.
  - intros Hnone.
    assert (null_cells data = 0) as ->.
    { unfold null_cells. rewrite isnull_sum_sum_cells.
      induction Hnone as [|v l Hv _ IH]; simpl; [reflexivity|].
      now rewrite Hv. }
    rewrite Z.sub_0_r. change (inject_Z 100) with 100%Q. field. lra.
  - intros j i v Hcell Hv.
    assert (0 < total_cells (set_cell data j i VNull)) as Hpos'
      by now rewrite total_cells_set_cell.
    eexists. split; [apply (completeness_score_finite _ Hpos')|].
    rewrite total_cells_set_cell.
    unfold null_cells. rewrite (isnull_sum_sum_set_cell data j i v Hcell Hv).
    rewrite Nat2Z.inj_succ. fold (null_cells data).
    apply percent_monotone; lia.
Qed.

(* ================================================================= *)
(** * Duplicate rows *)

Lemma value_eqb_sym (a b : value) : value_eqb a b = value_eqb b a.
Proof.
  destruct a, b; simpl; try reflexivity.
  - destruct (Qeq_bool q q0) eqn:E, (Qeq_bool q0 q) eqn:E'; try reflexivity.
    + apply Qeq_bool_iff in E. apply Qeq_bool_false_neq in E'.
      exfalso. apply E'. now symmetry.
    + apply Qeq_bool_iff in E'. apply Qeq_bool_false_neq in E.
      exfalso. apply E. now symmetry.
  - destruct negative, negative0; reflexivity.
  - apply String.eqb_sym.
  - apply Z.eqb_sym.
  - apply Z.eqb_sym.
Qed.

Lemma row_eqb_sym (r s : list value) : row_eqb r s = row_eqb s r.
Proof.
  revert s. induction r as [|a r IH]; intros [|b s]; simpl; try reflexivity.
  now rewrite value_eqb_sym, IH.
Qed.

Lemma count_true_cons (b : bool) (bs : list bool) :
  count_true (b :: bs) = ((if b then 1 else 0) + count_true bs)%nat.
Proof.
  unfold count_true. simpl. destruct b; reflexivity.
Qed.

(** No row is marked exactly when no row equals a row seen before it. *)
Lemma duplicated_from_none (rs seen : list (list value)) :
  count_true (duplicated_from seen rs) = 0%nat
  <-> (forall j r, nth_error rs j = Some r ->
         (forall s, In s seen -> row_eqb r s = false)
         /\ (forall i r', (i < j)%nat -> nth_error rs i = Some r' ->
                          row_eqb r r' = false)).
Proof.
  revert seen. induction rs as [|r0 rs IH]; intros seen.
  - split; [|reflexivity]. intros _ [|j] r H; discriminate.
  - cbn [duplicated_from]. rewrite count_true_cons. split.
    + intros H.
      assert (existsb (row_eqb r0) seen = false) as Hseen
        by (destruct (existsb (row_eqb r0) seen); [discriminate|reflexivity]).
      rewrite Hseen in H. simpl in H.
      pose proof (proj1 (IH (r0 :: seen)) H) as H'. clear H. rename H' into H.
      intros [|j] r Hj; simpl in Hj.
      * injection Hj as <-. split.
        -- intros s Hs. destruct (row_eqb r0 s) eqn:E; [|reflexivity].
           assert (existsb (row_eqb r0) seen = true)
             by (apply existsb_exists; eauto).
           congruence.
        -- intros i r' Hi. lia.
      * destruct (H j r Hj) as [Hs Hearlier]. split.
        -- intros s Hin. apply Hs. now right.
        -- intros [|i] r' Hi Hr'; simpl in Hr'.
           ++ injection Hr' as <-. apply Hs. now left.
           ++ apply (Hearlier i r'); [lia|assumption].
    + intros H.
      assert (existsb (row_eqb r0) seen = false) as Hseen.
      { destruct (existsb (row_eqb r0) seen) eqn:E; [|reflexivity].
        apply existsb_exists in E as [s [Hin Hs]].
        destruct (H 0%nat r0 eq_refl) as [Hno _].
        rewrite (Hno s Hin) in Hs. discriminate. }
      rewrite Hseen. simpl. apply (proj2 (IH (r0 :: seen))).
      intros j r Hj. destruct (H (S j) r Hj) as [Hs Hearlier]. split.
      * intros s [<-|Hin].
        -- apply (Hearlier 0%nat r0); [lia|reflexivity].
        -- now apply Hs.
      * intros i r' Hi Hr'. apply (Hearlier (S i) r'); [lia|assumption].
Qed.

Lemma nth_error_rows (data : DataFrame) (i : nat) :
  nth_error (rows data) i
  = if (i <? len data)%nat then Some (row_at data i) else None.
Proof.
  unfold rows. rewrite nth_error_map.
  destruct (i <? len data)%nat eqn:E.
  - apply Nat.ltb_lt in E.
    rewrite (nth_error_nth' _ 0%nat) by (rewrite length_seq; lia).
    rewrite seq_nth by lia. reflexivity.
  - apply Nat.ltb_ge in E.
    assert (nth_error (seq 0 (len data)) i = None) as ->
      by (apply nth_error_None; rewrite length_seq; lia).
    reflexivity.
Qed.

Lemma duplicate_rows_zero (data : DataFrame) :
  duplicate_rows data = 0%nat <-> ~ has_duplicate_rows data.
Proof.
  unfold duplicate_rows, duplicated. rewrite duplicated_from_none. split.
  - intros H (i & j & Hij & Heq).
    assert (nth_error (rows data) j = Some (row_at data j)) as Hj.
    { rewrite nth_error_rows.
      destruct (Nat.ltb_spec j (len data)); [reflexivity|lia]. }
    assert (nth_error (rows data) i = Some (row_at data i)) as Hi.
    { rewrite nth_error_rows.
      destruct (Nat.ltb_spec i (len data)); [reflexivity|lia]. }
    destruct (H j _ Hj) as [_ Hearlier].
    rewrite row_eqb_sym, (Hearlier i _ (proj1 Hij) Hi) in Heq. discriminate.
  - intros H j r Hj. split; [intros s []|].
    intros i r' Hij Hi.
    rewrite nth_error_rows in Hj, Hi.
    destruct (Nat.ltb_spec j (len data)); [|discriminate].
    destruct (Nat.ltb_spec i (len data)); [|discriminate].
    injection Hj as <-. injection Hi as <-.
    destruct (row_eqb (row_at data j) (row_at data i)) eqn:E; [|reflexivity].
    exfalso. apply H. exists i, j. split; [lia|]. now rewrite row_eqb_sym.
Qed.

Lemma count_true_le_length (bs : list bool) : (count_true bs <= length bs)%nat.
Proof.
  apply filter_length_le.
Qed.

Lemma length_duplicated_from (rs seen : list (list value)) :
  length (duplicated_from seen rs) = length rs.
Proof.
  revert seen. induction rs as [|r rs IH]; intros seen; simpl; auto.
Qed.

Lemma duplicate_rows_le_len (data : DataFrame) :
  (duplicate_rows data <= len data)%nat.
Proof.
  unfold duplicate_rows, duplicated.
  pose proof (count_true_le_length (duplicated_from [] (rows data))) as H.
  rewrite length_duplicated_from in H.
  unfold rows in H. now rewrite length_map, length_seq in H.
Qed.

Lemma percent_eq_100 (a t : Q) :
  (0 < t -> (a / t * 100 == 100 <-> a == t))%Q.
Proof.
  intros Ht. split; intros H.
  - assert (a / t == 1)%Q as Hx by (set (x := (a / t)%Q) in *; lra).
    assert (a == a / t * t)%Q as Ha by (field; lra).
    rewrite Ha, Hx. lra.
  - rewrite H. field. lra.
Qed.

(** C7. For a frame with at least one row the consistency score is
    exactly 100 if and only if no two rows agree in every column. *)
Theorem consistency_score_100_iff_no_duplicates (data : DataFrame) :
  (1 <= len data)%nat ->
  exists q,
    consistency_score data = Fin q
    /\ (q == 100 <-> ~ has_duplicate_rows data).
Proof.
  intros Hrows.
  assert (0 < Z.of_nat (len data)) as Hpos by lia.
  pose proof (inject_Z_pos _ Hpos) as HposQ.
  eexists. split.
  - unfold consistency_score, of_nat. apply (percent_finite _ _ Hpos).
  - rewrite <- duplicate_rows_zero.
    pose proof (duplicate_rows_le_len data) as Hle.
    remember (Z.of_nat (len data)) as n eqn:Hn.
    remember (duplicate_rows data) as d eqn:Hd'.
    unfold Z.sub. rewrite inject_Z_plus, inject_Z_opp.
    change (inject_Z 100) with 100%Q.
    rewrite (percent_eq_100 _ _ HposQ). split.
    + intros H.
      assert (inject_Z (Z.of_nat d) == 0)%Q as Hd by (clear - H; lra).
      unfold Qeq in Hd. simpl in Hd. lia.
    + intros ->. simpl Z.of_nat. change (inject_Z 0) with 0%Q. lra.
Qed.

(* ================================================================= *)
(** * The quality remarks *)

Lemma duplicate_issue_is_not_missing_values (dups : nat) :
  ~ In missing_values_issue (duplicate_issues dups).
Proof.
  unfold duplicate_issues. destruct (0 <? dups)%nat; [|intros []].
  intros [H|[]]. discriminate H.
Qed.

(** C5, as the code has it. With a finite completeness score [q]: above
    95 the only strength is the excellent one; above 85 and up to 95 it
    is the good one; at 85 and below there is no strength and the
    missing-values issue is reported.  The issue is reported in no other
    case. *)
Theorem completeness_buckets (data : DataFrame) (q : Q) :
  completeness_score data = Fin q ->
  ((95 < q)%Q ->
     strengths (quality_of data) = ["Excellent data completeness"]
     /\ ~ In missing_values_issue (issues (quality_of data)))
  /\ ((85 < q)%Q /\ (q <= 95)%Q ->
        strengths (quality_of data) = ["Good data completeness"]
        /\ ~ In missing_values_issue (issues (quality_of data)))
  /\ ((q <= 85)%Q ->
        strengths (quality_of data) = []
        /\ In missing_values_issue (issues (quality_of data))).
Proof.
  intros Hq. unfold quality_of. cbv zeta. cbn [strengths issues].
  rewrite Hq. unfold completeness_remarks, of_Z.
  change (inject_Z 95) with 95%Q. change (inject_Z 85) with 85%Q.
  pose proof (duplicate_issue_is_not_missing_values (duplicate_rows data))
    as Hdup.
  repeat split.
  - apply fgtb_Fin in H. now rewrite H.
  - apply fgtb_Fin in H. rewrite H. simpl. exact Hdup.
  - destruct H as [H85 H95].
    apply fgtb_Fin in H85. apply fgtb_Fin_false in H95.
    now rewrite H95, H85.
  - destruct H as [H85 H95].
    apply fgtb_Fin in H85. apply fgtb_Fin_false in H95.
    rewrite H95, H85. simpl. exact Hdup.
  - assert (q <= 95)%Q as H95 by lra.
    apply fgtb_Fin_false in H. apply fgtb_Fin_false in H95.
    now rewrite H95, H.
  - assert (q <= 95)%Q as H95 by lra.
    apply fgtb_Fin_false in H. apply fgtb_Fin_false in H95.
    rewrite H95, H. simpl. now left.
Qed.

Lemma completeness_buckets_witness :
  ((95 < 1700 # 20)%Q ->
     strengths (quality_of table_85) = ["Excellent data completeness"]
     /\ ~ In missing_values_issue (issues (quality_of table_85)))
  /\ ((85 < 1700 # 20)%Q /\ (1700 # 20 <= 95)%Q ->
        strengths (quality_of table_85) = ["Good data completeness"]
        /\ ~ In missing_values_issue (issues (quality_of table_85)))
  /\ ((1700 # 20 <= 85)%Q ->
        strengths (quality_of table_85) = []
        /\ In missing_values_issue (issues (quality_of table_85))).
Proof.
  apply (completeness_buckets table_85 (1700 # 20)). reflexivity.
Defined.

(** C5, as stated, fails on a frame whose completeness is exactly 85:
    it gets no strength at all and the missing-values issue. *)
Lemma completeness_exactly_85_counterexample :
  exists q,
    completeness_score table_85 = Fin q
    /\ (q == 85)%Q
    /\ strengths (quality_of table_85) = []
    /\ issues (quality_of table_85) = [missing_values_issue].
Proof.
  exists (1700 # 20). repeat split.
Qed.

(* ================================================================= *)
(** * Recommendations *)

Section Recommendations.

Variable to_datetime : Series -> result (list (option Timestamp)).

Lemma null_percentage_finite (data : DataFrame) :
  (1 <= len data)%nat -> (1 <= length data)%nat ->
  null_percentage data
  = Fin (inject_Z (null_cells data) / inject_Z (total_cells data)
         * inject_Z 100).
Proof.
  intros Hrows Hcols. unfold null_percentage, of_nat.
  apply percent_finite. apply (total_cells_pos data Hrows Hcols).
Qed.

Lemma recommends_app (l1 l2 : list recommendation) (cat prio : string) :
  recommends (l1 ++ l2) cat prio
  <-> recommends l1 cat prio \/ recommends l2 cat prio.
Proof.
  unfold recommends. split.
  - intros (r & Hin & Hr). apply in_app_or in Hin as [Hin|Hin]; eauto.
  - intros [(r & Hin & Hr)|(r & Hin & Hr)]; exists r;
      (split; [apply in_or_app; auto|assumption]).
Qed.

Lemma recommends_singleton (r : recommendation) (cat prio : string) :
  recommends [r] cat prio <-> category r = cat /\ priority r = prio.
Proof.
  unfold recommends. split.
  - intros (r' & [<-|[]] & Hr). exact Hr.
  - intros Hr. exists r. split; [now left|exact Hr].
Qed.

Lemma recommends_nil (cat prio : string) : ~ recommends [] cat prio.
Proof.
  intros (r & [] & _).
Qed.

(** Only the first block of the method can produce a "Data Quality"
    entry. *)
Lemma recommends_data_quality (data : DataFrame) :
  recommends (recommendations_of to_datetime data) "Data Quality" "High"
  <-> fgtb (null_percentage data) (of_Z 10) = true.
Proof.
  unfold recommendations_of. rewrite !recommends_app. split.
  - intros [H|[H|[H|H]]].
    + destruct (fgtb (null_percentage data) (of_Z 10)); [reflexivity|].
      now apply recommends_nil in H.
    + destruct (0 <? length (select_dtypes_number data))%nat;
        [destruct (date_cols to_datetime data)|];
        try (now apply recommends_nil in H).
      apply recommends_singleton in H as [H _]. discriminate H.
    + destruct (has_column data "customer_country");
        [|now apply recommends_nil in H].
      apply recommends_singleton in H as [H _]. discriminate H.
    + apply recommends_singleton in H as [H _]. discriminate H.
  - intros ->. left. apply recommends_singleton. split; reflexivity.
Qed.

(** C4. For a frame with at least one row and one column, the last
    recommendation is the constant Low-priority "Process Automation"
    entry, and a High-priority "Data Quality" entry is present if and
    only if more than 10% of the cells are null. *)
Theorem recommendations_tail_and_data_quality (data : DataFrame) :
  wf data -> (1 <= len data)%nat -> (1 <= length data)%nat ->
  (exists front,
      recommendations_of to_datetime data = front ++ [process_automation])
  /\ category process_automation = "Process Automation"
  /\ priority process_automation = "Low"
  /\ (recommends (recommendations_of to_datetime data) "Data Quality" "High"
      <-> (1 # 10 < null_ratio data)%Q).
Proof.
  intros Hwf Hrows Hcols. split; [|split; [reflexivity|split; [reflexivity|]]].
  - unfold recommendations_of. eexists. rewrite !app_assoc. reflexivity.
  - rewrite recommends_data_quality.
    rewrite (null_percentage_finite data Hrows Hcols).
    unfold of_Z. rewrite fgtb_Fin.
    unfold null_ratio.
    rewrite <- (total_cells_cells _ Hwf), <- isnull_sum_sum_cells.
    fold (null_cells data).
    pose proof (inject_Z_pos _ (total_cells_pos data Hrows Hcols)) as Hpos.
    change (inject_Z 10) with 10%Q. change (inject_Z 100) with 100%Q.
    set (x := (inject_Z (null_cells data) / inject_Z (total_cells data))%Q).
    split; intros H; lra.
Qed.

(** C3, as the code has it. When the frame has a numeric column and
    the first five cells of some column parse as dates, a
    Medium-priority "Performance Monitoring" recommendation is
    emitted. *)
Theorem performance_monitoring_with_numeric_column (data : DataFrame) :
  (exists c, In c data /\ is_number_dtype (col_dtype c) = true) ->
  (exists c, In c data /\ succeeds (to_datetime (head 5 c)) = true) ->
  recommends (recommendations_of to_datetime data)
             "Performance Monitoring" "Medium".
Proof.
  intros (n & Hn & Hnum) (d & Hd & Hdate).
  unfold recommendations_of. rewrite !recommends_app. right. left.
  assert (In n (select_dtypes_number data)) as Hn'
    by (apply filter_In; auto).
  assert (In d (date_cols to_datetime data)) as Hd'
    by (apply filter_In; auto).
  destruct (select_dtypes_number data) as [|n0 ns]; [destruct Hn'|].
  destruct (date_cols to_datetime data) as [|d0 ds]; [destruct Hd'|].
  simpl. apply recommends_singleton. split; reflexivity.
Qed.

End Recommendations.

Lemma wf_table_85 : wf table_85.
Proof.
  split.
  - repeat constructor.
  - repeat constructor; simpl; intuition discriminate.
Defined.

Lemma recommendations_tail_and_data_quality_witness :
  (exists front,
      recommendations_of RefPandas.to_datetime table_85
      = front ++ [process_automation])
  /\ category process_automation = "Process Automation"
  /\ priority process_automation = "Low"
  /\ (recommends (recommendations_of RefPandas.to_datetime table_85)
                 "Data Quality" "High"
      <-> (1 # 10 < null_ratio table_85)%Q).
Proof.
  apply (recommendations_tail_and_data_quality RefPandas.to_datetime table_85).
  - exact wf_table_85.
  - simpl; lia.
  - simpl; lia.
Defined.

Lemma performance_monitoring_with_numeric_column_witness :
  recommends (recommendations_of RefPandas.to_datetime table_85)
             "Performance Monitoring" "Medium".
Proof.
  apply (performance_monitoring_with_numeric_column
           RefPandas.to_datetime table_85).
  - exists (mkSeries "id" Int64 (numbers [1; 2; 3; 4; 5; 6; 7; 8; 9; 10])).
    split; [now left|reflexivity].
  - exists (mkSeries "id" Int64 (numbers [1; 2; 3; 4; 5; 6; 7; 8; 9; 10])).
    split; [now left|reflexivity].
Defined.

(** C3, as stated, fails: a frame whose only column holds dates gets no
    "Performance Monitoring" recommendation of any priority. *)
Lemma date_column_alone_counterexample :
  (exists c, In c dates_only
             /\ succeeds (RefPandas.to_datetime (head 5 c)) = true)
  /\ recommendations_of RefPandas.to_datetime dates_only = [process_automation]
  /\ forall prio,
       ~ recommends (recommendations_of RefPandas.to_datetime dates_only)
                    "Performance Monitoring" prio.
Proof.
  split; [|split].
  - eexists. split; [now left|reflexivity].
  - reflexivity.
  - intros prio (r & [<-|[]] & Hcat & _). discriminate Hcat.
Qed.

Lemma completeness_score_witness :
  exists q,
    completeness_score table_85 = Fin q
    /\ (q == completeness_formula table_85)%Q
    /\ (Forall (fun v => isnull v = false) (cells table_85) -> q == 100)%Q
    /\ (forall j i v,
          cell_at table_85 j i = Some v -> isnull v = false ->
          exists q',
            completeness_score (set_cell table_85 j i VNull) = Fin q'
            /\ q' <= q)%Q.
Proof.
  apply (completeness_score_formula_and_monotone table_85).
  - exact wf_table_85.
  - simpl; lia.
  - simpl; lia.
Defined.

Lemma consistency_score_witness :
  exists q,
    consistency_score table_85 = Fin q
    /\ (q == 100 <-> ~ has_duplicate_rows table_85)%Q.
Proof.
  apply (consistency_score_100_iff_no_duplicates table_85). simpl; lia.
Defined.

(* ================================================================= *)
(** * The pipeline as a whole *)

Section PipelineFacts.

Variable to_datetime : Series -> result (list (option Timestamp)).

(** When the pipeline returns, it returns the six steps in order. *)
Lemma analyze_steps_numbered (data : DataFrame) (prompt : string)
      (r : AnalysisResults) :
  analyze_data_step_by_step to_datetime data prompt = Ok r ->
  map step_number (steps r) = [1; 2; 3; 4; 5; 6].
Proof.
  unfold analyze_data_step_by_step, _step_4_pattern_detection,
    _step_5_business_intelligence.
  destruct (patterns_of to_datetime data) as [details|e]; simpl;
    [|discriminate].
  destruct (business_insights data) as [found|e]; simpl; [|discriminate].
  intros H. injection H as <-. reflexivity.
Qed.

(** Without a numeric column the pattern step has nothing to do. *)
Lemma patterns_without_numbers (data : DataFrame) :
  select_dtypes_number data = [] ->
  patterns_of to_datetime data = Ok no_patterns.
Proof.
  intros H. unfold patterns_of. rewrite H.
  now destruct (date_cols to_datetime data).
Qed.

(** C1 fails on the code. [country_only] has one row and one column;
    whatever the date parser answers, steps 1 to 4 complete and step 5
    raises IndexError at [revenue_cols[0]], so the pipeline returns no
    report. *)
Theorem analyze_raises_without_revenue_column (prompt : string) :
  wf country_only
  /\ len country_only = 1%nat
  /\ length country_only = 1%nat
  /\ _step_4_pattern_detection to_datetime country_only prompt
     = Ok (mkStep 4 "🔍 Pattern Detection & Trends" "completed"
                  (Patterns no_patterns))
  /\ _step_5_business_intelligence country_only prompt = Raise IndexError
  /\ analyze_data_step_by_step to_datetime country_only prompt
     = Raise IndexError.
Proof.
  assert (patterns_of to_datetime country_only = Ok no_patterns) as H4
    by (now apply patterns_without_numbers).
  repeat split.
  - repeat constructor.
  - repeat constructor. intros [].
  - unfold _step_4_pattern_detection. now rewrite H4.
  - unfold analyze_data_step_by_step, _step_4_pattern_detection.
    now rewrite H4.
Qed.

End PipelineFacts.

(** The other exception of step 5: a customer column with no value at
    all makes [len(data) / unique_customers] a division by zero. *)
Lemma no_customers_raises_zero_division (prompt : string) :
  _step_5_business_intelligence
    [mkSeries "customer_id" Float64 [VNull; VNull]] prompt
  = Raise ZeroDivisionError.
Proof.
  reflexivity.
Qed.

(** ** The number of insights *)

Lemma business_insights_length (data : DataFrame) (found : list insight) :
  business_insights data = Ok found -> (length found <= 8)%nat.
Proof.
  unfold business_insights.
  assert (length (revenue_insights data) <= 3)%nat as Hr.
  { unfold revenue_insights. destruct (revenue_cols data); simpl; lia. }
  destruct (customer_insights data) as [cs|e] eqn:Hc; simpl; [|discriminate].
  assert (length cs <= 2)%nat as Hcs.
  { unfold customer_insights in Hc.
    destruct (has_column data "customer_name" || has_column data "customer_id").
    - destruct (loc data _) as [col|]; simpl in Hc; [|discriminate].
      destruct (nunique col =? 0)%nat; [discriminate|].
      injection Hc as <-. simpl; lia.
    - injection Hc as <-. simpl; lia. }
  destruct (geographic_insights data) as [gs|e] eqn:Hg; simpl; [|discriminate].
  assert (length gs <= 2)%nat as Hgs.
  { unfold geographic_insights in Hg.
    destruct (has_column data "customer_country").
    - destruct (loc data _) as [col|]; simpl in Hg; [|discriminate].
      destruct (idxmax _); simpl in Hg; [|discriminate].
      destruct (first_col _); simpl in Hg; [|discriminate].
      destruct (index0 _); simpl in Hg; [|discriminate].
      injection Hg as <-. simpl; lia.
    - injection Hg as <-. simpl; lia. }
  destruct (product_insights data) as [ps|e] eqn:Hp; simpl; [|discriminate].
  assert (length ps <= 1)%nat as Hps.
  { unfold product_insights in Hp.
    destruct (has_column data "product_name").
    - destruct (loc data _) as [col|]; simpl in Hp; [|discriminate].
      destruct (idxmax _); simpl in Hp; [|discriminate].
      injection Hp as <-. simpl; lia.
    - injection Hp as <-. simpl; lia. }
  intros H. injection H as <-. rewrite !length_app. lia.
Qed.

(** C2 fails on the code. [all_categories] has a revenue column, a
    customer column, a country column and a product column: step 5
    returns eight insights, nothing truncates them, and the report
    surfaces all eight. *)
Theorem all_categories_yield_eight_insights (prompt : string) :
  (exists found,
      _step_5_business_intelligence all_categories prompt
      = Ok (mkStep 5 "💼 Business Intelligence & Insights" "completed"
                   (BusinessIntelligence found))
      /\ length found = 8%nat)
  /\ (exists r,
         analyze_data_step_by_step RefPandas.to_datetime all_categories prompt
         = Ok r
         /\ length (insights r) = 8%nat).
Proof.
  split; eexists; split; vm_compute; reflexivity.
Qed.

(* ================================================================= *)
(** * Sorting *)

Section SortBy.

Context {A : Type}.
Variable le : A -> A -> bool.
Hypothesis le_total : forall a b, le a b = true \/ le b a = true.
Hypothesis le_trans :
  forall a b c, le a b = true -> le b c = true -> le a c = true.

Let R (a b : A) : Prop := le a b = true.

Lemma insert_by_perm (x : A) (l : list A) :
  Permutation (x :: l) (insert_by le x l).
Proof.
  induction l as [|y l IH]; simpl; [reflexivity|].
  destruct (le x y); [reflexivity|].
  rewrite perm_swap. now constructor.
Qed.

Lemma sort_by_perm (l : list A) : Permutation l (sort_by le l).
Proof.
  induction l as [|x l IH]; simpl; [reflexivity|].
  rewrite <- insert_by_perm. now constructor.
Qed.

Lemma insert_by_sorted (x : A) (l : list A) :
  StronglySorted R l -> StronglySorted R (insert_by le x l).
Proof.
  induction 1 as [|y l Hl IH Hy]; simpl.
  - repeat constructor.
  - destruct (le x y) eqn:Hxy.
    + constructor; [now constructor|].
      constructor; [exact Hxy|].
      eapply Forall_impl; [|exact Hy].
      intros z Hz. exact (le_trans _ _ _ Hxy Hz).
    + constructor; [exact IH|].
      assert (R y x) as Hyx
        by (destruct (le_total x y) as [H|H]; [congruence|exact H]).
      eapply Permutation_Forall; [apply insert_by_perm|].
      now constructor.
Qed.

Lemma sort_by_sorted (l : list A) : StronglySorted R (sort_by le l).
Proof.
  induction l as [|x l IH]; simpl; [constructor|].
  now apply insert_by_sorted.
Qed.

End SortBy.

(* ================================================================= *)
(** * prepare_time_series_data *)

Section ChartGeneratorFacts.

Variable to_datetime : Series -> result (list (option Timestamp)).
Variable to_datetime_scalar : string -> result Timestamp.
Variable to_numeric : Series -> result Series.
Variable to_numeric_coerce : Series -> Series.
Variable str : value -> string.

Let prepare : DataFrame -> option DataFrame :=
  prepare_time_series_data to_datetime to_datetime_scalar to_numeric
                           to_numeric_coerce str.

Lemma dropna_pairs_notnull (dates : list (option Timestamp))
      (vals : list value) :
  Forall (fun r => isnull (snd r) = false) (dropna_pairs dates vals).
Proof.
  unfold dropna_pairs. apply Forall_forall. intros r Hr.
  apply in_flat_map in Hr as (dv & _ & Hr).
  destruct (fst dv) as [t|]; [|destruct Hr].
  destruct (notnull (snd dv)) eqn:E; [|destruct Hr].
  destruct Hr as [<-|[]]. simpl.
  unfold notnull in E. now apply negb_true_iff in E.
Qed.

Lemma sorted_by_date_fst (l : list (Timestamp * value)) :
  StronglySorted (fun a b => (fst a <=? fst b) = true) l ->
  StronglySorted Z.le (map fst l).
Proof.
  induction 1 as [|r l Hl IH Hr]; simpl; constructor; [exact IH|].
  apply Forall_map. eapply Forall_impl; [|exact Hr].
  intros s Hs. now apply Z.leb_le.
Qed.

Lemma sort_by_date_sorted (rs : list (Timestamp * value)) :
  StronglySorted Z.le (map fst (sort_by_date rs)).
Proof.
  apply sorted_by_date_fst. unfold sort_by_date. apply sort_by_sorted.
  - intros a b. rewrite !Z.leb_le. lia.
  - intros a b c. rewrite !Z.leb_le. lia.
Qed.

Lemma sort_by_date_notnull (rs : list (Timestamp * value)) :
  Forall (fun r => isnull (snd r) = false) rs ->
  Forall (fun r => isnull (snd r) = false) (sort_by_date rs).
Proof.
  apply Permutation_Forall. apply sort_by_perm.
Qed.

Lemma sort_by_date_length (rs : list (Timestamp * value)) :
  length (sort_by_date rs) = length rs.
Proof.
  symmetry. apply Permutation_length, sort_by_perm.
Qed.

Lemma prepared_shape (data ts : DataFrame) :
  prepare data = Some ts -> time_series_shape ts.
Proof.
  unfold prepare, prepare_time_series_data.
  destruct (empty data); [discriminate|].
  destruct (date_columns _ _ _ data) as [|date_col ds]; [discriminate|].
  destruct (numeric_columns _ data) as [|value_col vs]; [discriminate|].
  destruct (String.eqb _ _); [discriminate|].
  destruct (convert_dates _ _ date_col) as [dates|]; [|discriminate].
  set (rs := dropna_pairs dates (values (to_numeric_coerce value_col))).
  destruct (length rs =? 0)%nat eqn:Hlen; [discriminate|].
  apply Nat.eqb_neq in Hlen.
  intros H. injection H as <-.
  pose proof (sort_by_date_length rs) as Hl.
  pose proof (sort_by_date_notnull rs (dropna_pairs_notnull _ _)) as Hnn.
  unfold time_series_shape. repeat split.
  - repeat constructor; simpl; now rewrite !length_map.
  - repeat constructor; simpl; intuition discriminate.
  - simpl. rewrite length_map. lia.
  - unfold cells. simpl. rewrite app_nil_r. apply Forall_app. split.
    + apply Forall_map. apply Forall_forall. reflexivity.
    + apply Forall_map. exact Hnn.
  - exists (map fst (sort_by_date rs)), (map snd (sort_by_date rs)),
      (col_dtype (to_numeric_coerce value_col)).
    split; [|apply sort_by_date_sorted].
    now rewrite map_map.
Qed.

(** C10. [prepare_time_series_data] returns None, or a frame with
    exactly the two columns 'date' and 'value', of equal positive
    length, with no null cell, whose dates are in non-decreasing
    order.  It returns None when the frame is empty, when no date
    column is detected, when no numeric column is detected, and when
    no row survives the coercions. *)
Theorem prepare_time_series_data_result (data : DataFrame) :
  match prepare data with
  | None => True
  | Some ts => time_series_shape ts
  end
  /\ (empty data = true -> prepare data = None)
  /\ (date_columns to_datetime to_datetime_scalar str data = [] ->
      prepare data = None)
  /\ (numeric_columns to_numeric data = [] -> prepare data = None)
  /\ (forall date_col value_col ds vs dates,
        date_columns to_datetime to_datetime_scalar str data = date_col :: ds ->
        numeric_columns to_numeric data = value_col :: vs ->
        convert_dates to_datetime str date_col = Some dates ->
        dropna_pairs dates (values (to_numeric_coerce value_col)) = [] ->
        prepare data = None).
Proof.
  split; [|split; [|split; [|split]]].
  - destruct (prepare data) as [ts|] eqn:H; [|exact I].
    now apply prepared_shape with (data := data).
  - intros H. unfold prepare, prepare_time_series_data. now rewrite H.
  - intros H. unfold prepare, prepare_time_series_data. rewrite H.
    now destruct (empty data).
  - intros H. unfold prepare, prepare_time_series_data. rewrite H.
    destruct (empty data); [reflexivity|].
    now destruct (date_columns _ _ _ data).
  - intros date_col value_col ds vs dates Hd Hv Hc Hrows.
    unfold prepare, prepare_time_series_data. rewrite Hd, Hv, Hc, Hrows.
    destruct (empty data); [reflexivity|].
    now destruct (String.eqb _ _).
Qed.

End ChartGeneratorFacts.

(** The method on two sample frames, with the reference parsers: rows
    come back in date order; a frame without a numeric column gives
    None. *)
Lemma prepare_unsorted_table :
  prepare_time_series_data RefPandas.to_datetime RefPandas.to_datetime_scalar
    RefPandas.to_numeric RefPandas.to_numeric_coerce RefPandas.str
    unsorted_table
  = Some [ mkSeries "date" Datetime64
             [ VDate (timestamp_of_date 2024 1 1);
               VDate (timestamp_of_date 2024 2 1);
               VDate (timestamp_of_date 2024 3 1) ];
           mkSeries "value" Int64 (numbers [1; 2; 3]) ]
  /\ prepare_time_series_data RefPandas.to_datetime
       RefPandas.to_datetime_scalar RefPandas.to_numeric
       RefPandas.to_numeric_coerce RefPandas.str dates_only
     = None.
Proof.
  split; vm_compute; reflexivity.
Qed.

(* ================================================================= *)
(** * Sums and means of constant columns *)

Lemma Qsgn_zero (z : Q) : (z == 0)%Q -> Qsgn z = 0.
Proof.
  unfold Qeq, Qsgn. simpl. intros H. rewrite Z.mul_1_r in H. now rewrite H.
Qed.

Lemma zero_or_nan_fmul_l (x y : npfloat) :
  zero_or_nan x -> zero_or_nan (fmul x y).
Proof.
  intros [->|(z & -> & Hz)].
  - left. now destruct y.
  - destruct y as [| | |b]; simpl.
    + now left.
    + left. now rewrite (Qsgn_zero z Hz).
    + left. now rewrite (Qsgn_zero z Hz).
    + right. exists (z * b)%Q. split; [reflexivity|]. rewrite Hz. ring.
Qed.


Lemma zero_or_nan_fadd (x y : npfloat) :
  zero_or_nan x -> zero_or_nan y -> zero_or_nan (fadd x y).
Proof.
  intros [->|(a & -> & Ha)] [->|(b & -> & Hb)]; simpl; try (now left).
  right. exists (a + b)%Q. split; [reflexivity|]. rewrite Ha, Hb. ring.
Qed.

Lemma zero_or_nan_fold (xs : list npfloat) (acc : npfloat) :
  zero_or_nan acc -> Forall zero_or_nan xs ->
  zero_or_nan (fold_left fadd xs acc).
Proof.
  intros Hacc Hxs. revert acc Hacc.
  induction Hxs as [|x xs Hx _ IH]; intros acc Hacc; simpl; [exact Hacc|].
  apply IH. now apply zero_or_nan_fadd.
Qed.

Lemma zero_or_nan_fsum (xs : list npfloat) :
  Forall zero_or_nan xs -> zero_or_nan (fsum xs).
Proof.
  intros H. unfold fsum. apply zero_or_nan_fold; [|exact H].
  right. exists 0%Q. split; reflexivity.
Qed.

(** The sum of [n] floats equal to [Fin c] is [n * c]. *)
Lemma fold_fadd_constant (c : Q) (xs : list npfloat) (a : Q) :
  Forall (fun x => feq x (Fin c)) xs ->
  exists s,
    fold_left fadd xs (Fin a) = Fin s
    /\ (s == a + inject_Z (Z.of_nat (length xs)) * c)%Q.
Proof.
  intros H. revert a.
  induction H as [|x xs Hx _ IH]; intros a.
  - exists a. split; [reflexivity|]. simpl. ring.
  - destruct x as [| | |q]; try contradiction. change (q == c)%Q in Hx.
    cbn [fold_left fadd]. destruct (IH (a + q)%Q) as (s & Hs & Heq).
    exists s. split; [exact Hs|]. cbn [length]. rewrite Heq, Hx.
    rewrite Nat2Z.inj_succ. unfold Z.succ. rewrite inject_Z_plus.
    change (inject_Z 1) with 1%Q. ring.
Qed.

Lemma fold_fadd_nan (xs : list npfloat) : fold_left fadd xs NaN = NaN.
Proof.
  induction xs as [|x xs IH]; simpl; [reflexivity|exact IH].
Qed.

Lemma fold_fadd_pinf (xs : list npfloat) :
  Forall (fun x => x = PInf) xs -> fold_left fadd xs PInf = PInf.
Proof.
  induction 1 as [|x xs -> _ IH]; simpl; [reflexivity|exact IH].
Qed.

Lemma fold_fadd_ninf (xs : list npfloat) :
  Forall (fun x => x = NInf) xs -> fold_left fadd xs NInf = NInf.
Proof.
  induction 1 as [|x xs -> _ IH]; simpl; [reflexivity|exact IH].
Qed.

Lemma of_nat_succ_nonzero (n : nat) :
  Qeq_bool (inject_Z (Z.of_nat (S n))) 0 = false.
Proof.
  destruct (Qeq_bool (inject_Z (Z.of_nat (S n))) 0) eqn:E; [|reflexivity].
  apply Qeq_bool_iff in E. unfold Qeq in E. simpl in E. lia.
Qed.

Lemma fdiv_pinf_count (n : nat) : fdiv PInf (of_nat (S n)) = PInf.
Proof.
  unfold of_nat, of_Z, fdiv. rewrite of_nat_succ_nonzero. reflexivity.
Qed.

Lemma fdiv_ninf_count (n : nat) : fdiv NInf (of_nat (S n)) = NInf.
Proof.
  unfold of_nat, of_Z, fdiv. rewrite of_nat_succ_nonzero. reflexivity.
Qed.

Lemma fdiv_fin_count (s : Q) (n : nat) :
  fdiv (Fin s) (of_nat (S n)) = Fin (s / inject_Z (Z.of_nat (S n))).
Proof.
  unfold of_nat, of_Z, fdiv. rewrite of_nat_succ_nonzero. reflexivity.
Qed.

(** Every deviation from the mean of a constant list is zero or
    undefined. *)
Lemma constant_deviations (f0 : npfloat) (xs : list npfloat) :
  Forall (fun x => feq x f0) xs ->
  Forall (fun x => zero_or_nan (fsub x (fmean xs))) xs.
Proof.
  intros H. destruct xs as [|x0 xs']; [constructor|].
  set (xs := x0 :: xs') in *.
  destruct f0 as [| | |c].
  - eapply Forall_impl; [|exact H].
    intros x Hx. destruct x; try contradiction. now left.
  - assert (Forall (fun x => x = PInf) xs) as Hall.
    { eapply Forall_impl; [|exact H].
      intros x Hx. now destruct x. }
    assert (fmean xs = PInf) as ->.
    { unfold fmean, fsum, xs. inversion Hall as [|? ? Hx0 Hxs']; subst.
      cbn [fold_left fadd length]. rewrite (fold_fadd_pinf _ Hxs').
      apply fdiv_pinf_count. }
    eapply Forall_impl; [|exact Hall]. intros x ->. now left.
  - assert (Forall (fun x => x = NInf) xs) as Hall.
    { eapply Forall_impl; [|exact H].
      intros x Hx. now destruct x. }
    assert (fmean xs = NInf) as ->.
    { unfold fmean, fsum, xs. inversion Hall as [|? ? Hx0 Hxs']; subst.
      cbn [fold_left fadd length]. rewrite (fold_fadd_ninf _ Hxs').
      apply fdiv_ninf_count. }
    eapply Forall_impl; [|exact Hall]. intros x ->. now left.
  - destruct (fold_fadd_constant c xs 0 H) as (s & Hs & Heq).
    assert (exists m, fmean xs = Fin m /\ (m == c)%Q) as (m & -> & Hm).
    { unfold fmean. unfold xs at 1. fold xs. unfold fsum. rewrite Hs.
      unfold xs at 1. cbn [length]. rewrite fdiv_fin_count.
      eexists. split; [reflexivity|].
      rewrite Heq. unfold xs. cbn [length].
      assert (~ inject_Z (Z.of_nat (S (length xs'))) == 0)%Q as Hn
        by (apply Qeq_bool_false_neq, of_nat_succ_nonzero).
      field. exact Hn. }
    eapply Forall_impl; [|exact H].
    intros x Hx. destruct x as [| | |q]; try contradiction.
    change (q == c)%Q in Hx.
    right. exists (q + - m)%Q. split; [reflexivity|]. rewrite Hx, Hm. ring.
Qed.

Lemma zero_or_nan_sum_of_squares (f0 : npfloat) (xs : list npfloat) :
  Forall (fun x => feq x f0) xs ->
  zero_or_nan
    (fsum (map (fun x => fmul (fsub x (fmean xs)) (fsub x (fmean xs))) xs)).
Proof.
  intros H. apply zero_or_nan_fsum, Forall_map.
  eapply Forall_impl; [|exact (constant_deviations f0 xs H)].
  intros x Hx. now apply zero_or_nan_fmul_l.
Qed.


(* ================================================================= *)
(** * Correlations *)

Lemma value_eqb_to_float (x v : value) :
  value_eqb x v = true -> feq (to_float x) (to_float v).
Proof.
  destruct x, v; simpl; try discriminate; try (intros _; exact I).
  - intros H. now apply Qeq_bool_iff in H.
  - destruct negative, negative0; simpl; try discriminate; intros _; exact I.
  - intros H. apply Z.eqb_eq in H. subst. unfold feq, of_Z. reflexivity.
  - intros H. apply Z.eqb_eq in H. subst. unfold feq, of_Z. reflexivity.
Qed.





Lemma undefined_is_not_strong (t : Q) : sgtb (sabs SNaN) t = false.
Proof.
  reflexivity.
Qed.

(** ** The pairs the double loop reports *)












(* ================================================================= *)
(** * Column lookup and assignment *)

Lemma getcol_setcol_same (data : DataFrame) (c : Series) :
  getcol (setcol data c) (name c) = Some c.
Proof.
  unfold getcol. induction data as [|d data IH]; simpl.
  - now rewrite String.eqb_refl.
  - destruct (String.eqb (name c) (name d)) eqn:E; simpl.
    + now rewrite String.eqb_refl.
    + now rewrite E.
Qed.

Lemma getcol_setcol_other (data : DataFrame) (c : Series) (n : string) :
  n <> name c -> getcol (setcol data c) n = getcol data n.
Proof.
  intros Hn. apply String.eqb_neq in Hn. unfold getcol.
  induction data as [|d data IH]; simpl.
  - now rewrite Hn.
  - destruct (String.eqb (name c) (name d)) eqn:E; simpl.
    + apply String.eqb_eq in E. rewrite <- E, Hn. reflexivity.
    + now rewrite IH.
Qed.

Lemma getcol_take (idx : list nat) (data : DataFrame) (n : string) :
  getcol (map (take idx) data) n = option_map (take idx) (getcol data n).
Proof.
  unfold getcol. induction data as [|d data IH]; simpl; [reflexivity|].
  destruct (String.eqb n (name d)); [reflexivity|exact IH].
Qed.

Lemma getcol_In (data : DataFrame) (c : Series) :
  NoDup (columns data) -> In c data -> getcol data (name c) = Some c.
Proof.
  unfold getcol, columns. induction data as [|d data IH]; simpl; [intros _ []|].
  intros Hnd [->|Hin].
  - now rewrite String.eqb_refl.
  - apply NoDup_cons_iff in Hnd as [Hd Hnd].
    destruct (String.eqb (name c) (name d)) eqn:E; [|now apply IH].
    apply String.eqb_eq in E. exfalso. apply Hd. rewrite <- E.
    now apply in_map.
Qed.

Lemma loc_getcol (data : DataFrame) (n : string) (c : Series) :
  getcol data n = Some c -> loc data n = Ok c.
Proof.
  unfold loc. now intros ->.
Qed.

(* ================================================================= *)
(** * Calendar months *)

Lemma month_of_range (t : Timestamp) : 1 <= month_of t <= 12.
Proof.
  unfold month_of, civil_from_days. cbv zeta. cbn [fst snd].
  set (z := t / ns_per_day + 719468).
  set (era := z / 146097).
  set (doe := z - era * 146097).
  assert (0 <= doe <= 146096) as Hdoe.
  { unfold doe, era. pose proof (Z.mod_pos_bound z 146097 ltac:(lia)) as H.
    rewrite Z.mod_eq in H by lia. lia. }
  clearbody doe. clear z era.
  set (yoe := (doe - doe / 1460 + doe / 36524 - doe / 146096) / 365).
  set (doy := doe - (365 * yoe + yoe / 4 - yoe / 100)).
  assert (0 <= doy <= 365) as Hdoy
    by (unfold doy, yoe; Z.div_mod_to_equations; lia).
  clearbody doy.
  set (mp := (5 * doy + 2) / 153).
  assert (0 <= mp <= 11) as Hmp by (unfold mp; Z.div_mod_to_equations; lia).
  clearbody mp.
  destruct (mp <? 10) eqn:E; [apply Z.ltb_lt in E|apply Z.ltb_ge in E]; lia.
Qed.

(** The month of a monthly period is the month of its timestamps. *)
Lemma dt_month_to_period (v : value) : dt_month (to_period_M v) = dt_month v.
Proof.
  destruct v; try reflexivity. simpl.
  pose proof (month_of_range t) as H.
  replace (((year_of t - 1970) * 12 + (month_of t - 1)) mod 12 + 1)
    with (month_of t); [reflexivity|].
  generalize dependent (month_of t). generalize (year_of t).
  intros y m Hm. Z.div_mod_to_equations. lia.
Qed.

(* ================================================================= *)
(** * The frame the pattern step works on *)

Section TemporalFrame.

Variable data : DataFrame.
Variables date_col value_col : Series.
Variable parsed : list (option Timestamp).

Hypothesis unique_labels : NoDup (columns data).
Hypothesis value_in_data : In value_col data.
Hypothesis value_is_number : is_number_dtype (col_dtype value_col) = true.
Hypothesis value_not_date : name value_col <> name date_col.
Hypothesis value_not_month : name value_col <> "month".
Hypothesis value_not_month_num : name value_col <> "month_num".

Let order : list nat := sort_order (map date_value parsed).

Let converted : Series :=
  mkSeries (name date_col) Datetime64 (map date_value parsed).

Lemma converted_assigned :
  getcol (setcol data converted) (name date_col) = Some converted.
Proof.
  exact (getcol_setcol_same data converted).
Qed.

Lemma dated_unfold :
  dated data date_col parsed = map (take order) (setcol data converted).
Proof.
  unfold dated, sort_values. fold converted.
  now rewrite converted_assigned.
Qed.

Lemma dated_date_column :
  getcol (dated data date_col parsed) (name date_col)
  = Some (take order converted).
Proof.
  rewrite dated_unfold, getcol_take.
  now rewrite converted_assigned.
Qed.

Lemma dated_value_column :
  getcol (dated data date_col parsed) (name value_col)
  = Some (take order value_col).
Proof.
  rewrite dated_unfold, getcol_take.
  rewrite getcol_setcol_other by exact value_not_date.
  now rewrite (getcol_In data value_col unique_labels value_in_data).
Qed.

Lemma values_take_converted :
  values (take order converted) = dates_in_order parsed.
Proof.
  reflexivity.
Qed.

Lemma values_take_value :
  values (take order value_col) = values_in_order parsed value_col.
Proof.
  reflexivity.
Qed.

Let month_column : Series :=
  mkSeries "month" Period (map to_period_M (dates_in_order parsed)).

Let temp_data : DataFrame :=
  setcol (dated data date_col parsed) month_column.

Lemma with_month_dated :
  with_month (dated data date_col parsed) (name date_col) = Ok temp_data.
Proof.
  unfold with_month. now rewrite (loc_getcol _ _ _ dated_date_column).
Qed.

Lemma temp_value_column :
  getcol temp_data (name value_col) = Some (take order value_col).
Proof.
  unfold temp_data. rewrite getcol_setcol_other by exact value_not_month.
  exact dated_value_column.
Qed.

Lemma take_is_numeric : is_numeric_dtype (take order value_col) = true.
Proof.
  unfold is_numeric_dtype. simpl.
  destruct (col_dtype value_col); try discriminate value_is_number;
    reflexivity.
Qed.

Lemma monthly_aggregation_temp :
  monthly_aggregation temp_data (name value_col)
  = Ok (monthly_buckets parsed value_col).
Proof.
  unfold monthly_aggregation.
  assert (loc temp_data "month" = Ok month_column) as ->
    by (apply loc_getcol, (getcol_setcol_same _ month_column)).
  rewrite (loc_getcol _ _ _ temp_value_column). simpl.
  now rewrite take_is_numeric.
Qed.

(** Whatever the label of the date column, the month numbers are those
    of the parsed dates. *)
Lemma temp_month_numbers :
  exists dates,
    loc temp_data (name date_col) = Ok dates
    /\ map dt_month (values dates) = map dt_month (dates_in_order parsed).
Proof.
  destruct (String.eqb (name date_col) "month") eqn:E.
  - apply String.eqb_eq in E. exists month_column. split.
    + rewrite E. apply loc_getcol, (getcol_setcol_same _ month_column).
    + simpl. rewrite map_map. apply map_ext, dt_month_to_period.
  - apply String.eqb_neq in E. exists (take order converted). split.
    + apply loc_getcol. unfold temp_data.
      rewrite getcol_setcol_other by exact E. exact dated_date_column.
    + reflexivity.
Qed.

Lemma seasonal_means_temp :
  seasonal_means temp_data (name date_col) (name value_col)
  = Ok (month_of_year_means parsed value_col).
Proof.
  unfold seasonal_means.
  destruct temp_month_numbers as (dates & -> & Hmonths). simpl.
  set (month_num := mkSeries "month_num" Int64 (map dt_month (values dates))).
  assert (loc (setcol temp_data month_num) "month_num" = Ok month_num) as ->
    by (apply loc_getcol, (getcol_setcol_same temp_data month_num)).
  simpl.
  assert (getcol (setcol temp_data month_num) (name value_col)
          = Some (take order value_col)) as Hv.
  { rewrite getcol_setcol_other by exact value_not_month_num.
    exact temp_value_column. }
  rewrite (loc_getcol _ _ _ Hv). simpl. rewrite take_is_numeric.
  unfold month_of_year_means. now rewrite Hmonths.
Qed.

End TemporalFrame.

(* ================================================================= *)
(** * idxmax and idxmin *)

Lemma fgtb_upper (a b c : npfloat) :
  fisnan a = false -> fisnan b = false -> fisnan c = false ->
  fgtb a b = false -> fgtb c b = true -> fgtb a c = false.
Proof.
  destruct a as [| | |a], b as [| | |b], c as [| | |c]; simpl;
    try discriminate; try reflexivity.
  intros _ _ _ Hab Hcb.
  apply negb_false_iff, Qle_bool_iff in Hab.
  apply negb_true_iff in Hcb.
  apply negb_false_iff, Qle_bool_iff.
  destruct (Qlt_le_dec b c) as [H|H]; [lra|].
  apply Qle_bool_iff in H. congruence.
Qed.

Lemma fltb_lower (a b c : npfloat) :
  fisnan a = false -> fisnan b = false -> fisnan c = false ->
  fltb a b = false -> fltb c b = true -> fltb a c = false.
Proof.
  unfold fltb.
  destruct a as [| | |a], b as [| | |b], c as [| | |c]; simpl;
    try discriminate; try reflexivity.
  intros _ _ _ Hab Hcb.
  apply negb_false_iff, Qle_bool_iff in Hab.
  apply negb_true_iff in Hcb.
  apply negb_false_iff, Qle_bool_iff.
  destruct (Qlt_le_dec c b) as [H|H]; [lra|].
  apply Qle_bool_iff in H. congruence.
Qed.

Lemma fgtb_irrefl (a : npfloat) : fgtb a a = false.
Proof.
  destruct a as [| | |a]; simpl; try reflexivity.
  apply negb_false_iff, Qle_bool_iff. lra.
Qed.

Lemma kvalues_filter (s : KeyedSeries) :
  kvalues s = map snd (filter (fun kv => negb (fisnan (snd kv))) s).
Proof.
  unfold kvalues. induction s as [|e s IH]; simpl; [reflexivity|].
  destruct (negb (fisnan (snd e))); simpl; now rewrite IH.
Qed.

Section ArgBest.

Variable better : npfloat -> npfloat -> bool.
Hypothesis better_nan : forall x, better NaN x = false.
Hypothesis better_irrefl : forall x, better x x = false.
Hypothesis better_trans :
  forall a b c,
    fisnan a = false -> fisnan b = false -> fisnan c = false ->
    better a b = false -> better c b = true -> better a c = false.

Lemma better_nan_entry (x y : npfloat) : fisnan x = true -> better x y = false.
Proof.
  destruct x; try discriminate. intros _. apply better_nan.
Qed.

Lemma arg_best_extreme (s : KeyedSeries) :
  forall (best : value * npfloat) (seen : KeyedSeries),
    fisnan (snd best) = false ->
    In best seen ->
    (forall kv, In kv seen -> better (snd kv) (snd best) = false) ->
    exists x,
      In (arg_best better best s, x) (seen ++ s)
      /\ fisnan x = false
      /\ forall kv, In kv (seen ++ s) -> better (snd kv) x = false.
Proof.
  induction s as [|kv s IH]; intros best seen Hbest Hin Hseen.
  - exists (snd best). rewrite app_nil_r. simpl.
    destruct best as [k x]. auto.
  - cbn [arg_best].
    replace (seen ++ kv :: s) with ((seen ++ [kv]) ++ s)
      by (now rewrite <- app_assoc).
    destruct (fisnan (snd kv)) eqn:Hnan.
    + apply IH; [exact Hbest|apply in_or_app; now left|].
      intros kv' Hkv'. apply in_app_or in Hkv' as [Hkv'|[<-|[]]]; auto.
      now apply better_nan_entry.
    + destruct (better (snd kv) (snd best)) eqn:Hb.
      * apply IH; [exact Hnan|apply in_or_app; right; now left|].
        intros kv' Hkv'. apply in_app_or in Hkv' as [Hkv'|[<-|[]]].
        -- destruct (fisnan (snd kv')) eqn:Hnan'.
           ++ now apply better_nan_entry.
           ++ apply (better_trans _ (snd best)); auto.
        -- apply better_irrefl.
      * apply IH; [exact Hbest|apply in_or_app; now left|].
        intros kv' Hkv'. apply in_app_or in Hkv' as [Hkv'|[<-|[]]]; auto.
Qed.

Lemma idx_best_extreme (s : KeyedSeries) (k : value) :
  idx_best better s = Ok k ->
  exists x,
    In (k, x) s /\ fisnan x = false
    /\ forall k' x', In (k', x') s -> better x' x = false.
Proof.
  unfold idx_best.
  destruct (filter (fun kv => negb (fisnan (snd kv))) s) as [|kv rest] eqn:Hf;
    [discriminate|].
  intros H. injection H as <-.
  assert (In kv (kv :: rest)) as Hkv by now left.
  rewrite <- Hf in Hkv. apply filter_In in Hkv as [_ Hkv].
  apply negb_true_iff in Hkv.
  destruct (arg_best_extreme rest kv [kv] Hkv) as (x & Hin & Hx & Hall).
  - now left.
  - intros kv' [<-|[]]. apply better_irrefl.
  - exists x. split; [|split; [exact Hx|]].
    + change ([kv] ++ rest) with (kv :: rest) in Hin.
      rewrite <- Hf in Hin. now apply filter_In in Hin.
    + intros k' x' Hin'.
      destruct (fisnan x') eqn:Hnan; [now apply better_nan_entry|].
      apply (Hall (k', x')). change ([kv] ++ rest) with (kv :: rest).
      rewrite <- Hf. apply filter_In. split; [exact Hin'|].
      simpl. now rewrite Hnan.
Qed.

Lemma idx_best_defined (s : KeyedSeries) :
  kvalues s <> [] -> exists k, idx_best better s = Ok k.
Proof.
  rewrite kvalues_filter. unfold idx_best. intros H.
  destruct (filter (fun kv => negb (fisnan (snd kv))) s) as [|kv rest].
  - now destruct H.
  - eauto.
Qed.

End ArgBest.

Lemma idxmax_labels_maximum (s : KeyedSeries) (k : value) :
  idxmax s = Ok k -> labels_maximum s k.
Proof.
  apply idx_best_extreme.
  - reflexivity.
  - apply fgtb_irrefl.
  - apply fgtb_upper.
Qed.

Lemma idxmin_labels_minimum (s : KeyedSeries) (k : value) :
  idxmin s = Ok k -> labels_minimum s k.
Proof.
  apply idx_best_extreme.
  - intros x. unfold fltb. now destruct x.
  - intros x. unfold fltb. apply fgtb_irrefl.
  - apply fltb_lower.
Qed.

(* ================================================================= *)
(** * A series without variation has no seasonality *)

Lemma fmean_constant (f0 : npfloat) (xs : list npfloat) :
  xs <> [] -> Forall (fun x => feq x f0) xs -> feq (fmean xs) f0.
Proof.
  intros Hne H. destruct xs as [|x0 xs']; [now destruct Hne|]. clear Hne.
  unfold fmean, fsum. cbn [length].
  destruct f0 as [| | |c].
  - inversion H as [|? ? Hx0 _]; subst.
    destruct x0; try contradiction.
    cbn [fold_left fadd]. now rewrite fold_fadd_nan.
  - assert (Forall (fun x => x = PInf) (x0 :: xs')) as Hall.
    { eapply Forall_impl; [|exact H]. intros x Hx. now destruct x. }
    inversion Hall as [|? ? Hx0 Hxs']; subst.
    cbn [fold_left fadd]. rewrite (fold_fadd_pinf _ Hxs').
    now rewrite fdiv_pinf_count.
  - assert (Forall (fun x => x = NInf) (x0 :: xs')) as Hall.
    { eapply Forall_impl; [|exact H]. intros x Hx. now destruct x. }
    inversion Hall as [|? ? Hx0 Hxs']; subst.
    cbn [fold_left fadd]. rewrite (fold_fadd_ninf _ Hxs').
    now rewrite fdiv_ninf_count.
  - destruct (fold_fadd_constant c (x0 :: xs') 0 H) as (s & Hs & Heq).
    rewrite Hs, fdiv_fin_count. unfold feq. rewrite Heq. cbn [length].
    assert (~ inject_Z (Z.of_nat (S (length xs'))) == 0)%Q as Hn
      by (apply Qeq_bool_false_neq, of_nat_succ_nonzero).
    field. exact Hn.
Qed.

Lemma zero_or_nan_fdiv (x : npfloat) (b : Q) :
  zero_or_nan x -> zero_or_nan (fdiv x (Fin b)).
Proof.
  intros [->|(z & -> & Hz)]; [now left|]. simpl.
  destruct (Qeq_bool b 0) eqn:E.
  - left. now rewrite (Qsgn_zero z Hz).
  - right. eexists. split; [reflexivity|].
    apply Qeq_bool_false_neq in E. rewrite Hz. field. exact E.
Qed.

Lemma fvar_constant (f0 : npfloat) (xs : list npfloat) :
  Forall (fun x => feq x f0) xs -> zero_or_nan (fvar xs).
Proof.
  intros H. unfold fvar. destruct xs as [|x0 xs'] eqn:E; [now left|].
  rewrite <- E in *. unfold of_Z. apply zero_or_nan_fdiv.
  now apply (zero_or_nan_sum_of_squares f0).
Qed.

(** The ratio of the root of a zero (or undefined) variance to anything
    never exceeds the threshold. *)
Lemma no_spread_no_strength (v y : npfloat) :
  zero_or_nan v -> sgtb (sdiv (fsqrt v) y) (1 # 10) = false.
Proof.
  intros [->|(z & -> & Hz)]; [reflexivity|]. simpl.
  destruct (Qle_bool 0 z); [|reflexivity].
  destruct y as [| | |b]; simpl; try reflexivity.
  destruct (Qeq_bool b 0) eqn:E.
  - now rewrite (Qsgn_zero z Hz).
  - simpl. apply andb_false_iff. right.
    apply negb_false_iff, Qle_bool_iff. rewrite Hz. lra.
Qed.

Lemma coefficient_of_variation_constant (f0 : npfloat) (s : KeyedSeries) :
  Forall (fun x => feq x f0) (kvalues s) ->
  sgtb (coefficient_of_variation s) (1 # 10) = false.
Proof.
  intros H. unfold coefficient_of_variation, fstd.
  apply no_spread_no_strength. now apply (fvar_constant f0).
Qed.

Lemma strength_needs_entries (s : KeyedSeries) :
  sgtb (coefficient_of_variation s) (1 # 10) = true -> kvalues s <> [].
Proof.
  intros H E. unfold coefficient_of_variation in H. now rewrite E in H.
Qed.

(** ** Groups of a constant column *)

Lemma in_group_of (keys vals : list value) (k x : value) :
  In x (group_of keys vals k) -> In x vals.
Proof.
  unfold group_of. intros H. apply in_map_iff in H as ([k' x'] & <- & H).
  apply filter_In in H as [H _]. now apply in_combine_r in H.
Qed.

Lemma in_values_in_order (parsed : list (option Timestamp)) (col : Series)
      (x : value) :
  In x (values_in_order parsed col) -> x = VNull \/ In x (values col).
Proof.
  unfold values_in_order. intros H. apply in_map_iff in H as (i & <- & _).
  destruct (nth_in_or_default i (values col) VNull) as [Hin| ->]; auto.
Qed.

Lemma group_floats_constant (vals g : list value) (v : value) :
  (forall x, In x vals -> isnull x = false -> value_eqb x v = true) ->
  (forall x, In x g -> x = VNull \/ In x vals) ->
  Forall (fun x => feq x (to_float v)) (group_floats g).
Proof.
  intros Hv Hg. unfold group_floats. apply Forall_map, Forall_forall.
  intros x Hx. apply filter_In in Hx as [Hx Hnn].
  unfold notnull in Hnn. apply negb_true_iff in Hnn.
  apply value_eqb_to_float, Hv; [|exact Hnn].
  destruct (Hg x Hx) as [->|H]; [discriminate Hnn|exact H].
Qed.

Lemma groupby_mean_constant (keys vals source : list value) (v : value) :
  (forall x, In x source -> isnull x = false -> value_eqb x v = true) ->
  (forall x, In x vals -> x = VNull \/ In x source) ->
  Forall (fun x => feq x (to_float v)) (kvalues (groupby_mean keys vals)).
Proof.
  intros Hv Hvals. unfold kvalues, groupby_mean, groupby.
  rewrite !map_map. simpl. apply Forall_forall. intros m Hm.
  apply filter_In in Hm as [Hm Hnan]. apply in_map_iff in Hm as (k & <- & _).
  apply fmean_constant.
  - intros E. rewrite E in Hnan. discriminate Hnan.
  - apply (group_floats_constant source); [exact Hv|].
    intros x Hx. apply Hvals. now apply in_group_of in Hx.
Qed.

Lemma month_of_year_means_constant (parsed : list (option Timestamp))
      (col : Series) :
  constant_cells (values col) ->
  sgtb (coefficient_of_variation (month_of_year_means parsed col)) (1 # 10)
  = false.
Proof.
  intros (v & Hv). apply (coefficient_of_variation_constant (to_float v)).
  unfold month_of_year_means.
  apply (groupby_mean_constant _ _ (values col)); [exact Hv|].
  apply in_values_in_order.
Qed.

(* ================================================================= *)
(** * Monthly buckets are calendar months *)

Lemma partition_perm {A : Type} (p : A -> bool) (l : list A) :
  Permutation (filter p l ++ filter (fun x => negb (p x)) l) l.
Proof.
  induction l as [|a l IH]; simpl; [constructor|].
  destruct (p a); simpl.
  - now constructor.
  - rewrite <- Permutation_middle. now constructor.
Qed.

Lemma map_snd_combine {A B : Type} (l : list A) (l' : list B) :
  length l = length l' -> map snd (combine l l') = l'.
Proof.
  revert l'. induction l as [|a l IH]; intros [|b l'] H; simpl in *;
    try discriminate; [reflexivity|].
  f_equal. apply IH. now injection H.
Qed.

Lemma map_nth_seq {A : Type} (l : list A) (d : A) :
  map (fun i => nth i l d) (seq 0 (length l)) = l.
Proof.
  induction l as [|a l IH]; simpl; [reflexivity|].
  f_equal. rewrite <- seq_shift, map_map. exact IH.
Qed.

Lemma sort_order_perm (keys : list value) :
  Permutation (sort_order keys) (seq 0 (length keys)).
Proof.
  unfold sort_order. cbv zeta.
  set (indexed := combine keys (seq 0 (length keys))).
  assert (map snd indexed = seq 0 (length keys)) as Hsnd
    by (apply map_snd_combine; now rewrite length_seq).
  rewrite (filter_ext (fun kv => isnull (fst kv))
                      (fun kv => negb (notnull (fst kv))))
    by (intros kv; unfold notnull; now rewrite negb_involutive).
  rewrite <- Hsnd.
  etransitivity;
    [|apply Permutation_map,
        (partition_perm (fun kv => notnull (fst kv)) indexed)].
  rewrite map_app. apply Permutation_app_tail.
  apply Permutation_map, Permutation_sym, sort_by_perm.
Qed.

Lemma dates_in_order_perm (parsed : list (option Timestamp)) :
  Permutation (dates_in_order parsed) (map date_value parsed).
Proof.
  unfold dates_in_order. cbv zeta.
  etransitivity; [apply Permutation_map, sort_order_perm|].
  now rewrite map_nth_seq.
Qed.

Lemma seen_period (o : Z) (seen : list value) :
  existsb (value_eqb (VPeriod o)) seen = true <-> In (VPeriod o) seen.
Proof.
  rewrite existsb_exists. split.
  - intros (s & Hin & Heq). destruct s; try discriminate Heq.
    simpl in Heq. apply Z.eqb_eq in Heq. now subst.
  - intros H. exists (VPeriod o). split; [exact H|]. simpl. apply Z.eqb_refl.
Qed.

Lemma unique_from_periods (l seen : list value) :
  all_periods l ->
  NoDup (unique_from seen l)
  /\ forall x, In x (unique_from seen l) <-> In x l /\ ~ In x seen.
Proof.
  intros H. revert seen. induction H as [|v l (o & ->) _ IH]; intros seen.
  - simpl. split; [constructor|]. intros x. tauto.
  - cbn [unique_from].
    destruct (existsb (value_eqb (VPeriod o)) seen) eqn:E.
    + apply seen_period in E. destruct (IH seen) as [Hnd Hin].
      split; [exact Hnd|]. intros x. rewrite Hin. simpl. split.
      * tauto.
      * intros [[<-|Hx] Hns]; [contradiction|tauto].
    + assert (~ In (VPeriod o) seen) as Hns
        by (intros Hin; apply seen_period in Hin; congruence).
      destruct (IH (VPeriod o :: seen)) as [Hnd Hin].
      split.
      * constructor; [|exact Hnd]. rewrite Hin. simpl. tauto.
      * intros x. simpl. rewrite Hin. simpl. split.
        -- intros [<-|[Hx Hn]]; tauto.
        -- intros [[<-|Hx] Hn]; [tauto|].
           destruct (value_eqb (VPeriod o) x) eqn:Ex.
           ++ destruct x; try discriminate Ex. simpl in Ex.
              apply Z.eqb_eq in Ex. subst. now left.
           ++ right. split; [exact Hx|]. intros [<-|Hs]; [|tauto].
              simpl in Ex. rewrite Z.eqb_refl in Ex. discriminate.
Qed.

Lemma ordinals_periods (l : list value) :
  all_periods l -> map VPeriod (ordinals l) = l.
Proof.
  induction 1 as [|v l (o & ->) _ IH]; simpl; [reflexivity|].
  f_equal. exact IH.
Qed.

Lemma length_unique_periods (l : list value) :
  all_periods l ->
  length (unique l) = length (nodup Z.eq_dec (ordinals l)).
Proof.
  intros H. destruct (unique_from_periods l [] H) as [Hnd Hin].
  rewrite <- (length_map VPeriod (nodup Z.eq_dec (ordinals l))).
  apply Permutation_length, NoDup_Permutation.
  - exact Hnd.
  - apply NoDup_map_NoDup_ForallPairs; [|apply NoDup_nodup].
    intros a b _ _ Hab. now injection Hab.
  - intros x. unfold unique. rewrite Hin. split.
    + intros [Hx _]. rewrite <- (ordinals_periods l H) in Hx.
      apply in_map_iff in Hx as (o & <- & Ho).
      apply in_map, nodup_In, Ho.
    + intros Hx. split; [|intros []].
      apply in_map_iff in Hx as (o & <- & Ho). apply nodup_In in Ho.
      rewrite <- (ordinals_periods l H). now apply in_map.
Qed.

Lemma notnull_periods (l : list value) :
  all_periods (filter notnull (map to_period_M l)).
Proof.
  unfold all_periods. apply Forall_forall. intros v Hv.
  apply filter_In in Hv as [Hv Hnn]. apply in_map_iff in Hv as (x & <- & _).
  destruct x; simpl in *; try discriminate Hnn; eauto.
Qed.

Lemma ordinals_filter_notnull (l : list value) :
  ordinals (filter notnull l) = ordinals l.
Proof.
  unfold ordinals. induction l as [|v l IH]; simpl; [reflexivity|].
  destruct v; simpl; rewrite ?IH; reflexivity.
Qed.

Lemma ordinals_perm (l l' : list value) :
  Permutation l l' -> Permutation (ordinals l) (ordinals l').
Proof.
  unfold ordinals. induction 1; simpl.
  - constructor.
  - now apply Permutation_app_head.
  - rewrite !app_assoc. apply Permutation_app_tail, Permutation_app_comm.
  - etransitivity; eauto.
Qed.

Lemma length_nodup_perm (l l' : list Z) :
  Permutation l l' ->
  length (nodup Z.eq_dec l) = length (nodup Z.eq_dec l').
Proof.
  intros H. apply Permutation_length, NoDup_Permutation.
  - apply NoDup_nodup.
  - apply NoDup_nodup.
  - intros x. rewrite !nodup_In. split; apply Permutation_in.
    + exact H.
    + now apply Permutation_sym.
Qed.

Lemma ordinals_of_parsed (parsed : list (option Timestamp)) :
  ordinals (map to_period_M (map date_value parsed))
  = flat_map (fun o => match o with
                       | Some t => [month_ordinal t]
                       | None => []
                       end) parsed.
Proof.
  unfold ordinals. induction parsed as [|[t|] parsed IH]; simpl;
    [reflexivity| |]; now rewrite IH.
Qed.

Lemma length_groupby_sum (keys vals : list value) :
  length (groupby_sum keys vals) = length (unique (filter notnull keys)).
Proof.
  unfold groupby_sum, groupby, group_keys. rewrite !length_map.
  symmetry. apply Permutation_length, sort_by_perm.
Qed.

(** The monthly aggregation has one bucket per calendar month in which
    a parsed date falls, whatever the order of the rows. *)
Lemma monthly_buckets_are_calendar_months
      (parsed : list (option Timestamp)) (value_col : Series) :
  length (monthly_buckets parsed value_col) = length (calendar_months parsed).
Proof.
  unfold monthly_buckets, calendar_months.
  rewrite length_groupby_sum.
  rewrite (length_unique_periods _ (notnull_periods _)).
  rewrite ordinals_filter_notnull, <- ordinals_of_parsed.
  apply length_nodup_perm, ordinals_perm, Permutation_map,
    dates_in_order_perm.
Qed.

(* ================================================================= *)
(** * The seasonality record *)

Section Seasonality.

Variable to_datetime : Series -> result (list (option Timestamp)).

Lemma seasonal_record_cases (value_col : string) (seasonal : KeyedSeries) :
  (sgtb (coefficient_of_variation seasonal) (1 # 10) = true
   /\ exists peak low,
        idxmax seasonal = Ok peak /\ idxmin seasonal = Ok low
        /\ seasonal_record value_col seasonal
           = Ok [mkSeasonal value_col (coefficient_of_variation seasonal)
                            peak low])
  \/ (sgtb (coefficient_of_variation seasonal) (1 # 10) = false
      /\ seasonal_record value_col seasonal = Ok []).
Proof.
  unfold seasonal_record, seasonal_strength_of.
  fold (coefficient_of_variation seasonal).
  destruct (sgtb (coefficient_of_variation seasonal) (1 # 10)) eqn:E;
    [left|right; auto].
  split; [reflexivity|].
  pose proof (strength_needs_entries seasonal E) as Hne.
  destruct (idx_best_defined fgtb seasonal Hne) as (peak & Hpeak).
  destruct (idx_best_defined fltb seasonal Hne) as (low & Hlow).
  exists peak, low. unfold idxmax, idxmin. rewrite Hpeak, Hlow. auto.
Qed.

(** Away from the helper labels.  Take the first date column and the
    first numeric column, the
    numeric column being another column than the date column and than
    the two helper columns 'month' and 'month_num', and let the date
    column convert.  Then the pattern step returns, and it emits a
    seasonality record if and only if the monthly aggregation has at
    least 12 buckets (one per calendar month in which a date falls) and
    the coefficient of variation of the month-of-year means exceeds
    0.1.  The record is the only one, its strength is that coefficient,
    its peak month labels a maximal mean and its low month a minimal
    one.  A value column that is constant yields no record. *)
Theorem seasonality_record_iff (data : DataFrame) (date_col value_col : Series)
        (ds vs : list Series) (parsed : list (option Timestamp)) :
  date_cols to_datetime data = date_col :: ds ->
  select_dtypes_number data = value_col :: vs ->
  to_datetime date_col = Ok parsed ->
  NoDup (columns data) ->
  name value_col <> name date_col ->
  name value_col <> "month" ->
  name value_col <> "month_num" ->
  exists details,
    patterns_of to_datetime data = Ok details
    /\ length (monthly_buckets parsed value_col)
       = length (calendar_months parsed)
    /\ (seasonal_patterns details <> []
        <-> (12 <= length (calendar_months parsed))%nat
            /\ sgtb (coefficient_of_variation
                       (month_of_year_means parsed value_col)) (1 # 10)
               = true)
    /\ (forall r,
          In r (seasonal_patterns details) ->
          seasonal_patterns details = [r]
          /\ seasonal_metric r = name value_col
          /\ strength r
             = coefficient_of_variation (month_of_year_means parsed value_col)
          /\ labels_maximum (month_of_year_means parsed value_col)
                            (peak_month r)
          /\ labels_minimum (month_of_year_means parsed value_col)
                            (low_month r))
    /\ (constant_cells (values value_col) -> seasonal_patterns details = []).
Proof.
  intros Hdate Hnum Hparsed Hnd Hvd Hvm Hvn.
  rewrite <- (monthly_buckets_are_calendar_months parsed value_col).
  assert (In value_col (select_dtypes_number data)) as Hin
    by (rewrite Hnum; now left).
  apply filter_In in Hin as [Hin Hnumber].
  unfold patterns_of. rewrite Hdate, Hnum.
  unfold temporal_analysis. rewrite Hparsed. cbn [bind].
  rewrite (with_month_dated data date_col parsed). cbn [bind].
  rewrite (monthly_aggregation_temp data date_col value_col parsed
             Hnd Hin Hnumber Hvd Hvm).
  cbn [bind].
  set (monthly := monthly_buckets parsed value_col).
  set (seasonal := month_of_year_means parsed value_col).
  destruct (12 <=? length monthly)%nat eqn:E12.
  - apply Nat.leb_le in E12. unfold seasonality.
    rewrite (seasonal_means_temp data date_col value_col parsed
               Hnd Hin Hnumber Hvd Hvm Hvn).
    cbn [bind]. fold seasonal.
    destruct (seasonal_record_cases (name value_col) seasonal)
      as [(Hcv & peak & low & Hpeak & Hlow & ->)|(Hcv & ->)]; cbn [bind].
    + eexists. split; [reflexivity|]. cbn [seasonal_patterns].
      split; [reflexivity|]. split; [|split].
      * split; [auto|discriminate].
      * intros r [<-|[]]. cbn.
        repeat split;
          [now apply idxmax_labels_maximum|now apply idxmin_labels_minimum].
      * intros Hconst.
        pose proof (month_of_year_means_constant parsed value_col Hconst) as H.
        fold seasonal in H. congruence.
    + eexists. split; [reflexivity|]. cbn [seasonal_patterns].
      split; [reflexivity|]. split; [|split].
      * split; [intros H; now destruct H|intros [_ H]; congruence].
      * intros r [].
      * reflexivity.
  - apply Nat.leb_gt in E12. cbn [bind].
    eexists. split; [reflexivity|]. cbn [seasonal_patterns].
    split; [reflexivity|]. split; [|split].
    + split; [intros H; now destruct H|intros [H _]; lia].
    + intros r [].
    + reflexivity.
Qed.

End Seasonality.

Lemma seasonality_record_witness :
  exists details,
    patterns_of RefPandas.to_datetime seasonal_table = Ok details
    /\ length (monthly_buckets seasonal_parsed seasonal_revenue)
       = length (calendar_months seasonal_parsed)
    /\ (seasonal_patterns details <> []
        <-> (12 <= length (calendar_months seasonal_parsed))%nat
            /\ sgtb (coefficient_of_variation
                       (month_of_year_means seasonal_parsed seasonal_revenue))
                    (1 # 10)
               = true)
    /\ (forall r,
          In r (seasonal_patterns details) ->
          seasonal_patterns details = [r]
          /\ seasonal_metric r = name seasonal_revenue
          /\ strength r
             = coefficient_of_variation
                 (month_of_year_means seasonal_parsed seasonal_revenue)
          /\ labels_maximum
               (month_of_year_means seasonal_parsed seasonal_revenue)
               (peak_month r)
          /\ labels_minimum
               (month_of_year_means seasonal_parsed seasonal_revenue)
               (low_month r))
    /\ (constant_cells (values seasonal_revenue) ->
        seasonal_patterns details = []).
Proof.
  apply (seasonality_record_iff RefPandas.to_datetime seasonal_table
           seasonal_month seasonal_revenue [seasonal_revenue] []).
  - reflexivity.
  - reflexivity.
  - reflexivity.
  - repeat constructor; simpl; intuition discriminate.
  - discriminate.
  - discriminate.
  - discriminate.
Defined.

(** On [seasonal_table] the record is emitted, with its peak in July
    and its low in January. *)
Lemma seasonal_table_record :
  exists s,
    option_map seasonal_patterns
      (match patterns_of RefPandas.to_datetime seasonal_table with
       | Ok d => Some d
       | Raise _ => None
       end)
    = Some [mkSeasonal "revenue" s (VNum 7) (VNum 1)].
Proof.
  eexists. vm_compute. reflexivity.
Qed.

(* ================================================================= *)
(** * The exact model against real numbers and binary64 *)

Module RealReading.

Import Reals Qreals.
Local Open Scope R_scope.

(** Comparing squares decides [t < c * sqrt r] for a threshold
    [0 <= t]: the comparison [sgtb] makes is the comparison of the real
    numbers. *)
Lemma sgtb_is_real_comparison (c r t : Q) :
  (0 <= r)%Q -> (0 <= t)%Q ->
  sgtb (SFin c r) t = true <-> Q2R t < real_of c r.
Proof.
  intros Hr Ht. unfold sgtb, real_of.
  assert (Qle_bool 0 t = true) as -> by now apply Qle_bool_iff.
  rewrite andb_true_iff, !negb_true_iff.
  assert (forall a b, Qle_bool a b = false <-> (b < a)%Q) as Hlt.
  { intros a b. split; intros H.
    - apply Qnot_le_lt. intros L. apply Qle_bool_iff in L. congruence.
    - destruct (Qle_bool a b) eqn:E; [|reflexivity].
      apply Qle_bool_iff in E. Lqa.lra. }
  rewrite !Hlt.
  apply Qle_Rle in Hr, Ht. rewrite RMicromega.Q2R_0 in Hr, Ht.
  pose proof (sqrt_pos (Q2R r)) as Hs.
  pose proof (sqrt_sqrt (Q2R r) Hr) as Hss.
  set (s := sqrt (Q2R r)) in *.
  split.
  - intros [Hc Hsq]. apply Qlt_Rlt in Hc, Hsq.
    rewrite RMicromega.Q2R_0 in Hc. rewrite !Q2R_mult in Hsq.
    rewrite <- Hss in Hsq.
    destruct (Rlt_le_dec (Q2R t) (Q2R c * s)) as [Hlt'|Hle]; [exact Hlt'|].
    assert (0 <= Q2R c * s) as Hcs by (apply Rmult_le_pos; Lra.lra).
    assert (Q2R c * s * (Q2R c * s) <= Q2R t * Q2R t) as Hsq'
      by (apply Rmult_le_compat; Lra.lra).
    Lra.lra.
  - intros H.
    assert (0 < Q2R c) as Hc.
    { destruct (Rlt_le_dec 0 (Q2R c)) as [Hlt'|Hle]; [exact Hlt'|].
      assert (Q2R c * s <= 0)
        by (rewrite <- (Rmult_0_l s); apply Rmult_le_compat_r; Lra.lra).
      Lra.lra. }
    split.
    + apply Rlt_Qlt. now rewrite RMicromega.Q2R_0.
    + apply Rlt_Qlt. rewrite !Q2R_mult. rewrite <- Hss.
      assert (Q2R t * Q2R t < Q2R c * s * (Q2R c * s)) as Hsq
        by (apply Rmult_le_0_lt_compat; Lra.lra).
      Lra.lra.
Qed.

Lemma Q2R_Qabs (c : Q) : Q2R (Qabs c) = Rabs (Q2R c).
Proof.
  destruct (Qlt_le_dec c 0) as [H|H].
  - rewrite Qabs_neg by Lqa.lra. rewrite Q2R_opp.
    apply Qlt_Rlt in H. rewrite RMicromega.Q2R_0 in H.
    rewrite Rabs_left by exact H. reflexivity.
  - rewrite Qabs_pos by exact H.
    apply Qle_Rle in H. rewrite RMicromega.Q2R_0 in H.
    rewrite Rabs_right by Lra.lra. reflexivity.
Qed.

(** [abs(r) > t] on the model is [|r| > t] on the reals. *)
Lemma sgtb_sabs_is_real_comparison (c r t : Q) :
  (0 <= r)%Q -> (0 <= t)%Q ->
  sgtb (sabs (SFin c r)) t = true <-> Q2R t < Rabs (real_of c r).
Proof.
  intros Hr Ht. cbn [sabs]. rewrite (sgtb_is_real_comparison _ _ _ Hr Ht).
  unfold real_of. rewrite Rabs_mult, Q2R_Qabs.
  rewrite (Rabs_right (sqrt (Q2R r))) by (apply Rle_ge, sqrt_pos).
  reflexivity.
Qed.

End RealReading.

(** On [table_85] binary64 gives exactly 85.0 as well, and
    [85.0 > 85] is false: rounding does not rescue the boundary. *)
Lemma table_85_in_binary64 :
  binary64_percent (total_cells table_85 - null_cells table_85)
                   (total_cells table_85)
  = binary64_of_Z 85
  /\ PrimFloat.ltb (binary64_of_Z 85)
                   (binary64_percent
                      (total_cells table_85 - null_cells table_85)
                      (total_cells table_85))
     = false.
Proof.
  split; vm_compute; reflexivity.
Qed.

(* ================================================================= *)
(** * Step 5: when it returns, what it raises, how much it returns *)

Lemma has_column_loc (data : DataFrame) (label : string) :
  has_column data label = true -> exists c, getcol data label = Some c.
Proof.
  unfold has_column, columns, getcol.
  induction data as [|d data IH]; simpl; [discriminate|].
  destruct (String.eqb label (name d)); simpl; [now eexists|exact IH].
Qed.

Lemma unique_from_nil (seen vs : list value) :
  unique_from seen vs = [] -> forall v, In v vs -> existsb (value_eqb v) seen = true.
Proof.
  revert seen. induction vs as [|v vs IH]; simpl; intros seen H w Hin;
    [contradiction|].
  destruct (existsb (value_eqb v) seen) eqn:E; [|discriminate].
  destruct Hin as [<-|Hin]; [exact E|now apply IH].
Qed.

Lemma unique_nil (vs : list value) : unique vs = [] -> vs = [].
Proof.
  intros H. destruct vs as [|v vs]; [reflexivity|].
  now pose proof (unique_from_nil _ _ H v (or_introl eq_refl)).
Qed.

Lemma filter_notnull_nil (vs : list value) :
  filter notnull vs = [] <-> existsb notnull vs = false.
Proof.
  induction vs as [|v vs IH]; simpl; [tauto|].
  destruct (notnull v); simpl; [split; discriminate|exact IH].
Qed.

Lemma nunique_zero (c : Series) :
  (nunique c =? 0)%nat = negb (existsb notnull (values c)).
Proof.
  unfold nunique.
  destruct (existsb notnull (values c)) eqn:E; simpl.
  - apply Nat.eqb_neq. intros H. apply length_zero_iff_nil, unique_nil in H.
    apply filter_notnull_nil in H. congruence.
  - apply filter_notnull_nil in E. now rewrite E.
Qed.

Lemma sort_by_nil {A : Type} (le : A -> A -> bool) (l : list A) :
  sort_by le l = [] -> l = [].
Proof.
  intros H. pose proof (sort_by_perm le l) as P. rewrite H in P.
  destruct l; [reflexivity|].
  first [apply Permutation_nil in P | apply Permutation_sym, Permutation_nil in P];
    exact P.
Qed.

Lemma group_keys_nil (keys : list value) :
  group_keys keys = [] <-> existsb notnull keys = false.
Proof.
  unfold group_keys. split.
  - intros H. apply sort_by_nil, unique_nil in H. now apply filter_notnull_nil.
  - intros H. apply filter_notnull_nil in H. now rewrite H.
Qed.

Lemma filter_sizes (l : list (value * list value)) :
  filter (fun kv : value * npfloat => negb (fisnan (snd kv)))
         (map (fun g => (fst g, of_nat (length (snd g)))) l)
  = map (fun g => (fst g, of_nat (length (snd g)))) l.
Proof.
  induction l as [|g l IH]; simpl; [reflexivity|now rewrite IH].
Qed.

(** The most frequent key exists exactly when some key is not null. *)
Lemma idxmax_groupby_size (keys : list value) :
  if existsb notnull keys
  then exists k, idxmax (groupby_size keys) = Ok k
  else idxmax (groupby_size keys) = Raise ValueError.
Proof.
  unfold idxmax, idx_best, groupby_size, groupby.
  rewrite filter_sizes.
  destruct (existsb notnull keys) eqn:E.
  - destruct (group_keys keys) as [|k ks] eqn:G.
    + apply group_keys_nil in G. congruence.
    + simpl. now eexists.
  - apply group_keys_nil in E. now rewrite E.
Qed.

Lemma sort_values_desc_nil (s : KeyedSeries) :
  sort_values_desc s = [] -> s = [].
Proof.
  unfold sort_values_desc. intros H. apply app_eq_nil in H as [H1 H2].
  apply sort_by_nil in H1. destruct s as [|kv s]; [reflexivity|].
  simpl in H1, H2. destruct (fisnan (snd kv)); simpl in *; discriminate.
Qed.

(** The market with the largest revenue exists as soon as some country is
    known. *)
Lemma index0_country_revenue (keys vals : list value) :
  existsb notnull keys = true ->
  exists k, index0 (sort_values_desc (groupby_sum keys vals)) = Ok k.
Proof.
  intros E. unfold index0.
  destruct (sort_values_desc (groupby_sum keys vals)) as [|kv s] eqn:S;
    [|now eexists].
  apply sort_values_desc_nil in S. unfold groupby_sum, groupby in S.
  apply map_eq_nil, map_eq_nil, group_keys_nil in S. congruence.
Qed.

Lemma customer_insights_outcome (data : DataFrame) :
  if customers_known data
  then exists found, customer_insights data = Ok found
       /\ length found
          = (2 * flag (has_column data "customer_name"
                       || has_column data "customer_id"))%nat
  else customer_insights data = Raise ZeroDivisionError.
Proof.
  unfold customers_known, customer_label, customer_insights, some_value, loc.
  destruct (has_column data "customer_name") eqn:Hn; simpl.
  - destruct (has_column_loc _ _ Hn) as [c ->]. simpl.
    rewrite nunique_zero.
    destruct (existsb notnull (values c)); simpl; [|reflexivity].
    now eexists.
  - destruct (has_column data "customer_id") eqn:Hi; simpl.
    + destruct (has_column_loc _ _ Hi) as [c ->]. simpl.
      rewrite nunique_zero.
      destruct (existsb notnull (values c)); simpl; [|reflexivity].
      now eexists.
    + now eexists.
Qed.

Lemma geographic_insights_outcome (data : DataFrame) :
  if countries_known data
  then if revenue_for_countries data
       then exists found, geographic_insights data = Ok found
            /\ length found
               = (2 * flag (has_column data "customer_country"))%nat
       else geographic_insights data = Raise IndexError
  else geographic_insights data = Raise ValueError.
Proof.
  unfold countries_known, revenue_for_countries, geographic_insights,
    some_value, loc.
  destruct (has_column data "customer_country") eqn:Hc; simpl;
    [|now eexists].
  destruct (has_column_loc _ _ Hc) as [c ->]. simpl.
  pose proof (idxmax_groupby_size (values c)) as Hk.
  destruct (existsb notnull (values c)) eqn:E.
  - destruct Hk as [k ->]. simpl.
    destruct (revenue_cols data) as [|r rs]; simpl; [reflexivity|].
    destruct (index0_country_revenue (values c) (values r) E) as [top ->].
    simpl. now eexists.
  - now rewrite Hk.
Qed.

Lemma product_insights_outcome (data : DataFrame) :
  if products_known data
  then exists found, product_insights data = Ok found
       /\ length found = flag (has_column data "product_name")
  else product_insights data = Raise ValueError.
Proof.
  unfold products_known, product_insights, some_value, loc.
  destruct (has_column data "product_name") eqn:Hp; simpl; [|now eexists].
  destruct (has_column_loc _ _ Hp) as [c ->]. simpl.
  pose proof (idxmax_groupby_size (values c)) as Hk.
  destruct (existsb notnull (values c)).
  - destruct Hk as [k ->]. simpl. now eexists.
  - now rewrite Hk.
Qed.

Lemma revenue_insights_length (data : DataFrame) :
  length (revenue_insights data)
  = (3 * flag (0 <? length (revenue_cols data))%nat)%nat.
Proof.
  unfold revenue_insights. now destruct (revenue_cols data).
Qed.

(** The outcome of step 5 in one statement. *)
Lemma business_insights_outcome (data : DataFrame) :
  if customers_known data && countries_known data
     && revenue_for_countries data && products_known data
  then exists found, business_insights data = Ok found
       /\ length found = insight_count data
  else business_insights data = Raise (insight_exception data).
Proof.
  pose proof (customer_insights_outcome data) as Hc.
  pose proof (geographic_insights_outcome data) as Hg.
  pose proof (product_insights_outcome data) as Hp.
  pose proof (revenue_insights_length data) as Hr.
  unfold business_insights, insight_count, insight_exception.
  destruct (customers_known data); simpl;
    [destruct Hc as (cs & -> & Lc)|now rewrite Hc]; simpl.
  destruct (countries_known data); simpl; [|now rewrite Hg].
  destruct (revenue_for_countries data); simpl;
    [destruct Hg as (gs & -> & Lg)|now rewrite Hg]; simpl.
  destruct (products_known data); simpl;
    [destruct Hp as (ps & -> & Lp)|now rewrite Hp]; simpl.
  eexists. split; [reflexivity|]. rewrite !length_app. lia.
Qed.

(** X1. Step 5 (lines 348-398) returns exactly when every business column
    it finds has something to count: the customer column a non-null
    cell, the country column a non-null cell and a revenue column beside
    it, the product column a non-null cell.  It then returns three
    insights for a revenue column, two for a customer column, two for a
    country column and one for a product column. *)
Theorem business_insights_returns_iff (data : DataFrame) :
  ((exists found, business_insights data = Ok found)
   <-> customers_known data && countries_known data
       && revenue_for_countries data && products_known data = true)
  /\ (forall found, business_insights data = Ok found ->
      length found = insight_count data).
Proof.
  pose proof (business_insights_outcome data) as H.
  destruct (customers_known data && countries_known data
            && revenue_for_countries data && products_known data).
  - destruct H as (found & Hf & Hl). split.
    + split; [reflexivity|intros _; exists found; exact Hf].
    + intros found' Hf'. congruence.
  - split.
    + split; [intros [found Hf]; congruence|discriminate].
    + intros found Hf. congruence.
Qed.

(** X2. Step 5 raises only three exceptions, and the first failing
    block names it: ZeroDivisionError for a customer column without a
    value, ValueError for a country or product column without a value,
    IndexError for a country column without a revenue column. *)
Theorem business_insights_exception (data : DataFrame) (e : exn) :
  business_insights data = Raise e -> e = insight_exception data.
Proof.
  pose proof (business_insights_outcome data) as H.
  destruct (customers_known data && countries_known data
            && revenue_for_countries data && products_known data).
  - destruct H as (found & Hf & _). congruence.
  - congruence.
Qed.

(** A customer column without a single value stops step 5 with
    ZeroDivisionError. *)
Lemma business_insights_exception_witness :
  ZeroDivisionError
  = insight_exception [mkSeries "customer_id" Float64 [VNull; VNull]].
Proof.
  apply business_insights_exception. reflexivity.
Defined.


(* ================================================================= *)
(** * Step 2: the range of the scores *)

Lemma percent_range (a t : Z) :
  0 < t -> 0 <= a <= t ->
  (0 <= inject_Z a / inject_Z t * inject_Z 100 <= 100)%Q.
Proof.
  intros Ht [Ha1 Ha2]. pose proof (inject_Z_pos _ Ht) as HtQ. split.
  - pose proof (percent_monotone 0 a t Ht Ha1) as H.
    assert (inject_Z 0 / inject_Z t * inject_Z 100 == 0)%Q as E
      by (change (inject_Z 0) with 0%Q; field; lra).
    now rewrite E in H.
  - pose proof (percent_monotone a t t Ht Ha2) as H.
    assert (inject_Z t / inject_Z t * inject_Z 100 == 100)%Q as E
      by (change (inject_Z 100) with 100%Q; field; lra).
    now rewrite E in H.
Qed.

Lemma percent_positive (a t : Z) :
  0 < t -> 0 < a -> (0 < inject_Z a / inject_Z t * inject_Z 100)%Q.
Proof.
  intros Ht Ha.
  pose proof (inject_Z_pos _ Ht) as HtQ. pose proof (inject_Z_pos _ Ha) as HaQ.
  apply Qmult_lt_0_compat; [|reflexivity].
  apply Qlt_shift_div_l; [assumption|]. lra.
Qed.

(** The first row is never a duplicate. *)
Lemma duplicate_rows_lt_len (data : DataFrame) :
  (1 <= len data)%nat -> (duplicate_rows data < len data)%nat.
Proof.
  intros H. unfold duplicate_rows, duplicated, rows.
  destruct (len data) as [|n]; [lia|]. simpl.
  unfold count_true. simpl. fold (count_true
    (duplicated_from [row_at data 0] (map (row_at data) (seq 1 n)))).
  pose proof (count_true_le_length
    (duplicated_from [row_at data 0] (map (row_at data) (seq 1 n)))) as L.
  rewrite length_duplicated_from, length_map, length_seq in L. lia.
Qed.

Lemma consistency_score_finite (data : DataFrame) :
  (1 <= len data)%nat ->
  consistency_score data
  = Fin (inject_Z (Z.of_nat (len data) - Z.of_nat (duplicate_rows data))
         / inject_Z (Z.of_nat (len data)) * inject_Z 100).
Proof.
  intros H. unfold consistency_score, of_nat. apply percent_finite. lia.
Qed.

Lemma validity_score_bounds (data : DataFrame) :
  0 <= validity_score data <= 100.
Proof.
  unfold validity_score. lia.
Qed.

(** X3. Step 2 (lines 148-215) on a frame with at least one row: the
    completeness score lies in [0, 100], the consistency score in
    (0, 100] (the first row is never a duplicate), the validity score
    in [0, 100], and the overall score is their plain average, hence
    positive and at most 100. *)
Theorem quality_scores_in_range (data : DataFrame) :
  wf data -> (1 <= len data)%nat ->
  exists c k o : Q,
    completeness_score data = Fin c
    /\ consistency_score data = Fin k
    /\ overall_score (quality_of data) = Fin o
    /\ (0 <= c <= 100)%Q
    /\ (0 < k <= 100)%Q
    /\ 0 <= validity_score data <= 100
    /\ (o == (c + k + inject_Z (validity_score data)) / 3)%Q
    /\ (0 < o <= 100)%Q.
Proof.
  intros Hwf Hrows.
  assert (1 <= length data)%nat as Hcols
    by (destruct data; simpl in *; lia).
  pose proof (total_cells_pos data Hrows Hcols) as Ht.
  pose proof (null_cells_le_total data Hwf) as Hn.
  pose proof (duplicate_rows_lt_len data Hrows) as Hd.
  pose proof (validity_score_bounds data) as Hv.
  pose proof (percent_range (total_cells data - null_cells data)
                (total_cells data) Ht ltac:(lia)) as Hc.
  pose proof (percent_range (Z.of_nat (len data) - Z.of_nat (duplicate_rows data))
                (Z.of_nat (len data)) ltac:(lia) ltac:(lia)) as Hk.
  pose proof (percent_positive (Z.of_nat (len data) - Z.of_nat (duplicate_rows data))
                (Z.of_nat (len data)) ltac:(lia) ltac:(lia)) as Hk0.
  eexists _, _, _.
  split; [apply (completeness_score_finite data Ht)|].
  split; [apply (consistency_score_finite data Hrows)|].
  unfold quality_of. cbn [overall_score].
  rewrite (completeness_score_finite data Ht),
    (consistency_score_finite data Hrows).
  cbn [fadd of_Z fdiv]. change (Qeq_bool (inject_Z 3) 0) with false. cbv iota.
  split; [reflexivity|].
  assert (0 <= inject_Z (validity_score data) <= 100)%Q as HvQ.
  { split; [change 0%Q with (inject_Z 0)|change 100%Q with (inject_Z 100)];
      rewrite <- Zle_Qle; lia. }
  set (c := (inject_Z (total_cells data - null_cells data)
             / inject_Z (total_cells data) * inject_Z 100)%Q) in *.
  set (k := (inject_Z (Z.of_nat (len data) - Z.of_nat (duplicate_rows data))
             / inject_Z (Z.of_nat (len data)) * inject_Z 100)%Q) in *.
  set (v := inject_Z (validity_score data)) in *.
  change (inject_Z 3) with 3%Q.
  split; [exact Hc|]. split; [split; [exact Hk0|apply Hk]|].
  split; [exact Hv|]. split; [reflexivity|].
  assert ((c + k + v) / 3 == (c + k + v) * (1 # 3))%Q as E by (field).
  rewrite E. split; lra.
Qed.

Lemma quality_scores_in_range_witness :
  exists c k o : Q,
    completeness_score table_85 = Fin c
    /\ consistency_score table_85 = Fin k
    /\ overall_score (quality_of table_85) = Fin o
    /\ (0 <= c <= 100)%Q
    /\ (0 < k <= 100)%Q
    /\ 0 <= validity_score table_85 <= 100
    /\ (o == (c + k + inject_Z (validity_score table_85)) / 3)%Q
    /\ (0 < o <= 100)%Q.
Proof.
  apply quality_scores_in_range; [exact wf_table_85|simpl; lia].
Defined.

(** X4. A frame that has columns and no row (lines 165-205): the
    divisions by the zero cell and row counts give NaN, so the
    completeness, consistency and overall scores are NaN; NaN is neither
    above 95 nor above 85, so the step reports the issue "Data has
    significant missing values" and no strength, although no cell is
    missing. *)
Theorem quality_of_frame_without_rows (data : DataFrame) :
  wf data -> (1 <= length data)%nat -> len data = 0%nat ->
  completeness_score data = NaN
  /\ consistency_score data = NaN
  /\ overall_score (quality_of data) = NaN
  /\ issues (quality_of data) = [missing_values_issue]
  /\ strengths (quality_of data) = [].
Proof.
  intros [Hlen _] Hcols Hrows.
  assert (isnull_sum_sum data = 0%nat) as Hnull.
  { unfold isnull_sum_sum. rewrite Hrows in Hlen. clear Hrows Hcols.
    induction Hlen as [|c data Hc _ IH]; [reflexivity|]. simpl.
    unfold null_count at 1. apply length_zero_iff_nil in Hc. now rewrite Hc. }
  assert (duplicate_rows data = 0%nat) as Hdup.
  { pose proof (duplicate_rows_le_len data). lia. }
  assert (completeness_score data = NaN) as Hc.
  { unfold completeness_score, total_cells, null_cells.
    now rewrite Hrows, Hnull. }
  assert (consistency_score data = NaN) as Hk.
  { unfold consistency_score. now rewrite Hrows, Hdup. }
  unfold quality_of. cbn [overall_score issues strengths].
  rewrite Hc, Hk, Hdup. repeat split; reflexivity.
Qed.

Lemma quality_of_frame_without_rows_witness :
  completeness_score [mkSeries "amount" Float64 []] = NaN
  /\ consistency_score [mkSeries "amount" Float64 []] = NaN
  /\ overall_score (quality_of [mkSeries "amount" Float64 []]) = NaN
  /\ issues (quality_of [mkSeries "amount" Float64 []]) = [missing_values_issue]
  /\ strengths (quality_of [mkSeries "amount" Float64 []]) = [].
Proof.
  apply quality_of_frame_without_rows.
  - split; [repeat constructor|]. repeat constructor. intros [].
  - simpl; lia.
  - reflexivity.
Defined.

(* ================================================================= *)
(** * Step 2: validity and duplicates *)

Lemma column_validity_issues_nil (col : Series) :
  column_validity_issues col = []
  <-> has_infinite col = false
      /\ has_negative col && contains "amount" (lower (name col)) = false.
Proof.
  unfold column_validity_issues.
  destruct (has_infinite col), (has_negative col && _); simpl;
    split; try discriminate; try tauto; intros [? ?]; discriminate.
Qed.

Lemma column_validity_issues_length (col : Series) :
  (length (column_validity_issues col) <= 2)%nat.
Proof.
  unfold column_validity_issues.
  destruct (has_infinite col), (has_negative col && _); simpl; lia.
Qed.

Lemma flat_map_nil {A B : Type} (f : A -> list B) (l : list A) :
  flat_map f l = [] <-> Forall (fun x => f x = []) l.
Proof.
  induction l as [|x l IH]; simpl.
  - split; [constructor|reflexivity].
  - split.
    + intros H. apply app_eq_nil in H as [H1 H2].
      constructor; [assumption|now apply IH].
    + intros H. inversion H as [|? ? H1 H2]; subst.
      rewrite H1. now apply IH.
Qed.

Lemma flat_map_length_le {A B : Type} (f : A -> list B) (l : list A) (n : nat) :
  (forall x, length (f x) <= n)%nat ->
  (length (flat_map f l) <= n * length l)%nat.
Proof.
  intros H. induction l as [|x l IH]; simpl; [lia|].
  rewrite length_app. specialize (H x). nia.
Qed.

(** X5. The validity score of step 2 (lines 189-201) is
    [max(0, 100 - 10 * issues)]: it lies in [0, 100], it is 100 exactly
    when no validity issue is reported, and no issue is reported exactly
    when no numeric column holds an infinity and no numeric column whose
    label contains 'amount' holds a negative value.  At most two issues
    are reported per numeric column. *)
Theorem validity_score_100_iff (data : DataFrame) :
  0 <= validity_score data <= 100
  /\ (validity_score data = 100 <-> validity_issues data = [])
  /\ (validity_issues data = []
      <-> forall col, In col data ->
            is_number_dtype (col_dtype col) = true ->
            has_infinite col = false
            /\ has_negative col && contains "amount" (lower (name col))
               = false)
  /\ (length (validity_issues data)
      <= 2 * length (select_dtypes_number data))%nat.
Proof.
  split; [apply validity_score_bounds|]. split; [|split].
  - unfold validity_score. split.
    + intros H. apply length_zero_iff_nil. lia.
    + intros ->. reflexivity.
  - unfold validity_issues. rewrite flat_map_nil, Forall_forall. split.
    + intros H col Hin Hnum. apply column_validity_issues_nil, H.
      unfold select_dtypes_number. apply filter_In. auto.
    + intros H col Hin. unfold select_dtypes_number in Hin.
      apply filter_In in Hin as [Hin Hnum].
      apply column_validity_issues_nil. auto.
  - apply flat_map_length_le, column_validity_issues_length.
Qed.

Lemma duplicated_from_some (rs seen : list (list value)) :
  count_true (duplicated_from seen rs) <> 0%nat ->
  exists j r, nth_error rs j = Some r
    /\ (existsb (row_eqb r) seen = true
        \/ exists i r', (i < j)%nat /\ nth_error rs i = Some r'
                        /\ row_eqb r r' = true).
Proof.
  revert seen. induction rs as [|r0 rs IH]; intros seen; simpl.
  - intros H. now contradiction H.
  - rewrite count_true_cons.
    destruct (existsb (row_eqb r0) seen) eqn:E.
    + intros _. exists 0%nat, r0. split; [reflexivity|now left].
    + intros H. destruct (IH (r0 :: seen)) as (j & r & Hj & Hr); [lia|].
      exists (S j), r. split; [exact Hj|].
      simpl in Hr. destruct Hr as [Hr|(i & r' & Hi & Hn & Hr)].
      * apply orb_true_iff in Hr as [Hr|Hr]; [|now left].
        right. exists 0%nat, r0. repeat split; [lia|exact Hr].
      * right. exists (S i), r'. repeat split; [lia|exact Hn|exact Hr].
Qed.

Lemma duplicate_rows_pos (data : DataFrame) :
  duplicate_rows data <> 0%nat -> has_duplicate_rows data.
Proof.
  intros H. apply duplicated_from_some in H as (j & r & Hj & [Hr|Hr]);
    [discriminate|].
  destruct Hr as (i & r' & Hij & Hi & Hr).
  rewrite nth_error_rows in Hj, Hi.
  destruct (Nat.ltb_spec j (len data)); [|discriminate].
  destruct (Nat.ltb_spec i (len data)); [|discriminate].
  injection Hj as <-. injection Hi as <-.
  exists i, j. split; [lia|]. now rewrite row_eqb_sym.
Qed.

Lemma duplicate_message_not_missing (n : nat) :
  ("Found " ++ str_of_nat n ++ " duplicate rows")%string <> missing_values_issue.
Proof.
  discriminate.
Qed.

(** X6. Step 2 (lines 177-187, 207-208) reports the issue
    "Found n duplicate rows" exactly when two rows of the frame agree in
    every column, with [n] the number of rows that repeat an earlier
    one; [unique_rows] is the row count minus that number, and is at
    least one as soon as the frame has a row. *)
Theorem duplicate_rows_issue_iff (data : DataFrame) :
  ((exists n, In ("Found " ++ str_of_nat n ++ " duplicate rows")%string
                 (issues (quality_of data)))
   <-> has_duplicate_rows data)
  /\ (has_duplicate_rows data ->
      In ("Found " ++ str_of_nat (duplicate_rows data) ++ " duplicate rows")%string
         (issues (quality_of data)))
  /\ unique_rows (consistency (quality_of data))
     = Z.of_nat (len data) - Z.of_nat (duplicate_rows data)
  /\ ((1 <= len data)%nat -> 1 <= unique_rows (consistency (quality_of data))).
Proof.
  assert (has_duplicate_rows data ->
          In ("Found " ++ str_of_nat (duplicate_rows data) ++ " duplicate rows")%string
             (issues (quality_of data))) as Hfound.
  { intros Hdup. unfold quality_of. cbn [issues]. apply in_or_app. right.
    unfold duplicate_issues.
    destruct (duplicate_rows data) as [|n] eqn:E.
    - apply duplicate_rows_zero in E. contradiction.
    - now left. }
  split; [split|split; [exact Hfound|split]].
  - intros [n Hin]. unfold quality_of in Hin. cbn [issues] in Hin.
    apply in_app_or in Hin as [Hin|Hin].
    + exfalso. unfold completeness_remarks in Hin.
      destruct (fgtb (completeness_score data) (of_Z 95)); [destruct Hin|].
      destruct (fgtb (completeness_score data) (of_Z 85)); [destruct Hin|].
      destruct Hin as [Hin|[]]. symmetry in Hin.
      now apply duplicate_message_not_missing in Hin.
    + unfold duplicate_issues in Hin.
      destruct (duplicate_rows data) as [|m] eqn:E; [destruct Hin|].
      apply duplicate_rows_pos. lia.
  - intros H. eexists. exact (Hfound H).
  - reflexivity.
  - intros H. cbn. pose proof (duplicate_rows_lt_len data H). lia.
Qed.

(* ================================================================= *)
(** * Step 1: the column overview *)

Lemma count_plus_null_count (col : Series) :
  (count col + null_count col)%nat = length (values col).
Proof.
  unfold count, null_count, notnull.
  induction (values col) as [|v vs IH]; simpl; [reflexivity|].
  destruct (isnull v); simpl; lia.
Qed.

Lemma length_unique_from (seen vs : list value) :
  (length (unique_from seen vs) <= length vs)%nat.
Proof.
  revert seen. induction vs as [|v vs IH]; intros seen; simpl; [lia|].
  destruct (existsb (value_eqb v) seen); simpl.
  - specialize (IH seen). lia.
  - specialize (IH (v :: seen)). lia.
Qed.

Lemma nunique_le_count (col : Series) : (nunique col <= count col)%nat.
Proof.
  apply length_unique_from.
Qed.

(** X7. Step 1 (lines 108-146) describes every column once, in column
    order.  For each column the non-null count and the null count add
    up to the number of rows, the null percentage lies in [0, 100] when
    the frame has a row, the number of distinct values never exceeds the
    non-null count, the placeholder '50+' appears only for an object
    column with at least fifty non-null cells, and the five numeric
    summaries are present exactly for int64 and float64 columns. *)
Theorem overview_describes_every_column (data : DataFrame) :
  wf data ->
  exists d,
    body (_step_1_data_overview data) = Overview d
    /\ total_rows d = len data
    /\ total_columns d = length data
    /\ map ci_name (column_info d) = columns data
    /\ map ci_type (column_info d) = map col_dtype data
    /\ Forall
         (fun ci =>
            (ci_non_null_count ci + ci_null_count ci)%nat = len data
            /\ ((1 <= len data)%nat ->
                exists p, ci_null_percentage ci = Fin p /\ (0 <= p <= 100)%Q)
            /\ match ci_unique_values ci with
               | UniqueCount n => (n <= ci_non_null_count ci)%nat
               | FiftyPlus =>
                   ci_type ci = Object /\ (50 <= ci_non_null_count ci)%nat
               end
            /\ (ci_numeric ci <> None <-> is_number_dtype (ci_type ci) = true))
         (column_info d).
Proof.
  intros [Hlen _]. eexists. split; [reflexivity|]. cbn [total_rows
    total_columns column_info].
  split; [reflexivity|]. split; [reflexivity|].
  split; [now rewrite map_map|]. split; [now rewrite map_map|].
  apply Forall_map. rewrite Forall_forall in Hlen |- *.
  intros col Hin. specialize (Hlen col Hin).
  unfold column_overview. cbn [ci_non_null_count ci_null_count
    ci_null_percentage ci_unique_values ci_type ci_numeric].
  pose proof (count_plus_null_count col) as Hsum.
  pose proof (nunique_le_count col) as Huniq.
  split; [lia|]. split; [|split].
  - intros Hrows. unfold of_nat. rewrite percent_finite by lia.
    eexists. split; [reflexivity|]. apply percent_range; lia.
  - destruct (dtype_eqb (col_dtype col) Object) eqn:Ed; simpl.
    + destruct (Nat.ltb_spec (nunique col) 50); [exact Huniq|].
      split; [|lia]. now destruct (col_dtype col).
    + exact Huniq.
  - destruct (col_dtype col); simpl; split; congruence.
Qed.

Lemma overview_describes_every_column_witness :
  exists d,
    body (_step_1_data_overview table_85) = Overview d
    /\ total_rows d = len table_85
    /\ total_columns d = length table_85
    /\ map ci_name (column_info d) = columns table_85
    /\ map ci_type (column_info d) = map col_dtype table_85
    /\ Forall
         (fun ci =>
            (ci_non_null_count ci + ci_null_count ci)%nat = len table_85
            /\ ((1 <= len table_85)%nat ->
                exists p, ci_null_percentage ci = Fin p /\ (0 <= p <= 100)%Q)
            /\ match ci_unique_values ci with
               | UniqueCount n => (n <= ci_non_null_count ci)%nat
               | FiftyPlus =>
                   ci_type ci = Object /\ (50 <= ci_non_null_count ci)%nat
               end
            /\ (ci_numeric ci <> None <-> is_number_dtype (ci_type ci) = true))
         (column_info d).
Proof.
  apply overview_describes_every_column. exact wf_table_85.
Defined.

(* ================================================================= *)
(** * Step 6: which recommendations, and how many *)

Section RecommendationList.

Variable to_datetime : Series -> result (list (option Timestamp)).

(** X8. Step 6 (lines 400-459) emits "Market Expansion" exactly when
    the frame has a column labelled 'customer_country', and
    "Performance Monitoring" exactly when it has a numeric column and a
    column whose first five cells parse as dates.  No category is
    emitted twice, and the list has between one and four entries. *)
Theorem recommendations_categories (data : DataFrame) :
  (recommends (recommendations_of to_datetime data) "Market Expansion" "Medium"
   <-> has_column data "customer_country" = true)
  /\ (recommends (recommendations_of to_datetime data)
                 "Performance Monitoring" "Medium"
      <-> select_dtypes_number data <> [] /\ date_cols to_datetime data <> [])
  /\ NoDup (map category (recommendations_of to_datetime data))
  /\ (1 <= length (recommendations_of to_datetime data) <= 4)%nat.
Proof.
  unfold recommendations_of.
  destruct (fgtb (null_percentage data) (of_Z 10));
    destruct (select_dtypes_number data) as [|n ns];
    destruct (date_cols to_datetime data) as [|d ds];
    destruct (has_column data "customer_country"); simpl;
    (split; [|split; [|split]]);
    try lia;
    try (repeat constructor; simpl; intuition discriminate);
    (split;
     [ intros (r & Hin & Hc & Hp); simpl in Hin;
       repeat (destruct Hin as [<-|Hin]); try contradiction;
       try discriminate Hc; try reflexivity; split; discriminate
     | intros H; try discriminate H;
       try (exfalso; intuition congruence);
       first [ exists market_expansion; simpl; now intuition
             | exists performance_monitoring; simpl; now intuition ] ]).
Qed.

End RecommendationList.

(* ================================================================= *)
(** * Step 4: when it raises, and the growth trend *)

Section PatternStep.

Variable to_datetime : Series -> result (list (option Timestamp)).

Variable data : DataFrame.
Variables date_col value_col : Series.
Variables ds vs : list Series.

Hypothesis first_date : date_cols to_datetime data = date_col :: ds.
Hypothesis first_number : select_dtypes_number data = value_col :: vs.
Hypothesis unique_labels : NoDup (columns data).
Hypothesis value_not_date : name value_col <> name date_col.
Hypothesis value_not_month : name value_col <> "month".

Lemma value_in_frame :
  In value_col data /\ is_number_dtype (col_dtype value_col) = true.
Proof.
  assert (In value_col (select_dtypes_number data)) as Hin
    by (rewrite first_number; now left).
  now apply filter_In in Hin.
Qed.

(** The seasonality block returns whatever the label of the value
    column: when the value column is 'month_num' itself, the block
    averages the month numbers it has just written. *)
Lemma seasonality_returns (parsed : list (option Timestamp)) :
  exists seasonal,
    seasonality
      (setcol (dated data date_col parsed)
              (mkSeries "month" Period
                        (map to_period_M (dates_in_order parsed))))
      (name date_col) (name value_col)
    = Ok seasonal.
Proof.
  destruct value_in_frame as [Hin Hnum].
  unfold seasonality.
  assert (exists means,
             seasonal_means
               (setcol (dated data date_col parsed)
                       (mkSeries "month" Period
                                 (map to_period_M (dates_in_order parsed))))
               (name date_col) (name value_col)
             = Ok means) as [means ->].
  { destruct (String.eqb (name value_col) "month_num") eqn:E.
    - apply String.eqb_eq in E. unfold seasonal_means.
      destruct (temp_month_numbers data date_col parsed) as (dates & -> & _).
      cbn [bind]. rewrite E.
      set (temp := setcol _ (mkSeries "month_num" Int64 _)).
      assert (loc temp "month_num"
              = Ok (mkSeries "month_num" Int64 (map dt_month (values dates))))
        as -> by (apply loc_getcol;
                  apply (getcol_setcol_same _ (mkSeries "month_num" Int64 _))).
      cbn. now eexists.
    - apply String.eqb_neq in E. eexists.
      apply (seasonal_means_temp data date_col value_col parsed);
        assumption. }
  cbn [bind].
  destruct (seasonal_record_cases (name value_col) means)
    as [(_ & peak & low & _ & _ & ->)|(_ & ->)]; now eexists.
Qed.

Lemma temporal_analysis_returns (parsed : list (option Timestamp)) :
  to_datetime date_col = Ok parsed ->
  exists seasonal,
    temporal_analysis to_datetime data date_col value_col
    = Ok (mkPatterns [] seasonal
            (growth_trend_of (name value_col)
                             (monthly_buckets parsed value_col))
            []).
Proof.
  intros Hparsed. destruct value_in_frame as [Hin Hnum].
  unfold temporal_analysis. rewrite Hparsed. cbn [bind].
  rewrite (with_month_dated data date_col parsed). cbn [bind].
  rewrite (monthly_aggregation_temp data date_col value_col parsed
             unique_labels Hin Hnum value_not_date value_not_month).
  cbn [bind].
  destruct (12 <=? length (monthly_buckets parsed value_col))%nat.
  - destruct (seasonality_returns parsed) as [seasonal ->]. cbn [bind].
    now eexists.
  - cbn [bind]. now eexists.
Qed.

(** X9. Step 4 (lines 277-346) with a date column and a numeric
    column that is another column and is not labelled 'month': the
    step raises exactly the exception [pd.to_datetime] raises on the
    whole date column (line 307), of which only the first five cells
    were tried, and it returns when that conversion succeeds.  The
    pipeline then raises the same exception. *)
Theorem pattern_step_raises_iff (prompt : string) (e : exn) :
  (patterns_of to_datetime data = Raise e <-> to_datetime date_col = Raise e)
  /\ (_step_4_pattern_detection to_datetime data prompt = Raise e
      <-> to_datetime date_col = Raise e)
  /\ (to_datetime date_col = Raise e ->
      analyze_data_step_by_step to_datetime data prompt = Raise e)
  /\ ((exists parsed, to_datetime date_col = Ok parsed)
      <-> exists details, patterns_of to_datetime data = Ok details).
Proof.
  assert (patterns_of to_datetime data
          = temporal_analysis to_datetime data date_col value_col) as Hp
    by (unfold patterns_of; now rewrite first_date, first_number).
  assert (patterns_of to_datetime data = Raise e
          <-> to_datetime date_col = Raise e) as Hiff.
  { rewrite Hp. destruct (to_datetime date_col) as [parsed|e'] eqn:Hd.
    - destruct (temporal_analysis_returns parsed Hd) as [s ->].
      split; discriminate.
    - unfold temporal_analysis. rewrite Hd. cbn [bind].
      split; intros H; injection H as ->; reflexivity. }
  split; [exact Hiff|]. split; [|split].
  - unfold _step_4_pattern_detection. rewrite <- Hiff.
    destruct (patterns_of to_datetime data); cbn [bind];
      split; congruence.
  - intros H. apply Hiff in H.
    unfold analyze_data_step_by_step, _step_4_pattern_detection.
    now rewrite H.
  - rewrite Hp. split.
    + intros [parsed Hd].
      destruct (temporal_analysis_returns parsed Hd) as [s ->]. now eexists.
    + intros [details Hdet]. destruct (to_datetime date_col) as [parsed|e'] eqn:Hd;
        [now eexists|].
      unfold temporal_analysis in Hdet. rewrite Hd in Hdet. discriminate.
Qed.


End PatternStep.

Lemma pattern_step_raises_iff_witness :
  patterns_of RefPandas.to_datetime late_failure_table = Raise ValueError.
Proof.
  apply (pattern_step_raises_iff RefPandas.to_datetime late_failure_table
           late_failure_dates late_failure_revenue
           [late_failure_revenue] []); try reflexivity; try discriminate.
  - repeat constructor; simpl; intuition discriminate.
  - exact "".
Defined.


(* ================================================================= *)
(** * The pipeline and the figures of its steps *)

Section ReportFigures.

Variable to_datetime : Series -> result (list (option Timestamp)).

(** Every growth trend the pattern step reports has the direction its
    average growth gives it. *)
Lemma growth_trend_of_direction (label : string) (monthly : KeyedSeries) :
  Forall (fun g => trend_direction g
                   = if fgtb (average_monthly_growth g) (Fin 0)
                     then "increasing" else "decreasing")
         (growth_trend_of label monthly).
Proof.
  unfold growth_trend_of.
  destruct (1 <? length monthly)%nat; repeat constructor.
Qed.

Lemma growth_trend_of_length (label : string) (monthly : KeyedSeries) :
  (length (growth_trend_of label monthly) <= 1)%nat.
Proof.
  unfold growth_trend_of. destruct (1 <? length monthly)%nat; simpl; lia.
Qed.

Lemma colours_follow_direction (trends : list growth_trend) :
  Forall (fun g => trend_direction g
                   = if fgtb (average_monthly_growth g) (Fin 0)
                     then "increasing" else "decreasing")
         trends ->
  map (fun rate => if fgtb rate (Fin 0) then "green" else "red")
      (map average_monthly_growth trends)
  = map direction_colour trends.
Proof.
  intros H. rewrite map_map. apply map_ext_Forall.
  revert H. apply Forall_impl. intros t Ht.
  unfold direction_colour. rewrite Ht.
  now destruct (fgtb (average_monthly_growth t) (Fin 0)).
Qed.

Lemma patterns_of_growth (data : DataFrame) (details : pattern_details) :
  patterns_of to_datetime data = Ok details ->
  growth_trends details = []
  \/ exists label monthly,
       growth_trends details = growth_trend_of label monthly.
Proof.
  unfold patterns_of.
  destruct (date_cols to_datetime data) as [|d ds];
    [intros H; injection H as <-; now left|].
  destruct (select_dtypes_number data) as [|v vs];
    [intros H; injection H as <-; now left|].
  unfold temporal_analysis.
  destruct (to_datetime d) as [parsed|]; cbn [bind]; [|discriminate].
  destruct (with_month _ _) as [temp|]; cbn [bind]; [|discriminate].
  destruct (monthly_aggregation _ _) as [monthly|]; cbn [bind];
    [|discriminate].
  destruct (if (12 <=? length monthly)%nat then _ else _) as [seasonal|];
    cbn [bind]; [|discriminate].
  intros H. injection H as <-. right. now eexists _, _.
Qed.

(** X12. The trend chart of step 4 (lines 533-556) on what the
    pattern step returns: there is a chart exactly when a growth trend
    was reported; it has one bar per trend, and a bar is green exactly
    when the trend was reported as 'increasing' and red when it was
    reported as 'decreasing'. *)
Theorem trend_chart_follows_direction (data : DataFrame) (prompt : string) :
  match _step_4_pattern_detection to_datetime data prompt with
  | Raise _ => True
  | Ok step =>
      exists details,
        body step = Patterns details
        /\ (length (growth_trends details) <= 1)%nat
        /\ create_step_visualization step
           = Ok (match growth_trends details with
                 | [] => None
                 | trends =>
                     Some (Bar (map growth_metric trends)
                               (map average_monthly_growth trends)
                               (map direction_colour trends))
                 end)
  end.
Proof.
  unfold _step_4_pattern_detection.
  destruct (patterns_of to_datetime data) as [details|e] eqn:Hp;
    cbn [bind]; [|exact I].
  exists details. split; [reflexivity|].
  unfold create_step_visualization, _create_trend_chart. cbn.
  destruct (patterns_of_growth data details Hp) as [->|(label & monthly & ->)].
  - split; [simpl; lia|reflexivity].
  - split; [apply growth_trend_of_length|].
    pose proof (colours_follow_direction _
                  (growth_trend_of_direction label monthly)) as Hcol.
    destruct (growth_trend_of label monthly) as [|g gs]; [reflexivity|].
    now rewrite Hcol.
Qed.





(** X11. The pipeline (lines 69-106) returns a report exactly when
    step 4 and step 5 return; otherwise it raises the exception of the
    first of the two that fails.  A report holds the six steps in
    order, all 'completed'; its insights are those of step 5, as many
    as the business columns call for; its recommendations are those of
    step 6 and its data quality the details of step 2. *)
Theorem analyze_report_or_first_exception (data : DataFrame) (prompt : string) :
  match patterns_of to_datetime data, business_insights data with
  | Ok details, Ok found =>
      exists r,
        analyze_data_step_by_step to_datetime data prompt = Ok r
        /\ map step_number (steps r) = [1; 2; 3; 4; 5; 6]
        /\ Forall (fun s => status s = "completed") (steps r)
        /\ map body (steps r)
           = [ body (_step_1_data_overview data); Quality (quality_of data);
               Statistics (stats_of data); Patterns details;
               BusinessIntelligence found;
               Recommendations (recommendations_of to_datetime data) ]
        /\ insights r = found
        /\ length (insights r) = insight_count data
        /\ recommendations r = recommendations_of to_datetime data
        /\ data_quality r = Some (quality_of data)
  | Ok _, Raise e =>
      analyze_data_step_by_step to_datetime data prompt = Raise e
      /\ e = insight_exception data
  | Raise e, _ =>
      analyze_data_step_by_step to_datetime data prompt = Raise e
  end.
Proof.
  unfold analyze_data_step_by_step, _step_4_pattern_detection,
    _step_5_business_intelligence.
  destruct (patterns_of to_datetime data) as [details|e]; cbn [bind];
    [|reflexivity].
  pose proof (business_insights_outcome data) as Hout.
  destruct (business_insights data) as [found|e] eqn:Hb; cbn [bind].
  - assert (length found = insight_count data) as Hlen.
    { destruct (customers_known data && countries_known data
                && revenue_for_countries data && products_known data);
        [|discriminate].
      destruct Hout as (found' & Hf & Hl). congruence. }
    eexists. split; [reflexivity|].
    cbn [steps insights recommendations data_quality map step_number status
         body _step_1_data_overview _step_2_data_quality
         _step_3_statistical_analysis _step_6_recommendations
         step_insights step_recommendations step_details].
    split; [reflexivity|]. split; [repeat constructor|].
    split; [reflexivity|]. split; [reflexivity|].
    split; [exact Hlen|split; reflexivity].
  - split; [reflexivity|].
    destruct (customers_known data && countries_known data
              && revenue_for_countries data && products_known data);
      [|congruence].
    destruct Hout as (found' & Hf & _). discriminate.
Qed.

(** X14. On the steps of a report the pipeline returns,
    [create_step_visualization] (lines 461-472) never raises: steps 1,
    5 and 6 have no figure, step 2 always has the gauge of the overall
    score, step 3 has a heatmap exactly when the frame has at least two
    numeric columns, and step 4 has a bar chart exactly when a growth
    trend was reported. *)
Theorem report_figures (data : DataFrame) (prompt : string) :
  match analyze_data_step_by_step to_datetime data prompt with
  | Raise _ => True
  | Ok r =>
      exists heat trend,
        map create_step_visualization (steps r)
        = [ Ok None;
            Ok (Some (Indicator (overall_score (quality_of data))));
            Ok heat; Ok trend; Ok None; Ok None ]
        /\ (heat <> None <-> (2 <= length (select_dtypes_number data))%nat)
        /\ (trend <> None
            <-> exists details,
                  patterns_of to_datetime data = Ok details
                  /\ growth_trends details <> [])
  end.
Proof.
  unfold analyze_data_step_by_step, _step_4_pattern_detection,
    _step_5_business_intelligence.
  destruct (patterns_of to_datetime data) as [details|e]; cbn [bind];
    [|exact I].
  destruct (business_insights data) as [found|e]; cbn [bind]; [|exact I].
  cbn [steps map].
  eexists _, _. split; [|split].
  - unfold create_step_visualization at 1 5 6. cbn.
    f_equal. f_equal. f_equal; [|f_equal].
    + unfold create_step_visualization, _create_correlation_heatmap. cbn.
      instantiate (1 := match correlations (stats_of data) with
                        | [] => None
                        | c :: cs =>
                            Some (Heatmap (map fst (c :: cs))
                                    (map (fun entry =>
                                            map (fun var2 =>
                                                   get_correlation var2 (snd entry))
                                                (map fst (c :: cs)))
                                         (c :: cs)))
                        end).
      now destruct (correlations (stats_of data)).
    + unfold create_step_visualization, _create_trend_chart. cbn.
      instantiate (1 := match growth_trends details with
                        | [] => None
                        | g :: gs =>
                            Some (Bar (map growth_metric (g :: gs))
                                      (map average_monthly_growth (g :: gs))
                                      (map (fun rate =>
                                              if fgtb rate (Fin 0)
                                              then "green" else "red")
                                           (map average_monthly_growth
                                                (g :: gs))))
                        end).
      now destruct (growth_trends details).
  - unfold stats_of.
    destruct (select_dtypes_number data) as [|a [|b rest]]; cbn.
    + split; [intros H; now contradiction H|lia].
    + split; [intros H; now contradiction H|lia].
    + split; [lia|discriminate].
  - destruct (growth_trends details) as [|g gs] eqn:Eg; split.
    + intros H. now contradiction H.
    + intros (details' & Hd & Hne). injection Hd as <-. congruence.
    + intros _. exists details. split; [reflexivity|]. congruence.
    + discriminate.
Qed.

End ReportFigures.

(* ================================================================= *)
(** * ChartGenerator: the charts *)

Section ChartFacts.

Variable to_datetime : Series -> result (list (option Timestamp)).
Variable to_datetime_scalar : string -> result Timestamp.
Variable to_numeric : Series -> result Series.
Variable to_numeric_coerce : Series -> Series.
Variable str : value -> string.

(** X15. What [prepare_time_series_data] returns can always be
    charted (lines 102-126, called at app.py lines 499-502): the frame
    has the two columns [create_time_series_chart] reads, so there is no
    KeyError; the chart has one trace, with one point per prepared row,
    at least one point, the dates from left to right in non-decreasing
    order and no missing value.  A prepared frame is never empty, so
    the caller's test [not chart_data.empty] always holds. *)
Theorem time_series_chart_of_prepared (data : DataFrame) (title : string) :
  match prepare_time_series_data to_datetime to_datetime_scalar to_numeric
                                 to_numeric_coerce str data with
  | None => True
  | Some chart_data =>
      empty chart_data = false
      /\ exists dates numbers,
           create_time_series_chart chart_data title
           = Ok (mkFigure [Scatter (map VDate dates) numbers "lines+markers"
                                   "Historical Data" "#1f77b4"]
                          title "Date" "Value")
           /\ length dates = len chart_data
           /\ length numbers = len chart_data
           /\ (1 <= len chart_data)%nat
           /\ StronglySorted Z.le dates
           /\ Forall (fun v => isnull v = false) numbers
  end.
Proof.
  destruct (prepare_time_series_data _ _ _ _ _ data) as [ts|] eqn:Hp;
    [|exact I].
  apply prepared_shape in Hp.
  destruct Hp as (Hcols & [Hlen _] & Hrows & Hnn & dates & numbers & dt & -> & Hs).
  split.
  - unfold empty. simpl in *. destruct (length (map VDate dates)); [lia|reflexivity].
  - exists dates, numbers. split; [reflexivity|].
    inversion Hlen as [|? ? _ Hl]; subst. inversion Hl as [|? ? Hn _]; subst.
    simpl in *. rewrite length_map in *.
    repeat split; try assumption; try lia.
    unfold cells in Hnn. simpl in Hnn. rewrite app_nil_r in Hnn.
    now apply Forall_app in Hnn.
Qed.


(** ** [create_chart_from_data] *)

Lemma length_series_traces (data : DataFrame) (cols : list Series) :
  length (series_traces data cols) = length cols.
Proof.
  unfold series_traces.
  rewrite length_map, length_combine, length_seq. lia.
Qed.

Lemma series_traces_colors (data : DataFrame) (cols : list Series) :
  (length cols <= 5)%nat ->
  NoDup (map trace_color (series_traces data cols)).
Proof.
  intros H.
  destruct cols as [|c1 [|c2 [|c3 [|c4 [|c5 [|c6 rest]]]]]];
    try (simpl in H; lia);
    unfold series_traces; cbn;
    repeat constructor; simpl; intuition discriminate.
Qed.

Lemma multi_series_chart_traces (data : DataFrame) (fig : Figure) :
  multi_series_chart to_numeric data = Some fig ->
  (2 <= length (fig_data fig) <= 5)%nat
  /\ length (fig_data fig) = Nat.min 5 (length (chart_numeric_cols to_numeric data))
  /\ NoDup (map trace_color (fig_data fig))
  /\ fig_title fig = "Multi-Series Analysis".
Proof.
  unfold multi_series_chart.
  destruct (Nat.leb_spec 2 (length (chart_numeric_cols to_numeric data)))
    as [H|H]; [|discriminate].
  assert (length (firstn 5 (chart_numeric_cols to_numeric data))
          = Nat.min 5 (length (chart_numeric_cols to_numeric data))) as Hl
    by apply length_firstn.
  set (cols := firstn 5 (chart_numeric_cols to_numeric data)) in *.
  clearbody cols.
  intros E. injection E as <-. unfold fig_data, fig_title.
  rewrite length_series_traces, Hl.
  repeat split; try lia.
  apply series_traces_colors. lia.
Qed.

Lemma category_value_chart_traces (data : DataFrame) (p : string)
      (fig : Figure) :
  category_value_chart to_numeric str data p = Some fig ->
  length (fig_data fig) = 1%nat
  /\ (fig_title fig = "Comparison Analysis" \/ fig_title fig = "Trend Analysis").
Proof.
  unfold category_value_chart.
  destruct data as [|c1 [|c2 [|c3 rest]]]; try discriminate.
  destruct (to_numeric c2) as [numbers|]; [|discriminate].
  destruct (_ || _ || _).
  - intros E. injection E as <-. split; [reflexivity|now left].
  - destruct (20 <? len [c1; c2])%nat; [|discriminate].
    intros E. injection E as <-. split; [reflexivity|now right].
Qed.

(** X17. [create_chart_from_data] (lines 179-271) returns no chart
    for an empty frame, and never a chart with more than five traces or
    with a colour used twice.  A frame with at least two columns
    [pd.to_numeric] accepts always gets a chart; a frame that has not
    exactly two columns gets one only then. *)
Theorem chart_from_data_traces (data : DataFrame) (prompt : string) :
  (empty data = true ->
   create_chart_from_data to_numeric str data prompt = None)
  /\ match create_chart_from_data to_numeric str data prompt with
     | None => True
     | Some fig =>
         (1 <= length (fig_data fig) <= 5)%nat
         /\ NoDup (map trace_color (fig_data fig))
         /\ In (fig_title fig)
               ["Comparison Analysis"; "Trend Analysis"; "Multi-Series Analysis"]
     end
  /\ (empty data = false ->
      (2 <= length (chart_numeric_cols to_numeric data))%nat ->
      create_chart_from_data to_numeric str data prompt <> None)
  /\ (length data <> 2%nat ->
      create_chart_from_data to_numeric str data prompt <> None ->
      (2 <= length (chart_numeric_cols to_numeric data))%nat).
Proof.
  unfold create_chart_from_data. split; [|split; [|split]].
  - now intros ->.
  - destruct (empty data); [exact I|].
    destruct (category_value_chart to_numeric str data (lower prompt))
      as [fig|] eqn:Hc.
    + apply category_value_chart_traces in Hc as [Hlen Ht].
      split; [lia|]. split.
      * destruct (fig_data fig) as [|t [|t' ts]]; try discriminate.
        repeat constructor. intros [].
      * destruct Ht as [-> | ->]; simpl; auto.
    + destruct (multi_series_chart to_numeric data) as [fig|] eqn:Hm;
        [|exact I].
      apply multi_series_chart_traces in Hm as (Hlen & _ & Hnd & Ht).
      split; [lia|]. split; [exact Hnd|]. rewrite Ht. simpl. auto.
  - intros -> Hnum.
    destruct (category_value_chart _ _ _ _); [discriminate|].
    unfold multi_series_chart.
    apply Nat.leb_le in Hnum. now rewrite Hnum.
  - intros Hcols. destruct (empty data); [intros H; now contradiction H|].
    assert (category_value_chart to_numeric str data (lower prompt) = None)
      as ->.
    { unfold category_value_chart.
      destruct data as [|c1 [|c2 [|c3 rest]]]; try reflexivity.
      now contradiction Hcols. }
    unfold multi_series_chart.
    destruct (Nat.leb_spec 2 (length (chart_numeric_cols to_numeric data)));
      [auto|intros Hn; now contradiction Hn].
Qed.

(** X18. A category/value frame, two columns of which the second is
    numeric (lines 188-236): with 'top' or 'rank' in the prompt, or
    with at most ten rows, the chart is the bar chart "Comparison
    Analysis"; otherwise, with more than twenty rows, it is the line
    chart "Trend Analysis".  With eleven to twenty rows and no such
    word the block returns nothing and the multi-series rule decides:
    when the category column is not numeric there is no chart at all. *)
Theorem chart_of_category_value_frame (col1 col2 numbers : Series)
        (prompt : string) :
  empty [col1; col2] = false ->
  to_numeric col2 = Ok numbers ->
  let data := [col1; col2] in
  create_chart_from_data to_numeric str data prompt
  = (if ranking_prompt prompt || (len data <=? 10)%nat then
       Some (mkFigure [BarTrace (astype_str str col1) (values numbers) "#1f77b4"]
                      "Comparison Analysis"
                      (axis_label (name col1)) (axis_label (name col2)))
     else if (20 <? len data)%nat then
       Some (mkFigure [Scatter (astype_str str col1) (values numbers)
                               "lines+markers" "" "#1f77b4"]
                      "Trend Analysis"
                      (axis_label (name col1)) (axis_label (name col2)))
     else if succeeds (to_numeric col1) then
       Some (mkFigure (series_traces data [col1; col2])
                      "Multi-Series Analysis" "Index" "Values")
     else None)
  /\ ((11 <= len data <= 20)%nat ->
      ranking_prompt prompt = false ->
      succeeds (to_numeric col1) = false ->
      create_chart_from_data to_numeric str data prompt = None).
Proof.
  intros Hne Hnum data.
  assert (create_chart_from_data to_numeric str data prompt
          = (if ranking_prompt prompt || (len data <=? 10)%nat then
               Some (mkFigure [BarTrace (astype_str str col1) (values numbers)
                                        "#1f77b4"]
                              "Comparison Analysis"
                              (axis_label (name col1)) (axis_label (name col2)))
             else if (20 <? len data)%nat then
               Some (mkFigure [Scatter (astype_str str col1) (values numbers)
                                       "lines+markers" "" "#1f77b4"]
                              "Trend Analysis"
                              (axis_label (name col1)) (axis_label (name col2)))
             else if succeeds (to_numeric col1) then
               Some (mkFigure (series_traces data [col1; col2])
                              "Multi-Series Analysis" "Index" "Values")
             else None)) as Heq.
  { unfold create_chart_from_data. subst data. rewrite Hne.
    unfold category_value_chart, ranking_prompt. rewrite Hnum.
    destruct (contains "top" (lower prompt) || contains "rank" (lower prompt)
              || (len [col1; col2] <=? 10)%nat); [reflexivity|].
    destruct (20 <? len [col1; col2])%nat; [reflexivity|].
    unfold multi_series_chart, chart_numeric_cols. cbn [filter].
    rewrite Hnum. cbn [succeeds].
    now destruct (succeeds (to_numeric col1)). }
  split; [exact Heq|].
  intros [H11 H20] Hrank Hcat. rewrite Heq, Hrank, Hcat.
  destruct (Nat.leb_spec (len data) 10); [lia|].
  destruct (Nat.ltb_spec 20 (len data)); [lia|]. reflexivity.
Qed.

End ChartFacts.

Lemma chart_of_category_value_frame_witness :
  create_chart_from_data RefPandas.to_numeric RefPandas.str
                         twelve_categories "sales by product"
  = None.
Proof.
  apply (chart_of_category_value_frame RefPandas.to_numeric RefPandas.str
           (mkSeries "product_name" Object
              (texts ["a"; "b"; "c"; "d"; "e"; "f"; "g"; "h"; "i"; "j"; "k"; "l"]))
           (mkSeries "total_amount" Int64
              (numbers [12; 11; 10; 9; 8; 7; 6; 5; 4; 3; 2; 1]))
           (mkSeries "total_amount" Int64
              (numbers [12; 11; 10; 9; 8; 7; 6; 5; 4; 3; 2; 1]))
           "sales by product");
    try reflexivity.
  simpl. lia.
Defined.

(* ================================================================= *)
(** * ForecastingEngine *)

Lemma for_each_length {A B : Type} (f : A -> result B) (l : list A)
      (out : list B) :
  for_each f l = Ok out -> length out = length l.
Proof.
  revert out. induction l as [|a l IH]; simpl; intros out H.
  - now injection H as <-.
  - destruct (f a) as [b|]; cbn [bind] in H; [|discriminate].
    destruct (for_each f l) as [bs|]; cbn [bind] in H; [|discriminate].
    injection H as <-. simpl. now rewrite (IH bs).
Qed.

Lemma for_each_ok {A B : Type} (f : A -> result B) (g : A -> B) (l : list A) :
  (forall a, In a l -> f a = Ok (g a)) -> for_each f l = Ok (map g l).
Proof.
  induction l as [|a l IH]; simpl; intros H; [reflexivity|].
  rewrite (H a) by now left. cbn [bind].
  rewrite IH by (intros b Hb; apply H; now right). reflexivity.
Qed.

Section ForecastingFacts.

Variable to_datetime : Series -> result (list (option Timestamp)).
Variable to_numeric_coerce : Series -> Series.
Variable polyfit_nonfinite : list npfloat -> result (npfloat * npfloat).
Variable prophet_available : bool.
Variable prophet : list (Timestamp * value) -> nat -> result (list forecast_row).

Let simple : DataFrame -> nat -> option (list forecast_row) :=
  _simple_trend_forecast to_datetime to_numeric_coerce polyfit_nonfinite.

Let validate : DataFrame -> bool :=
  validate_forecast_data to_datetime to_numeric_coerce.

Lemma simple_trend_rows (data : DataFrame) (periods : nat)
      (out : list forecast_row) :
  simple_trend to_datetime to_numeric_coerce polyfit_nonfinite data periods
  = Ok (Some out) ->
  length out = periods
  /\ exists c0 c1 rest dates,
       data = c0 :: c1 :: rest
       /\ to_datetime c0 = Ok dates
       /\ (3 <= length (valid_rows dates (values (to_numeric_coerce c1))))%nat.
Proof.
  unfold simple_trend, iloc_col.
  destruct data as [|c0 [|c1 rest]]; cbn [nth_error bind].
  - discriminate.
  - destruct (to_datetime c0); cbn [bind]; discriminate.
  - destruct (to_datetime c0) as [dates|] eqn:Hd; cbn [bind]; [|discriminate].
    set (rows := valid_rows dates (values (to_numeric_coerce c1))).
    rewrite length_map.
    destruct (Nat.ltb_spec (length rows) 3) as [Hlt|Hge]; [discriminate|].
    destruct (polyfit _ _) as [coeffs|]; cbn [bind]; [|discriminate].
    destruct (future_dates _ periods) as [future|] eqn:Hf; cbn [bind];
      [|discriminate].
    destruct (for_each strftime_cell future) as [labels|] eqn:Hl;
      cbn [bind]; [|discriminate].
    intros H. injection H as <-.
    apply for_each_length in Hf, Hl. rewrite length_seq in Hf.
    split.
    + rewrite length_map, length_combine. unfold arange.
      rewrite !length_map, length_seq. lia.
    + now exists c0, c1, rest, dates.
Qed.


(** X19. [_simple_trend_forecast] (lines 73-123) gives no forecast for
    a frame with fewer than three rows or fewer than two columns, when
    the first column does not convert to dates, and when fewer than
    three values of the second column are numbers.  When it gives one,
    the forecast has exactly [periods] rows, and the frame passes
    [validate_forecast_data]. *)
Theorem simple_forecast_none_or_rows (data : DataFrame) (periods : nat) :
  ((len data < 3)%nat -> simple data periods = None)
  /\ ((length data < 2)%nat -> simple data periods = None)
  /\ (forall c0 rest e,
        data = c0 :: rest -> to_datetime c0 = Raise e ->
        simple data periods = None)
  /\ (forall c0 c1 rest dates,
        data = c0 :: c1 :: rest -> to_datetime c0 = Ok dates ->
        (length (valid_rows dates (values (to_numeric_coerce c1))) < 3)%nat ->
        simple data periods = None)
  /\ (forall out,
        simple data periods = Some out ->
        length out = periods /\ (3 <= len data)%nat /\ validate data = true).
Proof.
  unfold simple, _simple_trend_forecast.
  split; [|split; [|split; [|split]]].
  - intros H. apply Nat.ltb_lt in H. now rewrite H.
  - intros H. destruct (len data <? 3)%nat; [reflexivity|].
    unfold simple_trend, iloc_col.
    destruct data as [|c0 [|c1 rest]]; cbn [nth_error bind];
      [reflexivity| |simpl in H; lia].
    now destruct (to_datetime c0).
  - intros c0 rest e -> Hd. destruct (len _ <? 3)%nat; [reflexivity|].
    unfold simple_trend, iloc_col. cbn [nth_error bind]. now rewrite Hd.
  - intros c0 c1 rest dates -> Hd Hrows.
    destruct (len _ <? 3)%nat; [reflexivity|].
    unfold simple_trend, iloc_col. cbn [nth_error bind]. rewrite Hd.
    cbn [bind]. rewrite length_map. apply Nat.ltb_lt in Hrows.
    now rewrite Hrows.
  - intros out. destruct (Nat.ltb_spec (len data) 3) as [|Hlen];
      [discriminate|].
    destruct (simple_trend _ _ _ data periods) as [answer|] eqn:Hs;
      [|discriminate].
    intros ->. apply simple_trend_rows in Hs
      as (Hout & c0 & c1 & rest & dates & -> & Hd & _).
    split; [exact Hout|]. split; [exact Hlen|].
    unfold validate, validate_forecast_data, empty, iloc_col.
    cbn [nth_error bind length Nat.eqb orb].
    destruct (Nat.eqb_spec (len (c0 :: c1 :: rest)) 0); [lia|].
    destruct (Nat.ltb_spec (len (c0 :: c1 :: rest)) 3); [lia|].
    cbn [orb]. now rewrite Hd.
Qed.

(** The future dates and their labels, when the last date is a date
    and the horizon stays within the range of timestamps. *)
Lemma future_dates_ok (t : Timestamp) (periods : nat) :
  t + 30 * Z.of_nat periods * ns_per_day <= timestamp_max ->
  future_dates (Some t) periods
  = Ok (map (fun i => Some (t + 30 * Z.of_nat i * ns_per_day))
            (seq 1 periods)).
Proof.
  intros H. unfold future_dates. apply for_each_ok.
  intros i Hi. apply in_seq in Hi.
  assert (t + 30 * Z.of_nat i * ns_per_day <= timestamp_max) as Hle.
  { unfold ns_per_day in *. nia. }
  apply Z.ltb_ge in Hle. now rewrite Hle.
Qed.

(** X20. [_simple_trend_forecast] returns a forecast as soon as the
    frame has three rows, its first column converts, at least three
    values of the second column are finite numbers, the last of their
    dates is a date, and thirty days times the horizon stay within the
    range of timestamps.  Row [i] is labelled with the month thirty
    days times [i + 1] after that date; its forecast is the
    least-squares line through the values at position [n + i]; its two
    bounds lie 1.96 standard deviations of the residuals below and above
    the forecast. *)
Theorem simple_forecast_returns (c0 c1 : Series) (rest : list Series)
        (dates : list (option Timestamp)) (t : Timestamp) (periods : nat) :
  let data := c0 :: c1 :: rest in
  let rows := valid_rows dates (values (to_numeric_coerce c1)) in
  let ys := map snd rows in
  (3 <= len data)%nat ->
  to_datetime c0 = Ok dates ->
  (3 <= length rows)%nat ->
  forallb is_finite ys = true ->
  last (map fst rows) None = Some t ->
  t + 30 * Z.of_nat periods * ns_per_day <= timestamp_max ->
  exists out sigma,
    simple data periods = Some out
    /\ length out = periods
    /\ sigma
       = fstd0 (map (fun xv =>
                       fsub (snd xv)
                            (fadd (fmul (fst (least_squares ys)) (fst xv))
                                  (snd (least_squares ys))))
                    (combine (arange 0 (length ys)) ys))
    /\ forall i, (i < periods)%nat ->
         exists row,
           nth_error out i = Some row
           /\ f_date row
              = strftime_Y_m (t + 30 * Z.of_nat (S i) * ns_per_day)
           /\ f_forecast row
              = fadd (fmul (fst (least_squares ys)) (of_nat (length ys + i)))
                     (snd (least_squares ys))
           /\ f_lower_bound row
              = fsubs (f_forecast row) (smulq sigma (196 # 100))
           /\ f_upper_bound row
              = fadds (f_forecast row) (smulq sigma (196 # 100)).
Proof.
  intros data rows ys Hlen Hd Hrows Hfin Hlast Hmax.
  unfold simple, _simple_trend_forecast.
  destruct (Nat.ltb_spec (len data) 3); [lia|].
  unfold simple_trend, iloc_col. subst data. cbn [nth_error bind].
  rewrite Hd. cbn [bind]. fold rows. fold ys.
  assert (length ys = length rows) as Hys by (unfold ys; apply length_map).
  destruct (Nat.ltb_spec (length ys) 3); [lia|].
  unfold polyfit. rewrite Hfin. cbn [bind].
  rewrite Hlast, (future_dates_ok t periods Hmax). cbn [bind].
  rewrite (for_each_ok strftime_cell
             (fun d => match d with
                       | Some t' => strftime_Y_m t'
                       | None => ""
                       end)).
  2: { intros d Hin. apply in_map_iff in Hin as (i & <- & _). reflexivity. }
  cbn [bind]. eexists _, _. split; [reflexivity|].
  split; [|split; [reflexivity|]].
  - rewrite length_map, length_combine. unfold arange.
    rewrite !length_map, !length_seq. lia.
  - intros i Hi. eexists. split.
    + rewrite nth_error_map.
      assert (nth_error
                (combine
                   (map (fun d => match d with
                                  | Some t' => strftime_Y_m t'
                                  | None => ""
                                  end)
                        (map (fun i => Some (t + 30 * Z.of_nat i * ns_per_day))
                             (seq 1 periods)))
                   (map (fun fx => fadd (fmul (fst (least_squares ys)) fx)
                                        (snd (least_squares ys)))
                        (arange (length ys) periods)))
                i
              = Some (strftime_Y_m (t + 30 * Z.of_nat (S i) * ns_per_day),
                      fadd (fmul (fst (least_squares ys))
                                 (of_nat (length ys + i)))
                           (snd (least_squares ys)))) as ->.
      { unfold arange. rewrite !map_map.
        rewrite (nth_error_nth' _ ("", NaN))
          by (rewrite length_combine, !length_map, !length_seq; lia).
        rewrite combine_nth by (rewrite !length_map, !length_seq; reflexivity).
        f_equal. f_equal.
        - erewrite nth_indep
            by (rewrite length_map, length_seq; exact Hi).
          rewrite (map_nth _ _ 0%nat).
          rewrite seq_nth by lia. reflexivity.
        - erewrite nth_indep
            by (rewrite length_map, length_seq; exact Hi).
          rewrite (map_nth _ _ 0%nat).
          rewrite seq_nth by lia. reflexivity. }
      cbn [option_map]. reflexivity.
    + cbn [f_date f_forecast f_lower_bound f_upper_bound fst snd].
      repeat split; reflexivity.
Qed.


(** X22. The bounds of the linear-trend forecast (lines 104-117).
    When a forecast is returned, the frame has a first column that
    converts and a second column; with [ys] the values of the second
    column that are numbers and [coeffs] what [np.polyfit] answered on
    them (the least-squares line when every value is finite), the
    forecasts are the line at the positions [n, n+1, ...], and on every
    row the two bounds lie exactly 1.96 times the population standard
    deviation of the residuals (each value minus the line at its
    position) below and above the forecast.  When the forecast and that deviation are
    finite, the lower bound is at most the forecast and the forecast at
    most the upper bound. *)
Theorem forecast_band (data : DataFrame) (periods : nat) :
  match simple data periods with
  | None => True
  | Some out =>
      exists c0 c1 rest dates coeffs,
        data = c0 :: c1 :: rest
        /\ to_datetime c0 = Ok dates
        /\ polyfit polyfit_nonfinite
                   (map snd (valid_rows dates (values (to_numeric_coerce c1))))
           = Ok coeffs
        /\ (forallb is_finite
                    (map snd (valid_rows dates (values (to_numeric_coerce c1))))
            = true ->
            coeffs
            = least_squares
                (map snd (valid_rows dates (values (to_numeric_coerce c1)))))
        /\ map f_forecast out
           = map (fun fx => fadd (fmul (fst coeffs) fx) (snd coeffs))
                 (arange
                    (length (valid_rows dates
                                        (values (to_numeric_coerce c1))))
                    periods)
        /\ Forall
             (fun row =>
                f_lower_bound row
                = fsubs (f_forecast row)
                    (smulq
                       (fstd0
                          (trend_residuals coeffs
                             (map snd
                                (valid_rows dates
                                   (values (to_numeric_coerce c1))))))
                       (196 # 100))
                /\ f_upper_bound row
                   = fadds (f_forecast row)
                       (smulq
                          (fstd0
                             (trend_residuals coeffs
                                (map snd
                                   (valid_rows dates
                                      (values (to_numeric_coerce c1))))))
                          (196 # 100)))
             out
        /\ forall c r,
             fstd0 (trend_residuals coeffs
                      (map snd (valid_rows dates
                                           (values (to_numeric_coerce c1)))))
             = SFin c r ->
             (0 <= c)%Q
             /\ forall row q,
                  In row out -> f_forecast row = Fin q ->
                  f_lower_bound row = BFin q (- (c * (196 # 100))) r
                  /\ f_upper_bound row = BFin q (c * (196 # 100)) r
                  /\ Rdefinitions.Rle (bound_real q (- (c * (196 # 100))) r)
                                      (Rdefinitions.Q2R q)
                  /\ Rdefinitions.Rle (Rdefinitions.Q2R q)
                                      (bound_real q (c * (196 # 100)) r)
  end.
Proof.
  unfold simple, _simple_trend_forecast.
  destruct (len data <? 3)%nat; [exact I|].
  destruct (simple_trend _ _ _ data periods) as [[out|]|] eqn:Hs;
    try exact I.
  unfold simple_trend, iloc_col in Hs.
  destruct data as [|c0 [|c1 rest]]; cbn [nth_error bind] in Hs;
    [discriminate|destruct (to_datetime c0); discriminate|].
  destruct (to_datetime c0) as [dates|] eqn:Hd; cbn [bind] in Hs;
    [|discriminate].
  set (rows := valid_rows dates (values (to_numeric_coerce c1))) in *.
  set (ys := map snd rows) in *.
  destruct (length ys <? 3)%nat; [discriminate|].
  destruct (polyfit polyfit_nonfinite ys) as [coeffs|] eqn:Hfit;
    cbn [bind] in Hs; [|discriminate].
  destruct (future_dates _ periods) as [future|] eqn:Hf; cbn [bind] in Hs;
    [|discriminate].
  destruct (for_each strftime_cell future) as [labels|] eqn:Hl;
    cbn [bind] in Hs; [|discriminate].
  apply for_each_length in Hf, Hl. rewrite length_seq in Hf.
  fold (trend_residuals coeffs ys) in Hs.
  set (sigma := fstd0 (trend_residuals coeffs ys)) in *.
  assert (length ys = length rows) as Hys by apply length_map.
  rewrite Hys in Hs.
  set (forecasted :=
         map (fun fx => fadd (fmul (fst coeffs) fx) (snd coeffs))
             (arange (length rows) periods)) in *.
  assert (length labels = length forecasted) as Hsame.
  { unfold forecasted, arange. rewrite !length_map, length_seq. lia. }
  injection Hs as <-.
  exists c0, c1, rest, dates, coeffs.
  split; [reflexivity|]. split; [exact Hd|]. split; [exact Hfit|].
  split.
  { intros Hfin. fold rows in Hfin. fold ys in Hfin.
    unfold polyfit in Hfit. rewrite Hfin in Hfit.
    now injection Hfit as <-. }
  split.
  { rewrite map_map. cbn [f_forecast].
    rewrite <- (map_map snd (fun q => q)), map_id.
    now apply map_snd_combine. }
  assert (Forall (fun row =>
                    f_lower_bound row
                    = fsubs (f_forecast row) (smulq sigma (196 # 100))
                    /\ f_upper_bound row
                       = fadds (f_forecast row) (smulq sigma (196 # 100)))
                 (map (fun lf =>
                         mkForecastRow (fst lf) (snd lf)
                           (fsubs (snd lf) (smulq sigma (196 # 100)))
                           (fadds (snd lf) (smulq sigma (196 # 100))))
                      (combine labels forecasted))) as Hband.
  { apply Forall_map, Forall_forall. intros lf _. now split. }
  split; [exact Hband|].
  intros c r Hw. change (sigma = SFin c r) in Hw.
  assert (0 <= c)%Q as Hc.
  { pose proof Hw as Hroot. unfold sigma, fstd0, fsqrt in Hroot.
    destruct (fmean _) as [| | |v]; try discriminate Hroot.
    destruct (Qle_bool 0 v); [|discriminate Hroot].
    injection Hroot as <- _. discriminate. }
  split; [exact Hc|].
  intros row q Hin Hq. rewrite Forall_forall in Hband.
  destruct (Hband row Hin) as [Hlo Hup].
  rewrite Hlo, Hup, Hq, Hw. cbn [smulq fsubs fadds sneg].
  split; [reflexivity|]. split; [reflexivity|].
  unfold bound_real, real_of.
  pose proof (R_sqrt.sqrt_pos (Rdefinitions.Q2R r)) as Hsq.
  assert (0 <= c * (196 # 100))%Q as Hk.
  { apply Qmult_le_0_compat; [exact Hc|discriminate]. }
  assert (Rdefinitions.Rle (Rdefinitions.IZR 0)
                           (Rdefinitions.Q2R (c * (196 # 100)))) as HcR.
  { replace (Rdefinitions.IZR 0) with (Rdefinitions.Q2R 0)
      by (unfold Rdefinitions.Q2R; simpl; Lra.lra).
    now apply Qreals.Qle_Rle. }
  rewrite Qreals.Q2R_opp.
  pose proof (RIneq.Rmult_le_pos _ _ HcR Hsq) as Hp.
  split; Lra.lra.
Qed.

End ForecastingFacts.

Lemma simple_forecast_returns_witness :
  exists out sigma,
    _simple_trend_forecast RefPandas.to_datetime RefPandas.to_numeric_coerce
                           polyfit_raises [linear_months; linear_sales] 2
    = Some out
    /\ length out = 2%nat
    /\ sigma
       = fstd0 (map (fun xv =>
                       fsub (snd xv)
                            (fadd (fmul (fst (least_squares
                                                [Fin 10; Fin 20; Fin 30]))
                                        (fst xv))
                                  (snd (least_squares
                                          [Fin 10; Fin 20; Fin 30]))))
                    (combine (arange 0 3) [Fin 10; Fin 20; Fin 30]))
    /\ forall i, (i < 2)%nat ->
         exists row,
           nth_error out i = Some row
           /\ f_date row
              = strftime_Y_m (timestamp_of_date 2024 3 1
                              + 30 * Z.of_nat (S i) * ns_per_day)
           /\ f_forecast row
              = fadd (fmul (fst (least_squares [Fin 10; Fin 20; Fin 30]))
                           (of_nat (3 + i)))
                     (snd (least_squares [Fin 10; Fin 20; Fin 30]))
           /\ f_lower_bound row
              = fsubs (f_forecast row) (smulq sigma (196 # 100))
           /\ f_upper_bound row
              = fadds (f_forecast row) (smulq sigma (196 # 100)).
Proof.
  apply (simple_forecast_returns RefPandas.to_datetime
           RefPandas.to_numeric_coerce polyfit_raises
           linear_months linear_sales [] linear_parsed
           (timestamp_of_date 2024 3 1) 2).
  - simpl. lia.
  - reflexivity.
  - simpl. lia.
  - reflexivity.
  - reflexivity.
  - vm_compute. discriminate.
Defined.

(* ================================================================= *)
(** * prepare_time_series_data keeps the rows it can read *)

Section PreparedRows.

Variable to_datetime : Series -> result (list (option Timestamp)).
Variable to_datetime_scalar : string -> result Timestamp.
Variable to_numeric : Series -> result Series.
Variable to_numeric_coerce : Series -> Series.
Variable str : value -> string.

Lemma filter_first {A : Type} (test : A -> bool) (l : list A) (x : A)
      (xs : list A) :
  filter test l = x :: xs ->
  exists before after,
    l = before ++ x :: after
    /\ test x = true
    /\ Forall (fun y => test y = false) before.
Proof.
  induction l as [|a l IH]; simpl; [discriminate|].
  destruct (test a) eqn:Ha.
  - intros H. injection H as -> _. exists [], l. now repeat split.
  - intros H. destruct (IH H) as (before & after & -> & Hx & Hb).
    exists (a :: before), after. repeat split; [exact Hx|].
    now constructor.
Qed.

Lemma filter_none {A : Type} (test : A -> bool) (l : list A) :
  filter test l = [] -> Forall (fun y => test y = false) l.
Proof.
  induction l as [|a l IH]; simpl; [constructor|].
  destruct (test a) eqn:Ha; [discriminate|]. intros H.
  constructor; [exact Ha|now apply IH].
Qed.

(** Which column is charted as the date: the first column whose label
    holds a date word and whose sample converts, and when no column is
    such, the first column of a frame of at least two columns. *)
Lemma date_columns_first (data : DataFrame) (date_col : Series)
      (ds : list Series) :
  date_columns to_datetime to_datetime_scalar str data = date_col :: ds ->
  first_column_passing (looks_like_date to_datetime) data date_col
  \/ (Forall (fun c => looks_like_date to_datetime c = false) data
      /\ exists second rest, data = date_col :: second :: rest).
Proof.
  unfold date_columns.
  destruct (named_date_columns to_datetime data) as [|d found] eqn:Hn.
  - intros H. right. split; [now apply filter_none|].
    unfold first_column_fallback in H.
    destruct data as [|first_col [|second rest]]; try discriminate H.
    destruct (0 <? _)%nat; [|discriminate H].
    destruct (to_datetime (test_data first_col)).
    + injection H as <- _. now exists second, rest.
    + unfold month_string_fallback in H.
      destruct (values first_col); [discriminate H|].
      destruct (_ && _); [|discriminate H].
      destruct (succeeds _); [|discriminate H].
      injection H as <- _. now exists second, rest.
  - intros H. injection H as <- <-. left.
    unfold named_date_columns in Hn.
    exact (filter_first _ _ _ _ Hn).
Qed.

(** X23. The frame [prepare_time_series_data] returns (lines 16-100).
    Its date column is made from the first column of the input whose
    label holds a date word and whose sample converts (when no column
    is such: from the first column of the input), its value column from
    the first column of the input whose sample is numeric, and the two
    carry different labels.  It holds exactly the rows of these two
    columns whose date converts and whose value is a number: sorting
    reorders them, none is lost, none is repeated, and every date keeps
    its value. *)
Theorem prepared_rows_are_the_readable_rows (data : DataFrame) :
  match prepare_time_series_data to_datetime to_datetime_scalar to_numeric
                                 to_numeric_coerce str data with
  | None => True
  | Some chart_data =>
      exists date_col value_col dates prepared_dates prepared_values,
        (first_column_passing (looks_like_date to_datetime) data date_col
         \/ (Forall (fun c => looks_like_date to_datetime c = false) data
             /\ exists second rest, data = date_col :: second :: rest))
        /\ first_column_passing (looks_numeric to_numeric) data value_col
        /\ name date_col <> name value_col
        /\ convert_dates to_datetime str date_col = Some dates
        /\ getcol chart_data "date" = Some prepared_dates
        /\ getcol chart_data "value" = Some prepared_values
        /\ chart_data = [prepared_dates; prepared_values]
        /\ Permutation
             (combine (values prepared_dates) (values prepared_values))
             (map (fun r => (VDate (fst r), snd r))
                  (dropna_pairs dates (values (to_numeric_coerce value_col))))
  end.
Proof.
  unfold prepare_time_series_data.
  destruct (empty data); [exact I|].
  destruct (date_columns _ _ _ data) as [|date_col ds] eqn:Hd; [exact I|].
  destruct (numeric_columns _ data) as [|value_col vs] eqn:Hv; [exact I|].
  destruct (String.eqb_spec (name date_col) (name value_col)) as [|Hne];
    [exact I|].
  destruct (convert_dates _ _ date_col) as [dates|] eqn:Hc; [|exact I].
  set (rs := dropna_pairs dates (values (to_numeric_coerce value_col))).
  destruct (length rs =? 0)%nat; [exact I|].
  exists date_col, value_col, dates. eexists _, _.
  split; [exact (date_columns_first data date_col ds Hd)|].
  split; [exact (filter_first _ _ _ _ Hv)|].
  split; [exact Hne|].
  split; [exact Hc|]. split; [reflexivity|]. split; [reflexivity|].
  split; [reflexivity|].
  cbn [values].
  assert (forall l : list (Timestamp * value),
             combine (map (fun r => VDate (fst r)) l) (map snd l)
             = map (fun r => (VDate (fst r), snd r)) l) as Hcomb.
  { induction l as [|r l IH]; simpl; [reflexivity|now rewrite IH]. }
  rewrite Hcomb. apply Permutation_map. unfold sort_by_date.
  apply Permutation_sym, sort_by_perm.
Qed.

End PreparedRows.

(* ================================================================= *)
(** * AdvancedAnalytics.generate_business_insights *)

Lemma growth_note_length (data : DataFrame) (c : Series) :
  (length (growth_note data c) <= 1)%nat.
Proof.
  unfold growth_note. destruct (1 <? len data)%nat; [|simpl; lia].
  destruct (fgtb _ _); simpl; lia.
Qed.

Lemma top_by_revenue_length (data : DataFrame) (label : string)
      (wrap : value -> business_note) (found : list business_note) :
  top_by_revenue data label wrap = Ok found ->
  (length found <= 1)%nat
  /\ (dashboard_revenue_cols data = [] -> found = []).
Proof.
  unfold top_by_revenue.
  destruct (dashboard_revenue_cols data) as [|c cs].
  - intros H. injection H as <-. split; [simpl; lia|reflexivity].
  - destruct (has_column data label).
    + destruct (loc data label) as [keys|]; cbn [bind]; [|discriminate].
      destruct (idxmax _) as [top|]; cbn [bind]; [|discriminate].
      intros H. injection H as <-. split; [simpl; lia|discriminate].
    + intros H. injection H as <-. split; [simpl; lia|discriminate].
Qed.

Lemma top_by_revenue_without_revenue (data : DataFrame) (label : string)
      (wrap : value -> business_note) :
  dashboard_revenue_cols data = [] ->
  top_by_revenue data label wrap = Ok [].
Proof.
  unfold top_by_revenue. now intros ->.
Qed.

(** X24. [generate_business_insights] (advanced_analytics.py, lines
    266-304) never collects more than five insights, so the final
    [insights[:5]] drops nothing.  Without a numeric column whose label
    contains 'revenue' or 'total' the list is empty; with one it starts
    with the total and the average.  The line of the exception handler
    appears at most once, and then it is the last one. *)
Theorem business_notes_are_never_truncated (data : DataFrame) (prompt : string) :
  generate_business_insights data prompt = collected_insights data
  /\ (length (generate_business_insights data prompt) <= 5)%nat
  /\ (dashboard_revenue_cols data = [] ->
      generate_business_insights data prompt = [])
  /\ (forall c cs, dashboard_revenue_cols data = c :: cs ->
      exists more,
        generate_business_insights data prompt
        = TotalRevenue (sum c) :: AverageTransaction (mean c) :: more)
  /\ (In AnalysisComplete (generate_business_insights data prompt) ->
      exists front,
        generate_business_insights data prompt = front ++ [AnalysisComplete]
        /\ ~ In AnalysisComplete front).
Proof.
  assert (length (collected_insights data) <= 5)%nat as Hlen.
  { unfold collected_insights, revenue_notes.
    destruct (top_by_revenue data "product_name" _) as [ps|] eqn:Hp.
    - apply top_by_revenue_length in Hp as [Hp _].
      destruct (top_by_revenue data "customer_country" _) as [cs|] eqn:Hc.
      + apply top_by_revenue_length in Hc as [Hc _].
        destruct (dashboard_revenue_cols data) as [|c rest];
          rewrite ?length_app; simpl; rewrite ?length_app;
          try pose proof (growth_note_length data c); simpl; lia.
      + destruct (dashboard_revenue_cols data) as [|c rest];
          rewrite ?length_app; simpl; rewrite ?length_app;
          try pose proof (growth_note_length data c); simpl; lia.
    - destruct (dashboard_revenue_cols data) as [|c rest];
        rewrite ?length_app; simpl; rewrite ?length_app;
        try pose proof (growth_note_length data c); simpl; lia. }
  assert (generate_business_insights data prompt = collected_insights data)
    as Heq by (apply firstn_all2; exact Hlen).
  rewrite Heq. split; [reflexivity|]. split; [exact Hlen|].
  split; [|split].
  - intros Hrev. unfold collected_insights, revenue_notes.
    rewrite !(top_by_revenue_without_revenue _ _ _ Hrev). now rewrite Hrev.
  - intros c cs Hrev. unfold collected_insights, revenue_notes. rewrite Hrev.
    destruct (top_by_revenue data "product_name" _);
      [destruct (top_by_revenue data "customer_country" _)|];
      eexists; simpl; reflexivity.
  - unfold collected_insights.
    assert (~ In AnalysisComplete (revenue_notes data)) as Hr.
    { unfold revenue_notes, growth_note.
      destruct (dashboard_revenue_cols data) as [|c rest]; [intros []|].
      destruct (1 <? len data)%nat; [destruct (fgtb _ _)|]; simpl;
        intuition discriminate. }
    assert (forall label wrap found,
               (forall v, wrap v <> AnalysisComplete) ->
               top_by_revenue data label wrap = Ok found ->
               ~ In AnalysisComplete found) as Ht.
    { intros label wrap found Hw. unfold top_by_revenue.
      destruct (dashboard_revenue_cols data) as [|c rest].
      - intros H. injection H as <-. intros [].
      - destruct (has_column data label).
        + destruct (loc data label); cbn [bind]; [|discriminate].
          destruct (idxmax _); cbn [bind]; [|discriminate].
          intros H. injection H as <-. intros [E|[]]. now apply Hw in E.
        + intros H. injection H as <-. intros []. }
    destruct (top_by_revenue data "product_name" _) as [ps|] eqn:Hp.
    + assert (~ In AnalysisComplete ps) as Hps
        by (apply (Ht "product_name" TopPerformingProduct ps);
            [intros v; discriminate|exact Hp]).
      destruct (top_by_revenue data "customer_country" _) as [cs|] eqn:Hc.
      * assert (~ In AnalysisComplete cs) as Hcs
          by (apply (Ht "customer_country" HighestRevenueMarket cs);
              [intros v; discriminate|exact Hc]).
        intros Hin. exfalso.
        apply in_app_or in Hin as [Hin|Hin]; [now apply Hr|].
        apply in_app_or in Hin as [Hin|Hin]; [now apply Hps|now apply Hcs].
      * intros _. exists (revenue_notes data ++ ps).
        split; [now rewrite app_assoc|].
        intros Hin. apply in_app_or in Hin as [Hin|Hin]; auto.
    + intros _. exists (revenue_notes data). split; [reflexivity|exact Hr].
Qed.

(* ================================================================= *)
(** * The seasonality record of a flat column labelled 'month_num' *)

(** C9. The frame [flat_month_num_table] holds twelve monthly dates
    beside a numeric column that is labelled 'month_num' and equals 7
    in every row.  The date column converts, the monthly aggregation
    has twelve buckets, the means of that column per month of the year
    are all 7 and their coefficient of variation does not exceed 0.1;
    yet the pattern step emits a seasonality record for the metric
    'month_num', with peak month 12 and low month 1 and a strength
    above 0.1: line 334 overwrites the column with the month numbers of
    the dates before line 335 averages it.  The same column under the
    label 'units' yields no record. *)
Theorem flat_month_num_column_yields_record :
  constant_cells (values flat_month_num)
  /\ hd_error (date_cols RefPandas.to_datetime flat_month_num_table)
     = Some flat_dates
  /\ select_dtypes_number flat_month_num_table = [flat_month_num]
  /\ RefPandas.to_datetime flat_dates = Ok flat_parsed
  /\ length (monthly_buckets flat_parsed flat_month_num) = 12%nat
  /\ map snd (month_of_year_means flat_parsed flat_month_num)
     = repeat (Fin 7) 12
  /\ sgtb (coefficient_of_variation
             (month_of_year_means flat_parsed flat_month_num)) (1 # 10)
     = false
  /\ (exists details s,
        patterns_of RefPandas.to_datetime flat_month_num_table = Ok details
        /\ seasonal_patterns details
           = [mkSeasonal "month_num" s (VNum 12) (VNum 1)]
        /\ sgtb s (1 # 10) = true)
  /\ (exists details,
        patterns_of RefPandas.to_datetime flat_units_table = Ok details
        /\ seasonal_patterns details = []).
Proof.
  split.
  { exists (VNum 7). intros x Hin _.
    repeat (destruct Hin as [<-|Hin]; [reflexivity|]). destruct Hin. }
  split; [vm_compute; reflexivity|].
  split; [reflexivity|].
  split; [vm_compute; reflexivity|].
  split; [vm_compute; reflexivity|].
  split; [vm_compute; reflexivity|].
  split; [vm_compute; reflexivity|].
  split.
  - eexists _, _. split; [vm_compute; reflexivity|].
    split; [reflexivity|]. vm_compute. reflexivity.
  - eexists. split; [vm_compute; reflexivity|]. reflexivity.
Qed.
